(** * Backfill of bid and budget snapshots: a model of
      [scripts/backfill_snapshots.py] and its properties.

    The script rebuilds, for every campaign and every date of a 29 day
    window, the value of three campaign attributes (budget_amount,
    target_cpa, target_roas) from the change events of the window and a
    snapshot of the current values, and writes the result one table per
    date.

    Modelling conventions.
    - A pandas DataFrame is a list of rows (a record per row); a column
      operation is a function on that list.  Row order is the DataFrame's
      row order.
    - A numeric cell of a float64 column is [option Q]: [None] is NaN/null,
      [Some q] the number.  The script performs no arithmetic on the values;
      it only compares them with 0, copies them and casts them to int, so
      the rounding of floating point arithmetic plays no part (the loss of
      digits of an integer beyond 2^53 that becomes a float64 is outside
      the model).
    - A calendar date is the number of days since 1970-01-01; the strings
      that the script passes around are produced by [strftime].
    - A Python str is the string of the bytes of its UTF-8 encoding.  The
      order of two str, which compares code points, is then the order of
      their bytes, and a character of the str is a group of one to four
      bytes.
    - A Python exception is the [Raise] outcome of the [result] type. *)

From stdpp Require Import gmap strings.
From Stdlib Require Import ZArith QArith List String Ascii Bool Lia.
From Stdlib Require Import Sorting.Sorted Structures.OrdersEx.
Import ListNotations.

Open Scope string_scope.
Open Scope list_scope.
Open Scope Z_scope.

(** ** Exceptions and fallible computations *)

Inductive exception :=
| IntCastingNaNError          (* astype(int) on a column that holds a NaN *)
| KeyError                    (* a column that does not exist *)
| OutOfBoundsDatetime         (* a date pandas' Timestamp cannot hold *)
| SinkError (code : Z).       (* any failure of the sink other than Conflict *)

Inductive result (A : Type) :=
| Ok (a : A)
| Raise (e : exception).
Arguments Ok {A} a.
Arguments Raise {A} e.

Definition bind {A B} (r : result A) (f : A -> result B) : result B :=
  match r with
  | Ok a => f a
  | Raise e => Raise e
  end.

Notation "'do' x <- c1 ; c2" := (bind c1 (fun x => c2))
  (at level 60, x name, c1 at next level, right associativity).

Fixpoint mapM {A B} (f : A -> result B) (l : list A) : result (list B) :=
  match l with
  | [] => Ok []
  | x :: tl => do y <- f x; do ys <- mapM f tl; Ok (y :: ys)
  end.

(** ** Frames *)

(** The three columns of the snapshot table that [restore_history] is
    called with ([name]). *)
Inductive dimension := budget_amount | target_cpa | target_roas.

Definition dimension_eqb (a b : dimension) : bool :=
  match a, b with
  | budget_amount, budget_amount => true
  | target_cpa, target_cpa => true
  | target_roas, target_roas => true
  | _, _ => false
  end.

(** Modelled from the spec: the rows of the change history report (the
    query class [ChangeHistory] of [src.queries]): an entity id, a change
    timestamp and an old/new pair for each tracked attribute. *)
Record change_row := {
  change_date : string;
  ch_campaign_id : Z;
  old_budget_amount : option Q;
  new_budget_amount : option Q;
  old_target_cpa : option Q;
  new_target_cpa : option Q;
  old_target_roas : option Q;
  new_target_roas : option Q
}.

(** A row of a normalized change history (the result of
    [format_partial_change_history]). *)
Record event := {
  ev_date : string;
  ev_campaign_id : Z;
  value_old : option Q;
  value_new : option Q
}.

(** Modelled from the spec: a row of the snapshot table [bid_budget]
    (one row per entity with the latest known value of each attribute). *)
Record snapshot_row := {
  sn_campaign_id : Z;
  sn_budget_amount : option Q;
  sn_target_cpa : option Q;
  sn_target_roas : option Q
}.

Definition snapshot_column (name : dimension) (s : snapshot_row) : option Q :=
  match name with
  | budget_amount => sn_budget_amount s
  | target_cpa => sn_target_cpa s
  | target_roas => sn_target_roas s
  end.

(** A row of the placeholder frame: columns [campaign_id], [date]. *)
Definition placeholder := (Z * string)%type.

(** A cell of a restored column: an int64 column after [astype(int)], a
    float64 column (NaN included) otherwise. *)
Inductive cell :=
| IntCell (z : Z)
| FloatCell (v : option Q).

(** A row of the frame [restore_history] returns: [date], [campaign_id]
    and the column [name]. *)
Record restored_row := {
  rs_date : string;
  rs_campaign_id : Z;
  rs_value : cell
}.

(** ** pandas operations *)

(** [pd.merge(left, right, how="left")]: every row of [left], in order,
    joined with each row of [right] that has the same key, in [right]'s
    order; a row of [left] without a match is kept once, with nulls. *)
Definition merge_row {L R O : Type} (same_key : L -> R -> bool)
    (join : L -> option R -> O) (right : list R) (l : L) : list O :=
  match List.filter (same_key l) right with
  | [] => [join l None]
  | matches => map (fun r => join l (Some r)) matches
  end.

Definition left_merge {L R O : Type} (same_key : L -> R -> bool)
    (join : L -> option R -> O) (left : list L) (right : list R) : list O :=
  flat_map (merge_row same_key join right) left.

(** [Series.fillna(other)], row by row. *)
Definition fillna (v other : option Q) : option Q :=
  match v with
  | Some x => Some x
  | None => other
  end.

(** The first non-null value of group [k] in [rows]. *)
Fixpoint next_valid (k : Z) (rows : list (Z * option Q)) : option Q :=
  match rows with
  | [] => None
  | (k', v) :: tl =>
      if k' =? k then fillna v (next_valid k tl) else next_valid k tl
  end.

(** [df.groupby(key)[col].bfill()]: a null is replaced by the next
    non-null value of the same group further down the frame. *)
Fixpoint group_bfill (rows : list (Z * option Q)) : list (option Q) :=
  match rows with
  | [] => []
  | (k, v) :: tl => fillna v (next_valid k tl) :: group_bfill tl
  end.

(** [df.groupby(key)[col].ffill()]: a null is replaced by the last
    non-null value of the same group further up the frame.  [last] is the
    running state: the last non-null value seen so far in each group. *)
Fixpoint group_ffill_from (last : gmap Z Q) (rows : list (Z * option Q))
    : list (option Q) :=
  match rows with
  | [] => []
  | (k, Some x) :: tl => Some x :: group_ffill_from (<[k := x]> last) tl
  | (k, None) :: tl => last !! k :: group_ffill_from last tl
  end.

Definition group_ffill (rows : list (Z * option Q)) : list (option Q) :=
  group_ffill_from ∅ rows.

(** ** restore_history *)

(** The frame [joined] after the first merge. *)
Record joined_row := {
  j_campaign_id : Z;
  j_date : string;
  j_value_old : option Q;
  j_value_new : option Q
}.

Definition same_campaign_date (p : placeholder) (e : event) : bool :=
  (fst p =? ev_campaign_id e) && String.eqb (snd p) (ev_date e).

Definition join_event (p : placeholder) (e : option event) : joined_row :=
  {| j_campaign_id := fst p;
     j_date := snd p;
     j_value_old := match e with Some e => value_old e | None => None end;
     j_value_new := match e with Some e => value_new e | None => None end |}.

(** [joined] with the column [filled_forward] (lines 40-50): the forward
    fill of [value_new], its nulls replaced by the backward fill of
    [value_old]. *)
Definition fill_forward_backward (joined : list joined_row)
    : list (joined_row * option Q) :=
  let filled_backward :=
    group_bfill (map (fun r => (j_campaign_id r, j_value_old r)) joined) in
  let filled_forward :=
    group_ffill (map (fun r => (j_campaign_id r, j_value_new r)) joined) in
  combine joined
    (map (fun fb => fillna (fst fb) (snd fb))
         (combine filled_forward filled_backward)).

(** A row of [joined] before the cast: [date], [campaign_id], [name]. *)
Definition filled_row := (string * Z * option Q)%type.

(** Lines 51-53: the merge with the snapshot and [np.where]. *)
Definition join_snapshot_where (name : dimension)
    (r : joined_row * option Q) (s : option snapshot_row) : filled_row :=
  let current :=
    match s with Some s => snapshot_column name s | None => None end in
  (j_date (fst r), j_campaign_id (fst r),
   match snd r with
   | None => current
   | Some x => Some x
   end).

(** Lines 55-58: the merge with the snapshot when there is no event. *)
Definition join_snapshot (name : dimension)
    (p : placeholder) (s : option snapshot_row) : filled_row :=
  (snd p, fst p,
   match s with Some s => snapshot_column name s | None => None end).

(** Lines 39-58: the column [name] of [joined] before the cast. *)
Definition fill_history (placeholder_df : list placeholder)
    (partial_history : list event) (current_values : list snapshot_row)
    (name : dimension) : list filled_row :=
  match partial_history with
  | _ :: _ =>
      let joined := left_merge same_campaign_date join_event
                      placeholder_df partial_history in
      let joined := fill_forward_backward joined in
      left_merge (fun r s => j_campaign_id (fst r) =? sn_campaign_id s)
                 (join_snapshot_where name) joined current_values
  | [] =>
      left_merge (fun p s => fst p =? sn_campaign_id s)
                 (join_snapshot name) placeholder_df current_values
  end.

(** The range of a 64 bit signed integer. *)
Definition int64_min : Z := - 2 ^ 63.
Definition int64_max : Z := 2 ^ 63 - 1.

(** The cast of one float64 value to int64: truncation toward zero.  A
    value whose integer part does not fit in 64 bits is outside what the
    cast defines; on x86-64 the result is the least int64. *)
Definition float_to_int (q : Q) : Z :=
  let t := Z.quot (Qnum q) (Zpos (Qden q)) in
  if (int64_min <=? t) && (t <=? int64_max) then t else int64_min.

(** [Series.astype(int)]: raises when the column holds a NaN. *)
Definition astype_int (v : option Q) : result Z :=
  match v with
  | Some q => Ok (float_to_int q)
  | None => Raise IntCastingNaNError
  end.

(** What the cast makes of a number in the column [name]. *)
Definition restored_cell (name : dimension) (q : Q) : cell :=
  if dimension_eqb name target_roas then FloatCell (Some q)
  else IntCell (float_to_int q).

(** Line 60: the cast of one cell of the column [name]; no cast for
    target_roas. *)
Definition cast_cell (name : dimension) (v : option Q) : result cell :=
  if dimension_eqb name target_roas then Ok (FloatCell v)
  else do z <- astype_int v; Ok (IntCell z).

(** Lines 59-61: the cast of the column [name] and the selection of the
    three columns. *)
Definition cast_row (name : dimension) (r : filled_row) : result restored_row :=
  let '(d, c, v) := r in
  do x <- cast_cell name v;
  Ok {| rs_date := d; rs_campaign_id := c; rs_value := x |}.

Definition restore_history (placeholder_df : list placeholder)
    (partial_history : list event) (current_values : list snapshot_row)
    (name : dimension) : result (list restored_row) :=
  mapM (cast_row name)
       (fill_history placeholder_df partial_history current_values name).

(** ** Dates and their strings *)

(** The calendar date of a day number (days since 1970-01-01) in the
    proleptic Gregorian calendar, as (year, month, day). *)
Definition civil_from_days (z : Z) : Z * Z * Z :=
  let z := z + 719468 in
  let era := z / 146097 in
  let doe := z mod 146097 in
  let yoe := (doe - doe / 1460 + doe / 36524 - doe / 146096) / 365 in
  let doy := doe - (365 * yoe + yoe / 4 - yoe / 100) in
  let mp := (5 * doy + 2) / 153 in
  let d := doy - (153 * mp + 2) / 5 + 1 in
  let m := if mp <? 10 then mp + 3 else mp - 9 in
  (if m <=? 2 then yoe + era * 400 + 1 else yoe + era * 400, m, d).

Definition days_from_civil (ymd : Z * Z * Z) : Z :=
  let '(y, m, d) := ymd in
  let y := if m <=? 2 then y - 1 else y in
  let era := y / 400 in
  let yoe := y mod 400 in
  let doy := (153 * (if 2 <? m then m - 3 else m + 9) + 2) / 5 + d - 1 in
  let doe := yoe * 365 + yoe / 4 - yoe / 100 + doy in
  era * 146097 + doe - 719468.

Definition digit (n : Z) : ascii := ascii_of_nat (48 + Z.to_nat (n mod 10)).

Definition digit_value (c : ascii) : option Z :=
  let n := Z.of_nat (nat_of_ascii c) in
  if (48 <=? n) && (n <=? 57) then Some (n - 48) else None.

(** [datetime.strftime("%Y-%m-%d")]. *)
Definition strftime (day : Z) : string :=
  let '(y, m, d) := civil_from_days day in
  String (digit (y / 1000)) (String (digit (y / 100)) (String (digit (y / 10))
  (String (digit y) (String "-" (String (digit (m / 10)) (String (digit m)
  (String "-" (String (digit (d / 10)) (String (digit d) EmptyString))))))))).

(** The day number of a string in the format ["%Y-%m-%d"], as
    [pd.date_range] reads its bounds. *)
Definition to_datetime (s : string) : option Z :=
  match s with
  | String y1 (String y2 (String y3 (String y4 (String "-" (String m1
    (String m2 (String "-" (String d1 (String d2 EmptyString))))))))) =>
      match digit_value y1, digit_value y2, digit_value y3, digit_value y4,
            digit_value m1, digit_value m2, digit_value d1, digit_value d2 with
      | Some y1, Some y2, Some y3, Some y4, Some m1, Some m2, Some d1, Some d2 =>
          Some (days_from_civil
                  (1000 * y1 + 100 * y2 + 10 * y3 + y4, 10 * m1 + m2, 10 * d1 + d2))
      | _, _, _, _, _, _, _, _ => None
      end
  | _ => None
  end.

(** The days pandas' Timestamp represents at midnight: 1677-09-22 to
    2262-04-11. *)
Definition timestamp_min : Z := -106751.
Definition timestamp_max : Z := 106751.

Definition in_bounds (day : Z) : bool :=
  (timestamp_min <=? day) && (day <=? timestamp_max).

(** [pd.date_range(start, end)]: every day from [start] to [end], both
    included; empty when [end] is before [start]. *)
Definition date_range (start stop : Z) : list Z :=
  map (fun i => start + Z.of_nat i) (seq 0 (Z.to_nat (stop - start + 1))).

(** ** format_partial_change_history *)

(** [str.isspace] of one character, given by its code point: the
    characters [str.split()] splits on. *)
Definition isspace (cp : N) : bool :=
  ((9 <=? cp) && (cp <=? 13) || (28 <=? cp) && (cp <=? 32) ||
   (cp =? 0x85) || (cp =? 0xA0) || (cp =? 0x1680) ||
   (0x2000 <=? cp) && (cp <=? 0x200A) ||
   (cp =? 0x2028) || (cp =? 0x2029) || (cp =? 0x202F) || (cp =? 0x205F) ||
   (cp =? 0x3000))%N.

(** The white space characters of one byte: the code points below 128
    that [isspace] holds of. *)
Definition is_space (c : ascii) : bool :=
  let n := nat_of_ascii c in
  ((9 <=? n) && (n <=? 13) || (28 <=? n) && (n <=? 32))%nat.

(** A byte [10xxxxxx], which continues a character. *)
Definition continuation (b : N) : bool := ((0x80 <=? b) && (b <=? 0xBF))%N.

(** The code point of a character of two bytes, [110xxxxx 10xxxxxx]. *)
Definition code2 (c1 c2 : ascii) : option N :=
  let b1 := N_of_ascii c1 in
  let b2 := N_of_ascii c2 in
  if ((0xC2 <=? b1) && (b1 <=? 0xDF))%N && continuation b2
  then Some ((b1 - 0xC0) * 64 + (b2 - 0x80))%N
  else None.

(** The code point of a character of three bytes,
    [1110xxxx 10xxxxxx 10xxxxxx]. *)
Definition code3 (c1 c2 c3 : ascii) : option N :=
  let b1 := N_of_ascii c1 in
  let b2 := N_of_ascii c2 in
  let b3 := N_of_ascii c3 in
  if ((0xE0 <=? b1) && (b1 <=? 0xEF))%N && continuation b2 && continuation b3
  then
    let cp := ((b1 - 0xE0) * 4096 + (b2 - 0x80) * 64 + (b3 - 0x80))%N in
    if (0x800 <=? cp)%N then Some cp else None
  else None.

Definition space2 (c1 c2 : ascii) : bool :=
  match code2 c1 c2 with
  | Some cp => isspace cp
  | None => false
  end.

Definition space3 (c1 c2 c3 : ascii) : bool :=
  match code3 c1 c2 c3 with
  | Some cp => isspace cp
  | None => false
  end.

(** Whether [s] starts with a white space character.  No white space
    character has four bytes. *)
Definition starts_with_space (s : string) : bool :=
  match s with
  | String c1 tl1 =>
      is_space c1 ||
      match tl1 with
      | String c2 tl2 =>
          space2 c1 c2 ||
          match tl2 with
          | String c3 _ => space3 c1 c2 c3
          | EmptyString => false
          end
      | EmptyString => false
      end
  | EmptyString => false
  end.

(** [s] without the white space it starts with. *)
Fixpoint skip_spaces (s : string) : string :=
  match s with
  | String c1 tl1 =>
      if is_space c1 then skip_spaces tl1 else
      match tl1 with
      | String c2 tl2 =>
          if space2 c1 c2 then skip_spaces tl2 else
          match tl2 with
          | String c3 tl3 => if space3 c1 c2 c3 then skip_spaces tl3 else s
          | EmptyString => s
          end
      | EmptyString => s
      end
  | EmptyString => EmptyString
  end.

(** [s] up to its first white space character. *)
Fixpoint take_word (s : string) : string :=
  match s with
  | String c tl =>
      if starts_with_space s then EmptyString else String c (take_word tl)
  | EmptyString => EmptyString
  end.

(** [s.split()[0]] when [s] has a word, the null of
    [Series.str.split(expand=True)[0]] in a row that has none. *)
Definition first_word (s : string) : option string :=
  match skip_spaces s with
  | EmptyString => None
  | w => Some (take_word w)
  end.

Definition old_column (dimension_name : dimension) (r : change_row) : option Q :=
  match dimension_name with
  | budget_amount => old_budget_amount r
  | target_cpa => old_target_cpa r
  | target_roas => old_target_roas r
  end.

Definition new_column (dimension_name : dimension) (r : change_row) : option Q :=
  match dimension_name with
  | budget_amount => new_budget_amount r
  | target_cpa => new_target_cpa r
  | target_roas => new_target_roas r
  end.

(** The order of the group keys [(date, campaign_id)]. *)
Definition key_compare (k1 k2 : string * Z) : comparison :=
  match String_as_OT.compare (fst k1) (fst k2) with
  | Eq => Z.compare (snd k1) (snd k2)
  | c => c
  end.

Definition event_key (e : event) : string * Z := (ev_date e, ev_campaign_id e).

(** What [GroupBy.last()] keeps of a group when the row [e] comes after
    the rows summed up in [x]: column by column the last value that is not
    null. *)
Definition last_of (x e : event) : event :=
  {| ev_date := ev_date x;
     ev_campaign_id := ev_campaign_id x;
     value_old := fillna (value_old e) (value_old x);
     value_new := fillna (value_new e) (value_new x) |}.

(** One more row for the groups [groups], which are sorted by key. *)
Fixpoint add_to_group (e : event) (groups : list event) : list event :=
  match groups with
  | [] => [e]
  | x :: tl =>
      match key_compare (event_key e) (event_key x) with
      | Eq => last_of x e :: tl
      | Lt => e :: x :: tl
      | Gt => x :: add_to_group e tl
      end
  end.

(** [df.groupby(["date", "campaign_id"]).last()]: one row per key, sorted
    by key. *)
Definition groupby_last (rows : list event) : list event :=
  fold_left (fun groups e => add_to_group e groups) rows [].

(** Lines 67-71: the row of [df] with its [date] and the renamed value
    columns; [None] when the date is null, a row [groupby] drops. *)
Definition renamed (dimension_name : dimension) (r : change_row) : option event :=
  match first_word (change_date r) with
  | Some d => Some {| ev_date := d;
                      ev_campaign_id := ch_campaign_id r;
                      value_old := old_column dimension_name r;
                      value_new := new_column dimension_name r |}
  | None => None
  end.

Fixpoint somes {A} (l : list (option A)) : list A :=
  match l with
  | [] => []
  | Some x :: tl => x :: somes tl
  | None :: tl => somes tl
  end.

(** When no row has a word, the frame [str.split(expand=True)] returns
    has no column and its column [0] is a KeyError. *)
Definition format_partial_change_history (df : list change_row)
    (dimension_name : dimension) : result (list event) :=
  let rows := map (renamed dimension_name) df in
  match somes rows with
  | [] => Raise KeyError
  | dated => Ok (groupby_last dated)
  end.

(** ** main *)

(** [x > 0] on a float64 column: false on a null. *)
Definition positive_value (v : option Q) : bool :=
  match v with
  | Some q => 0 <? Qnum q
  | None => false
  end.

(** Lines 127-128: the rows where a budget change occurred. *)
Definition budget_changed (r : change_row) : bool :=
  positive_value (old_budget_amount r) && positive_value (new_budget_amount r).

(** Line 136: the rows where a bid change occurred. *)
Definition bid_changed (r : change_row) : bool :=
  positive_value (old_target_cpa r).

(** Lines 127-133 and 136-141: the rows of [change_history] that pass
    [changed], formatted unless there is none. *)
Definition change_events (changed : change_row -> bool)
    (dimension_name : dimension) (change_history : list change_row)
    : result (list event) :=
  match List.filter changed change_history with
  | [] => Ok []
  | rows => format_partial_change_history rows dimension_name
  end.

(** Lines 102-107: the list [dates].  [now1] and [now2] are the days of
    the two readings of the clock ([datetime.now()], twice). *)
Definition window (now1 now2 : Z) : result (list string) :=
  if in_bounds (now1 - 29) && in_bounds (now2 - 1) then
    let days_ago_29 := strftime (now1 - 29) in
    let days_ago_1 := strftime (now2 - 1) in
    match to_datetime days_ago_29, to_datetime days_ago_1 with
    | Some start, Some stop => Ok (map strftime (date_range start stop))
    | _, _ => Raise OutOfBoundsDatetime
    end
  else Raise OutOfBoundsDatetime.

(** Lines 162-164: [itertools.product(campaign_ids, dates)]. *)
Definition placeholders (campaign_ids : list Z) (dates : list string)
    : list placeholder :=
  list_prod campaign_ids dates.

(** A row of the wide table: the three restored columns side by side.  A
    column of a right-hand frame is null in a row the merge found no match
    for. *)
Record wide_row := {
  w_date : string;
  w_campaign_id : Z;
  w_budget_amount : cell;
  w_target_cpa : option cell;
  w_target_roas : option cell
}.

Definition same_date_campaign (d : string) (c : Z) (r : restored_row) : bool :=
  String.eqb d (rs_date r) && (c =? rs_campaign_id r).

(** Lines 173-176: the left merges on [date] and [campaign_id], from left
    to right. *)
Definition combine_histories
    (restored_budgets restored_target_cpas restored_target_roas : list restored_row)
    : list wide_row :=
  let first :=
    left_merge (fun l r => same_date_campaign (rs_date l) (rs_campaign_id l) r)
      (fun l r => (l, option_map rs_value r))
      restored_budgets restored_target_cpas in
  left_merge
    (fun l r => same_date_campaign (rs_date (fst l)) (rs_campaign_id (fst l)) r)
    (fun l r => {| w_date := rs_date (fst l);
                   w_campaign_id := rs_campaign_id (fst l);
                   w_budget_amount := rs_value (fst l);
                   w_target_cpa := snd l;
                   w_target_roas := option_map rs_value r |})
    first restored_target_roas.

(** Lines 121-176: the wide table for the dates [dates]. *)
Definition restored_bid_budget_history (dates : list string)
    (change_history : list change_row) (campaign_ids : list Z)
    (current_bids_budgets : list snapshot_row) : result (list wide_row) :=
  do budgets <- change_events budget_changed budget_amount change_history;
  do bids <- change_events bid_changed target_cpa change_history;
  let placeholders := placeholders campaign_ids dates in
  do restored_budgets <-
    restore_history placeholders budgets current_bids_budgets budget_amount;
  do restored_target_cpas <-
    restore_history placeholders bids current_bids_budgets target_cpa;
  do restored_target_roas <-
    restore_history placeholders bids current_bids_budgets target_roas;
  Ok (combine_histories restored_budgets restored_target_cpas
        restored_target_roas).

(** [date.replace('-', '')]. *)
Fixpoint remove_dashes (s : string) : string :=
  match s with
  | String c tl =>
      if Ascii.eqb c "-" then remove_dashes tl else String c (remove_dashes tl)
  | EmptyString => EmptyString
  end.

Definition table_id (bq_project bq_dataset date : string) : string :=
  bq_project +:+ "." +:+ bq_dataset +:+ ".bid_budgets_" +:+ remove_dashes date.

(** Modelled from the spec: the outcomes of a write to the Sink: the table
    was created, it exists already ([Conflict]), or the write failed
    otherwise. *)
Inductive write_outcome :=
| Written (store : gmap string (list wide_row))
| Conflict
| Failed (code : Z).

(** Modelled from the spec: the Sink ([write_data_to_bq] of [src.utils],
    called with the write disposition WRITE_EMPTY).  It accepts a table
    identifier and a row set, creates the table if it is absent, and signals
    "already exists" apart from every other failure.  The destination is a
    map from table identifiers to row sets; [fault] tells which identifiers
    the destination refuses (permission, malformed identifier, quota) and
    with what code. *)
Definition write_data_to_bq (fault : string -> option Z)
    (store : gmap string (list wide_row)) (data : list wide_row)
    (table : string) : write_outcome :=
  match fault table with
  | Some code => Failed code
  | None =>
      match store !! table with
      | Some _ => Conflict
      | None => Written (<[table := data]> store)
      end
  end.

(** The state of a run: the destination, the warnings logged so far (the
    table of each) and the exception that ended the run, if any. *)
Record run := {
  destination : gmap string (list wide_row);
  warnings : list string;
  raised : option exception
}.

(** Lines 179-189: the loop over the dates.  [Conflict] is caught and
    logged, any other failure leaves the loop. *)
Fixpoint write_partitions (bq_project bq_dataset : string)
    (fault : string -> option Z) (history : list wide_row)
    (store : gmap string (list wide_row)) (log : list string)
    (dates : list string) : run :=
  match dates with
  | [] => {| destination := store; warnings := log; raised := None |}
  | date :: rest =>
      let daily_history :=
        List.filter (fun r => String.eqb (w_date r) date) history in
      let table := table_id bq_project bq_dataset date in
      match write_data_to_bq fault store daily_history table with
      | Written store' =>
          write_partitions bq_project bq_dataset fault history store' log rest
      | Conflict =>
          write_partitions bq_project bq_dataset fault history store
            (log ++ [table]) rest
      | Failed code =>
          {| destination := store; warnings := log;
             raised := Some (SinkError code) |}
      end
  end.

Definition main (bq_project bq_dataset : string) (fault : string -> option Z)
    (now1 now2 : Z) (change_history : list change_row) (campaign_ids : list Z)
    (current_bids_budgets : list snapshot_row)
    (store : gmap string (list wide_row)) : run :=
  match window now1 now2 with
  | Raise e => {| destination := store; warnings := []; raised := Some e |}
  | Ok dates =>
      match restored_bid_budget_history dates change_history campaign_ids
              current_bids_budgets with
      | Raise e => {| destination := store; warnings := []; raised := Some e |}
      | Ok history =>
          write_partitions bq_project bq_dataset fault history store [] dates
      end
  end.

(** ** Auxiliary notions of the statements *)

(** The columns of [joined] that the fills read, with the group key. *)
Definition olds (joined : list joined_row) : list (Z * option Q) :=
  map (fun r => (j_campaign_id r, j_value_old r)) joined.

Definition news (joined : list joined_row) : list (Z * option Q) :=
  map (fun r => (j_campaign_id r, j_value_new r)) joined.

(** [fill_forward_backward] from a running state of the forward fill. *)
Definition fill_from (last : gmap Z Q) (joined : list joined_row)
    : list (joined_row * option Q) :=
  combine joined
    (map (fun fb => fillna (fst fb) (snd fb))
         (combine (group_ffill_from last (news joined))
                  (group_bfill (olds joined)))).

Definition of_campaign (e : Z) (r : joined_row) : bool := j_campaign_id r =? e.

(** The row of [joined] for a placeholder without an event. *)
Definition null_row (e : Z) (d : string) : joined_row :=
  {| j_campaign_id := e; j_date := d; j_value_old := None; j_value_new := None |}.

Definition fr_date (f : filled_row) : string := fst (fst f).
Definition fr_campaign_id (f : filled_row) : Z := snd (fst f).
Definition fr_value (f : filled_row) : option Q := snd f.

(** The last value of a column that is not null. *)
Definition last_valid (vals : list (option Q)) : option Q :=
  fold_left (fun acc v => fillna v acc) vals None.

(** The events of the group [k], a pair of a date and a campaign. *)
Definition in_group (k : string * Z) (e : event) : bool :=
  String.eqb (fst k) (ev_date e) && (snd k =? ev_campaign_id e).

(** The rows of the change history of the group [k]. *)
Definition raw_in_group (k : string * Z) (r : change_row) : bool :=
  match first_word (change_date r) with
  | Some d => String.eqb (fst k) d && (snd k =? ch_campaign_id r)
  | None => false
  end.

Definition key_lt (k1 k2 : string * Z) : Prop := key_compare k1 k2 = Lt.

Definition event_lt (x y : event) : Prop := key_lt (event_key x) (event_key y).

(** What [GroupBy.last()] makes of the group [k] of [rows]. *)
Definition group_last (k : string * Z) (rows : list event) : option event :=
  match List.filter (in_group k) rows with
  | [] => None
  | g => Some {| ev_date := fst k;
                 ev_campaign_id := snd k;
                 value_old := last_valid (map value_old g);
                 value_new := last_valid (map value_new g) |}
  end.

(** A row of the change history without its target_roas values. *)
Definition without_target_roas (r : change_row) : change_row :=
  {| change_date := change_date r;
     ch_campaign_id := ch_campaign_id r;
     old_budget_amount := old_budget_amount r;
     new_budget_amount := new_budget_amount r;
     old_target_cpa := old_target_cpa r;
     new_target_cpa := new_target_cpa r;
     old_target_roas := None;
     new_target_roas := None |}.

(** The first value of a column that is not null. *)
Fixpoint first_valid (vals : list (option Q)) : option Q :=
  match vals with
  | [] => None
  | v :: tl => fillna v (first_valid tl)
  end.

(** The event of the campaign [e] on the date [d], and its two values
    (null when there is no event). *)
Definition event_on (ph : list event) (e : Z) (d : string) : option event :=
  find (same_campaign_date (e, d)) ph.

Definition old_on (ph : list event) (e : Z) (d : string) : option Q :=
  match event_on ph e d with
  | Some ev => value_old ev
  | None => None
  end.

Definition new_on (ph : list event) (e : Z) (d : string) : option Q :=
  match event_on ph e d with
  | Some ev => value_new ev
  | None => None
  end.

(** Whether an event is on the grid: some placeholder has its campaign
    and its date. *)
Definition on_grid (placeholder_df : list placeholder) (ev : event) : bool :=
  existsb (fun p => same_campaign_date p ev) placeholder_df.

(** The number of rows of the snapshot for a campaign. *)
Definition snapshot_rows (cv : list snapshot_row) (c : Z) : nat :=
  List.length (List.filter (fun s => c =? sn_campaign_id s) cv).

(** The key of a restored row. *)
Definition restored_key (r : restored_row) : Z * string :=
  (rs_campaign_id r, rs_date r).

(** A row of the wide table from the rows of the three restored frames for
    one key. *)
Definition wide_of (t : restored_row * (restored_row * restored_row))
    : wide_row :=
  {| w_date := rs_date (fst t);
     w_campaign_id := rs_campaign_id (fst t);
     w_budget_amount := rs_value (fst t);
     w_target_cpa := Some (rs_value (fst (snd t)));
     w_target_roas := Some (rs_value (snd (snd t))) |}.

(** A date "YYYYMMDD" with its dashes again. *)
Definition with_dashes (s : string) : string :=
  match s with
  | String y1 (String y2 (String y3 (String y4 (String m1 (String m2
    (String d1 (String d2 EmptyString))))))) =>
      String y1 (String y2 (String y3 (String y4 (String "-" (String m1
      (String m2 (String "-" (String d1 (String d2 EmptyString)))))))))
  | _ => EmptyString
  end.

(** Whether a white space character starts somewhere in [s]. *)
Fixpoint has_space (s : string) : bool :=
  match s with
  | String c tl => starts_with_space s || has_space tl
  | EmptyString => false
  end.

(** The UTF-8 encoding of a code point. *)
Definition utf8 (cp : N) : string :=
  (if cp <? 0x80 then
     String (ascii_of_N cp) EmptyString
   else if cp <? 0x800 then
     String (ascii_of_N (0xC0 + cp / 64))
       (String (ascii_of_N (0x80 + cp mod 64)) EmptyString)
   else if cp <? 0x10000 then
     String (ascii_of_N (0xE0 + cp / 4096))
       (String (ascii_of_N (0x80 + (cp / 64) mod 64))
          (String (ascii_of_N (0x80 + cp mod 64)) EmptyString))
   else
     String (ascii_of_N (0xF0 + cp / 262144))
       (String (ascii_of_N (0x80 + (cp / 4096) mod 64))
          (String (ascii_of_N (0x80 + (cp / 64) mod 64))
             (String (ascii_of_N (0x80 + cp mod 64)) EmptyString))))%N.

(** The UTF-8 encoding of a str, given by its code points. *)
Fixpoint encode (s : list N) : string :=
  match s with
  | [] => EmptyString
  | cp :: tl => utf8 cp +:+ encode tl
  end.

(** [s.split()[0]] on the code points of [s]: the characters after the
    leading white space, up to the next white space. *)
Fixpoint lstrip (s : list N) : list N :=
  match s with
  | cp :: tl => if isspace cp then lstrip tl else s
  | [] => []
  end.

Fixpoint until_space (s : list N) : list N :=
  match s with
  | cp :: tl => if isspace cp then [] else cp :: until_space tl
  | [] => []
  end.

Definition split_first (s : list N) : option (list N) :=
  match lstrip s with
  | [] => None
  | w => Some (until_space w)
  end.

(** * Properties *)

(** ** Lists, merges and results *)

Lemma mapM_Ok_iff {A B} (f : A -> result B) (l : list A) (out : list B) :
  mapM f l = Ok out <-> Forall2 (fun x y => f x = Ok y) l out.
Proof.
  revert out. induction l as [|x l IH]; intros out; simpl.
  - split; intros H.
    + inversion H; constructor.
    + inversion H; reflexivity.
  - split; intros H.
    + destruct (f x) as [y|e] eqn:Hx; simpl in H; [|discriminate].
      destruct (mapM f l) as [ys|e] eqn:Hl; simpl in H; [|discriminate].
      inversion H; subst. constructor; [assumption|]. apply IH; reflexivity.
    + inversion H as [|? y ? ys Hx Hl]; subst. rewrite Hx. simpl.
      apply IH in Hl. rewrite Hl. reflexivity.
Qed.

Lemma mapM_all_Ok {A B} (f : A -> result B) (l : list A) :
  (forall x, In x l -> exists y, f x = Ok y) -> exists out, mapM f l = Ok out.
Proof.
  induction l as [|x l IH]; intros H; simpl.
  - eexists; reflexivity.
  - destruct (H x (or_introl eq_refl)) as [y Hy]. rewrite Hy. simpl.
    destruct IH as [ys Hys]; [intros; apply H; right; assumption|].
    rewrite Hys. simpl. eexists; reflexivity.
Qed.

Lemma mapM_Raise {A B} (f : A -> result B) (l : list A) (x : A) (e : exception) :
  In x l -> f x = Raise e ->
  (forall x' e', f x' = Raise e' -> e' = e) ->
  mapM f l = Raise e.
Proof.
  intros Hin Hx Hone. induction l as [|a l IH]; [contradiction|]. simpl.
  destruct (f a) as [y|e'] eqn:Ha; simpl.
  - destruct Hin as [->|Hin]; [congruence|]. rewrite (IH Hin). reflexivity.
  - f_equal. eapply Hone; eassumption.
Qed.

Lemma Forall2_In_l {A B} (R : A -> B -> Prop) l l' x :
  Forall2 R l l' -> In x l -> exists y, In y l' /\ R x y.
Proof.
  induction 1 as [|a b l l' Hab _ IH]; intros Hin; [contradiction|].
  destruct Hin as [->|Hin].
  - exists b; split; [left; reflexivity | assumption].
  - destruct (IH Hin) as [y [Hy HR]]. exists y; split; [right|]; assumption.
Qed.

Lemma Forall2_In_r {A B} (R : A -> B -> Prop) l l' y :
  Forall2 R l l' -> In y l' -> exists x, In x l /\ R x y.
Proof.
  induction 1 as [|a b l l' Hab _ IH]; intros Hin; [contradiction|].
  destruct Hin as [->|Hin].
  - exists a; split; [left; reflexivity | assumption].
  - destruct (IH Hin) as [x [Hx HR]]. exists x; split; [right|]; assumption.
Qed.

Lemma in_merge_row {L R O} (same_key : L -> R -> bool)
    (join : L -> option R -> O) right l o :
  In o (merge_row same_key join right l) <->
  (exists r, In r right /\ same_key l r = true /\ o = join l (Some r)) \/
  ((forall r, In r right -> same_key l r = false) /\ o = join l None).
Proof.
  unfold merge_row.
  destruct (List.filter (same_key l) right) as [|m ms] eqn:Hf.
  - split.
    + intros [<-|[]]. right. split; [|reflexivity].
      intros r Hr. destruct (same_key l r) eqn:Hk; [|reflexivity].
      assert (Hin : In r (List.filter (same_key l) right))
        by (apply filter_In; split; assumption).
      rewrite Hf in Hin. contradiction.
    + intros [[r [Hr [Hk ->]]] | [_ ->]]; [|left; reflexivity].
      assert (Hin : In r (List.filter (same_key l) right))
        by (apply filter_In; split; assumption).
      rewrite Hf in Hin. contradiction.
  - rewrite <- Hf. rewrite in_map_iff. split.
    + intros [r [<- Hr]]. apply filter_In in Hr. destruct Hr as [Hr Hk].
      left. exists r; repeat split; assumption.
    + intros [[r [Hr [Hk ->]]] | [Hnone ->]].
      * exists r; split; [reflexivity|]. apply filter_In; split; assumption.
      * assert (Hin : In m (List.filter (same_key l) right))
          by (rewrite Hf; left; reflexivity).
        apply filter_In in Hin. destruct Hin as [Hm Hk].
        rewrite (Hnone m Hm) in Hk. discriminate.
Qed.

Lemma in_left_merge {L R O} (same_key : L -> R -> bool)
    (join : L -> option R -> O) left right o :
  In o (left_merge same_key join left right) <->
  exists l, In l left /\
    ((exists r, In r right /\ same_key l r = true /\ o = join l (Some r)) \/
     ((forall r, In r right -> same_key l r = false) /\ o = join l None)).
Proof.
  unfold left_merge. rewrite in_flat_map.
  split; intros [l [Hl H]]; exists l; (split; [assumption|]);
    apply in_merge_row; assumption.
Qed.

Lemma filter_merge_row {L R O} (same_key : L -> R -> bool)
    (join : L -> option R -> O) (p : L -> bool) (q : O -> bool) right l :
  (forall r, q (join l r) = p l) ->
  List.filter q (merge_row same_key join right l) =
  if p l then merge_row same_key join right l else [].
Proof.
  intros Hq. unfold merge_row.
  destruct (List.filter (same_key l) right) as [|m ms].
  - simpl. rewrite Hq. destruct (p l); reflexivity.
  - induction (m :: ms) as [|a t IHt]; [destruct (p l); reflexivity|].
    simpl. rewrite Hq, IHt. destruct (p l); reflexivity.
Qed.

Lemma filter_left_merge {L R O} (same_key : L -> R -> bool)
    (join : L -> option R -> O) (p : L -> bool) (q : O -> bool) left right :
  (forall l r, q (join l r) = p l) ->
  List.filter q (left_merge same_key join left right) =
  left_merge same_key join (List.filter p left) right.
Proof.
  intros Hq. unfold left_merge.
  induction left as [|l left IH]; [reflexivity|].
  cbn [flat_map List.filter]. rewrite List.filter_app, IH.
  rewrite (filter_merge_row same_key join p q right l (Hq l)).
  destruct (p l); reflexivity.
Qed.

Lemma left_merge_at_most_one {L R O} (same_key : L -> R -> bool)
    (join : L -> option R -> O) left right :
  (forall l, In l left -> (List.length (List.filter (same_key l) right) <= 1)%nat) ->
  left_merge same_key join left right =
  map (fun l => join l (hd_error (List.filter (same_key l) right))) left.
Proof.
  unfold left_merge. induction left as [|l left IH]; intros H; [reflexivity|].
  cbn [flat_map map]. rewrite IH by (intros; apply H; right; assumption).
  specialize (H l (or_introl eq_refl)). unfold merge_row.
  destruct (List.filter (same_key l) right) as [|m [|m' ms]]; simpl in *;
    [reflexivity | reflexivity | lia].
Qed.

(** ** The fills *)

Lemma fill_forward_backward_from joined :
  fill_forward_backward joined = fill_from ∅ joined.
Proof. reflexivity. Qed.

Lemma fill_from_cons last r joined :
  fill_from last (r :: joined) =
  (r, fillna (fillna (j_value_new r) (last !! j_campaign_id r))
        (fillna (j_value_old r) (next_valid (j_campaign_id r) (olds joined))))
  :: fill_from (match j_value_new r with
                | Some x => <[j_campaign_id r := x]> last
                | None => last
                end) joined.
Proof.
  unfold fill_from. cbn [news olds map group_bfill group_ffill_from].
  destruct (j_value_new r); reflexivity.
Qed.

Lemma next_valid_of_campaign e joined :
  next_valid e (olds (List.filter (of_campaign e) joined)) =
  next_valid e (olds joined).
Proof.
  induction joined as [|r joined IH]; [reflexivity|].
  cbn [List.filter]. unfold of_campaign at 1.
  destruct (j_campaign_id r =? e) eqn:Hk.
  - cbn [olds map next_valid]. rewrite Hk. fold (olds joined).
    fold (olds (List.filter (of_campaign e) joined)). rewrite IH. reflexivity.
  - cbn [olds map next_valid]. rewrite Hk. exact IH.
Qed.

(** The filled values of a campaign depend on the rows of that campaign
    only. *)
Lemma fill_from_of_campaign e joined : forall last last',
  last !! e = last' !! e ->
  List.filter (fun p => of_campaign e (fst p)) (fill_from last joined) =
  fill_from last' (List.filter (of_campaign e) joined).
Proof.
  induction joined as [|r joined IH]; intros last last' Hlast; [reflexivity|].
  rewrite fill_from_cons. cbn [List.filter fst].
  destruct (of_campaign e r) eqn:Hk.
  - unfold of_campaign in Hk. apply Z.eqb_eq in Hk.
    rewrite fill_from_cons, Hk, next_valid_of_campaign, Hlast. f_equal.
    apply IH. destruct (j_value_new r).
    + rewrite !lookup_insert_eq. reflexivity.
    + exact Hlast.
  - apply IH. destruct (j_value_new r); [|exact Hlast].
    unfold of_campaign in Hk. apply Z.eqb_neq in Hk.
    rewrite lookup_insert_ne by exact Hk. exact Hlast.
Qed.

Lemma fill_from_nulls e dates last v :
  last !! e = v ->
  fill_from last (map (null_row e) dates) =
  map (fun d => (null_row e d, v)) dates.
Proof.
  intros Hlast. induction dates as [|d dates IH]; [reflexivity|].
  cbn [map]. rewrite fill_from_cons. cbn [null_row j_value_new j_value_old
    j_campaign_id fillna]. rewrite IH. f_equal. f_equal.
  rewrite Hlast. destruct v; [reflexivity|]. cbn [fillna].
  clear. induction dates as [|d dates IH]; [reflexivity|].
  cbn [map olds next_valid null_row j_campaign_id j_value_old].
  rewrite Z.eqb_refl. exact IH.
Qed.


(** ** fill_history *)

Lemma filter_none {A} (f : A -> bool) (l : list A) :
  (forall x, In x l -> f x = false) -> List.filter f l = [].
Proof.
  induction l as [|x l IH]; intros H; [reflexivity|]. cbn [List.filter].
  rewrite (H x (or_introl eq_refl)). apply IH. intros; apply H; right; assumption.
Qed.

Lemma left_merge_app {L R O} (same_key : L -> R -> bool)
    (join : L -> option R -> O) l1 l2 right :
  left_merge same_key join (l1 ++ l2) right =
  left_merge same_key join l1 right ++ left_merge same_key join l2 right.
Proof. unfold left_merge. apply flat_map_app. Qed.

Lemma same_campaign_date_true p ev :
  same_campaign_date p ev = true <->
  ev_campaign_id ev = fst p /\ ev_date ev = snd p.
Proof.
  unfold same_campaign_date. rewrite andb_true_iff, Z.eqb_eq, String.eqb_eq.
  split; intros [H1 H2]; split; congruence.
Qed.

(** The rows of [joined] for a campaign that has no event on the dates of
    its placeholders. *)
Lemma joined_without_events e (rows : list placeholder) ph :
  (forall p, In p rows -> fst p = e) ->
  (forall ev p, In ev ph -> In p rows -> ev_campaign_id ev = e ->
                ev_date ev <> snd p) ->
  left_merge same_campaign_date join_event rows ph =
  map (fun p => null_row e (snd p)) rows.
Proof.
  intros He Hno. induction rows as [|p rows IH]; [reflexivity|].
  change (p :: rows) with ([p] ++ rows) at 1. rewrite left_merge_app, IH.
  - unfold left_merge. cbn [flat_map map app]. rewrite app_nil_r.
    unfold merge_row. rewrite filter_none.
    + unfold join_event, null_row. rewrite (He p (or_introl eq_refl)).
      reflexivity.
    + intros ev Hev. destruct (same_campaign_date p ev) eqn:Hk; [|reflexivity].
      apply same_campaign_date_true in Hk. destruct Hk as [Hc Hd].
      exfalso. apply (Hno ev p Hev (or_introl eq_refl)); [|exact Hd].
      rewrite Hc. apply He. left; reflexivity.
  - intros; apply He; right; assumption.
  - intros ev q Hev Hq. apply Hno; [assumption | right; assumption].
Qed.



(** Each campaign's rows of [fill_history] come from its own placeholders. *)
Lemma fill_history_of_campaign e placeholder_df ph cv name :
  List.filter (fun f => fr_campaign_id f =? e)
    (fill_history placeholder_df ph cv name) =
  fill_history (List.filter (fun p => fst p =? e) placeholder_df) ph cv name.
Proof.
  unfold fill_history. destruct ph as [|ev ph].
  - apply filter_left_merge. reflexivity.
  - cbv zeta.
    rewrite (filter_left_merge _ _
               (fun r : joined_row * option Q => of_campaign e (fst r)))
      by reflexivity.
    rewrite !fill_forward_backward_from.
    rewrite (fill_from_of_campaign e _ ∅ ∅ eq_refl).
    rewrite (filter_left_merge _ _ (fun p : placeholder => fst p =? e))
      by reflexivity.
    reflexivity.
Qed.

Lemma map_fst_fill_from joined : forall last,
  map fst (fill_from last joined) = joined.
Proof.
  induction joined as [|r joined IH]; intros last; [reflexivity|].
  rewrite fill_from_cons. cbn [map fst]. rewrite IH. reflexivity.
Qed.

Lemma left_merge_covers {L R O} (same_key : L -> R -> bool)
    (join : L -> option R -> O) left right l :
  In l left ->
  exists r, In (join l r) (left_merge same_key join left right).
Proof.
  intros Hl. destruct (List.filter (same_key l) right) as [|m ms] eqn:Hf.
  - exists None. apply in_left_merge. exists l. split; [assumption|]. right.
    split; [|reflexivity]. intros r Hr.
    destruct (same_key l r) eqn:Hk; [|reflexivity].
    assert (Hin : In r (List.filter (same_key l) right))
      by (apply filter_In; split; assumption).
    rewrite Hf in Hin. contradiction.
  - exists (Some m). apply in_left_merge. exists l. split; [assumption|]. left.
    assert (Hin : In m (List.filter (same_key l) right))
      by (rewrite Hf; left; reflexivity).
    apply filter_In in Hin. exists m. tauto.
Qed.

(** Every placeholder has a row in [fill_history]. *)
Lemma fill_history_covers placeholder_df ph cv name p :
  In p placeholder_df ->
  exists v, In (snd p, fst p, v) (fill_history placeholder_df ph cv name).
Proof.
  intros Hp. unfold fill_history. destruct ph as [|ev ph].
  - destruct (left_merge_covers (fun p s => fst p =? sn_campaign_id s)
                (join_snapshot name) placeholder_df cv p Hp) as [s Hs].
    eexists. exact Hs.
  - cbv zeta.
    destruct (left_merge_covers same_campaign_date join_event placeholder_df
                (ev :: ph) p Hp) as [m Hm].
    set (joined := left_merge same_campaign_date join_event placeholder_df
                     (ev :: ph)) in *.
    assert (Hfilled : exists x, In (join_event p m, x) (fill_forward_backward joined)).
    { rewrite <- (map_fst_fill_from joined ∅) in Hm.
      apply in_map_iff in Hm. destruct Hm as [[r x] [Hr Hin]].
      cbn [fst] in Hr. subst r. exists x. exact Hin. }
    destruct Hfilled as [x Hx].
    destruct (left_merge_covers
                (fun (r : joined_row * option Q) s =>
                   j_campaign_id (fst r) =? sn_campaign_id s)
                (join_snapshot_where name) _ cv _ Hx) as [s Hs].
    eexists. exact Hs.
Qed.

(** The rows of [fill_history] for a campaign without an event on the
    dates of its placeholders: the value of a snapshot row of the campaign,
    or null when the snapshot has no row for it. *)
Lemma fill_history_without_events e placeholder_df ph cv name f :
  (forall ev, In ev ph -> ev_campaign_id ev = e ->
              ~ In (e, ev_date ev) placeholder_df) ->
  In f (fill_history placeholder_df ph cv name) ->
  fr_campaign_id f = e ->
  In (e, fr_date f) placeholder_df /\
  ((exists s, In s cv /\ sn_campaign_id s = e /\
              fr_value f = snapshot_column name s) \/
   ((forall s, In s cv -> sn_campaign_id s <> e) /\ fr_value f = None)).
Proof.
  intros Hno Hf He.
  assert (Hfe : In f (List.filter (fun f => fr_campaign_id f =? e)
                        (fill_history placeholder_df ph cv name)))
    by (apply filter_In; split; [assumption | apply Z.eqb_eq; assumption]).
  rewrite fill_history_of_campaign in Hfe. clear Hf.
  set (rows := List.filter (fun p : placeholder => fst p =? e) placeholder_df) in *.
  assert (Hrows : forall p, In p rows -> fst p = e /\ In p placeholder_df).
  { intros p Hp. apply filter_In in Hp. destruct Hp as [Hp Hk].
    apply Z.eqb_eq in Hk. tauto. }
  assert (Hsnap : forall (c : Z) (v : option Q),
    c = e ->
    ((exists s, In s cv /\ (c =? sn_campaign_id s) = true /\
                v = snapshot_column name s) \/
     ((forall s, In s cv -> (c =? sn_campaign_id s) = false) /\ v = None)) ->
    ((exists s, In s cv /\ sn_campaign_id s = e /\ v = snapshot_column name s) \/
     ((forall s, In s cv -> sn_campaign_id s <> e) /\ v = None))).
  { intros c v -> [[s [Hs [Hk Hv]]] | [Hnone Hv]].
    - left. exists s. apply Z.eqb_eq in Hk. auto.
    - right. split; [|assumption]. intros s Hs Heq.
      specialize (Hnone s Hs). apply Z.eqb_neq in Hnone. congruence. }
  unfold fill_history in Hfe. destruct ph as [|ev ph].
  - apply in_left_merge in Hfe. destruct Hfe as [p [Hp Hcase]].
    destruct (Hrows p Hp) as [Hpe Hpin]. destruct p as [c d]. cbn [fst] in *.
    subst c. split.
    + destruct Hcase as [[s [_ [_ ->]]] | [_ ->]]; exact Hpin.
    + apply (Hsnap e (fr_value f) eq_refl).
      destruct Hcase as [[s [Hs [Hk ->]]] | [Hnone ->]].
      * left. exists s. auto.
      * right. split; [exact Hnone | reflexivity].
  - cbv zeta in Hfe.
    rewrite (joined_without_events e) in Hfe.
    + rewrite fill_forward_backward_from in Hfe.
      rewrite <- map_map in Hfe.
      rewrite (fill_from_nulls e _ ∅ None (lookup_empty e)) in Hfe.
      apply in_left_merge in Hfe. destruct Hfe as [r [Hr Hcase]].
      apply in_map_iff in Hr. destruct Hr as [d [<- Hd]].
      apply in_map_iff in Hd. destruct Hd as [p [<- Hp]].
      destruct (Hrows p Hp) as [Hpe Hpin]. destruct p as [c d].
      cbn [fst snd] in *. subst c. split.
      * destruct Hcase as [[s [_ [_ ->]]] | [_ ->]]; exact Hpin.
      * apply (Hsnap e (fr_value f) eq_refl).
        destruct Hcase as [[s [Hs [Hk ->]]] | [Hnone ->]].
        -- left. exists s. auto.
        -- right. split; [exact Hnone | reflexivity].
    + intros p Hp. apply Hrows. exact Hp.
    + intros ev' p Hev Hp Hc Hd. destruct (Hrows p Hp) as [Hpe Hpin].
      apply (Hno ev' Hev Hc). rewrite Hd. destruct p as [c d].
      cbn [fst snd] in *. subst c. exact Hpin.
Qed.

Lemma filter_list_prod e cids (dates : list string) :
  NoDup cids -> In e cids ->
  List.filter (fun p : placeholder => fst p =? e) (list_prod cids dates) =
  map (pair e) dates.
Proof.
  assert (Hall : forall c, List.filter (fun p : placeholder => fst p =? e)
                   (map (pair c) dates) =
                 if c =? e then map (pair c) dates else []).
  { intros c. induction dates as [|d dates IH].
    - destruct (c =? e); reflexivity.
    - cbn [map List.filter fst]. rewrite IH. destruct (c =? e); reflexivity. }
  induction cids as [|c cids IH]; intros Hnd Hin; [contradiction|].
  apply NoDup_cons_iff in Hnd. destruct Hnd as [Hc Hnd].
  cbn [list_prod]. rewrite List.filter_app, Hall.
  destruct (Z.eqb_spec c e) as [->|Hne].
  - rewrite filter_none; [apply app_nil_r|].
    intros [c' d] Hp. apply in_prod_iff in Hp. cbn [fst].
    apply Z.eqb_neq. intros ->. tauto.
  - destruct Hin as [->|Hin]; [contradiction|]. apply IH; assumption.
Qed.


(** ** The cast *)

Lemma cast_row_Ok name f r :
  cast_row name f = Ok r ->
  rs_date r = fr_date f /\ rs_campaign_id r = fr_campaign_id f /\
  cast_cell name (fr_value f) = Ok (rs_value r).
Proof.
  destruct f as [[d c] v]. unfold cast_row, fr_date, fr_campaign_id, fr_value.
  cbn [fst snd]. destruct (cast_cell name v) as [x|err]; simpl; [|discriminate].
  intros H. inversion H. auto.
Qed.

Lemma cast_cell_Some name q :
  cast_cell name (Some q) = Ok (restored_cell name q).
Proof.
  unfold cast_cell, restored_cell. destruct (dimension_eqb name target_roas);
    reflexivity.
Qed.

Lemma cast_cell_target_roas v : cast_cell target_roas v = Ok (FloatCell v).
Proof. reflexivity. Qed.

Lemma cast_cell_None name :
  name <> target_roas -> cast_cell name None = Raise IntCastingNaNError.
Proof. destruct name; [reflexivity | reflexivity | congruence]. Qed.

Lemma cast_row_Raise name f e :
  cast_row name f = Raise e -> e = IntCastingNaNError.
Proof.
  destruct f as [[d c] v]. unfold cast_row, cast_cell.
  destruct (dimension_eqb name target_roas); simpl; [discriminate|].
  destruct v; simpl; [discriminate|]. congruence.
Qed.

(** [restore_history] returns when the column is target_roas, which is
    not cast, and when no value is null. *)
Lemma restore_history_returns placeholder_df ph cv name :
  name = target_roas \/
  (forall f, In f (fill_history placeholder_df ph cv name) ->
             fr_value f <> None) ->
  exists out, restore_history placeholder_df ph cv name = Ok out.
Proof.
  intros H. apply mapM_all_Ok. intros [[d c] v] Hf. unfold cast_row.
  destruct H as [-> | Hall].
  - rewrite cast_cell_target_roas. eexists; reflexivity.
  - specialize (Hall _ Hf). unfold fr_value in Hall. cbn [snd] in Hall.
    destruct v as [q|]; [|congruence]. rewrite cast_cell_Some.
    eexists; reflexivity.
Qed.

(** A snapshot with a value of the column for every campaign of the
    placeholders leaves no null. *)
Lemma fill_history_complete placeholder_df ph cv name f :
  (forall p, In p placeholder_df -> exists s, In s cv /\ sn_campaign_id s = fst p) ->
  (forall s, In s cv -> snapshot_column name s <> None) ->
  In f (fill_history placeholder_df ph cv name) -> fr_value f <> None.
Proof.
  intros Hrow Hval Hf. unfold fill_history in Hf. destruct ph as [|ev ph].
  - apply in_left_merge in Hf. destruct Hf as [p [Hp Hcase]].
    destruct Hcase as [[s [Hs [_ ->]]] | [Hnone _]].
    + apply Hval. exact Hs.
    + destruct (Hrow p Hp) as [s [Hs Hk]]. specialize (Hnone s Hs).
      apply Z.eqb_neq in Hnone. congruence.
  - cbv zeta in Hf. apply in_left_merge in Hf. destruct Hf as [r [Hr Hcase]].
    assert (Hc : exists p, In p placeholder_df /\ j_campaign_id (fst r) = fst p).
    { rewrite fill_forward_backward_from in Hr.
      assert (Hj : In (fst r) (map fst (fill_from ∅
                (left_merge same_campaign_date join_event placeholder_df
                   (ev :: ph))))) by (apply in_map; exact Hr).
      rewrite map_fst_fill_from in Hj. apply in_left_merge in Hj.
      destruct Hj as [p [Hp Hj]]. exists p. split; [exact Hp|].
      destruct Hj as [[m [_ [_ ->]]] | [_ ->]]; reflexivity. }
    destruct Hcase as [[s [Hs [_ ->]]] | [Hnone _]].
    + unfold join_snapshot_where, fr_value. cbn [snd].
      destruct (snd r); [discriminate | apply Hval; exact Hs].
    + destruct Hc as [p [Hp Hc]]. destruct (Hrow p Hp) as [s [Hs Hk]].
      specialize (Hnone s Hs). apply Z.eqb_neq in Hnone. congruence.
Qed.

(** ** Dates *)

Lemma days_from_civil_from_days z : days_from_civil (civil_from_days z) = z.
Proof.
  unfold civil_from_days, days_from_civil. cbv zeta.
  repeat match goal with
         | |- context [if ?b then _ else _] => destruct b eqn:?
         end;
    Z.to_euclidean_division_equations; lia.
Qed.

Lemma civil_from_days_range z :
  in_bounds z = true ->
  let '(y, m, d) := civil_from_days z in
  0 <= y <= 9999 /\ 0 <= m <= 99 /\ 0 <= d <= 99.
Proof.
  unfold in_bounds, timestamp_min, timestamp_max. intros H.
  apply andb_true_iff in H. destruct H as [Hlo Hhi].
  apply Z.leb_le in Hlo, Hhi.
  unfold civil_from_days. cbv zeta.
  repeat match goal with
         | |- context [if ?b then _ else _] => destruct b eqn:?
         end;
    Z.to_euclidean_division_equations; lia.
Qed.

Lemma digit_value_digit n : digit_value (digit n) = Some (n mod 10).
Proof.
  unfold digit. pose proof (Z.mod_pos_bound n 10 eq_refl) as Hk.
  set (k := n mod 10) in *.
  assert (Hcases : k = 0 \/ k = 1 \/ k = 2 \/ k = 3 \/ k = 4 \/ k = 5 \/
                   k = 6 \/ k = 7 \/ k = 8 \/ k = 9) by lia.
  repeat (destruct Hcases as [-> | Hcases]; [reflexivity|]).
  rewrite Hcases. reflexivity.
Qed.

(** Reading a date back from its string gives the date. *)
Lemma to_datetime_strftime z :
  in_bounds z = true -> to_datetime (strftime z) = Some z.
Proof.
  intros Hz. pose proof (civil_from_days_range z Hz) as Hr.
  pose proof (days_from_civil_from_days z) as Hback.
  unfold strftime. destruct (civil_from_days z) as [[y m] d].
  cbn [to_datetime]. rewrite !digit_value_digit.
  rewrite <- Hback. do 2 f_equal.
  destruct Hr as [Hy [Hm Hd]].
  f_equal; [f_equal|]; Z.to_euclidean_division_equations; lia.
Qed.

Lemma strftime_inj z z' :
  in_bounds z = true -> in_bounds z' = true ->
  strftime z = strftime z' -> z = z'.
Proof.
  intros Hz Hz' H. apply to_datetime_strftime in Hz, Hz'.
  rewrite H in Hz. congruence.
Qed.

Lemma date_range_length start stop :
  List.length (date_range start stop) = Z.to_nat (stop - start + 1).
Proof. unfold date_range. rewrite length_map, length_seq. reflexivity. Qed.

Lemma in_date_range start stop z :
  In z (date_range start stop) <-> start <= z <= stop.
Proof.
  unfold date_range. rewrite in_map_iff. split.
  - intros [i [<- Hi]]. apply in_seq in Hi. lia.
  - intros H. exists (Z.to_nat (z - start)). split; [lia|].
    apply in_seq. lia.
Qed.

Lemma date_range_sorted start stop :
  StronglySorted Z.lt (date_range start stop).
Proof.
  unfold date_range. generalize (Z.to_nat (stop - start + 1)) as n.
  generalize 0%nat as i. intros i n. revert i.
  induction n as [|n IH]; intros i; cbn [seq map]; constructor.
  - apply IH.
  - apply Forall_forall. intros z Hz. apply in_map_iff in Hz.
    destruct Hz as [j [<- Hj]]. apply in_seq in Hj. lia.
Qed.

Lemma sorted_NoDup ords : StronglySorted Z.lt ords -> NoDup ords.
Proof.
  induction 1 as [|o ords _ IH Hlt]; constructor; [|exact IH].
  intros Hin. rewrite Forall_forall in Hlt. specialize (Hlt o Hin). lia.
Qed.


Lemma NoDup_map_strftime ords :
  Forall (fun o => in_bounds o = true) ords -> NoDup ords ->
  NoDup (map strftime ords).
Proof.
  intros Hb Hnd. induction Hnd as [|o ords Ho _ IH]; cbn [map]; constructor.
  - intros Hin. apply in_map_iff in Hin. destruct Hin as [o' [Heq Ho']].
    apply Ho. inversion Hb as [|? ? Hbo Hbs]; subst.
    rewrite Forall_forall in Hbs.
    rewrite <- (strftime_inj o' o (Hbs o' Ho') Hbo Heq). exact Ho'.
  - apply IH. inversion Hb; assumption.
Qed.

(** ** restore_history *)

Lemma restore_history_rows placeholder_df ph cv name out r :
  restore_history placeholder_df ph cv name = Ok out -> In r out ->
  exists f, In f (fill_history placeholder_df ph cv name) /\
    rs_date r = fr_date f /\ rs_campaign_id r = fr_campaign_id f /\
    cast_cell name (fr_value f) = Ok (rs_value r).
Proof.
  intros Hout Hr. apply mapM_Ok_iff in Hout.
  destruct (Forall2_In_r _ _ _ _ Hout Hr) as [f [Hf Hcast]].
  exists f. split; [exact Hf|]. apply cast_row_Ok. exact Hcast.
Qed.

Lemma restore_history_covers placeholder_df ph cv name out p :
  restore_history placeholder_df ph cv name = Ok out -> In p placeholder_df ->
  exists r, In r out /\ rs_campaign_id r = fst p /\ rs_date r = snd p.
Proof.
  intros Hout Hp. apply mapM_Ok_iff in Hout.
  destruct (fill_history_covers placeholder_df ph cv name p Hp) as [v Hf].
  destruct (Forall2_In_l _ _ _ _ Hout Hf) as [r [Hr Hcast]].
  exists r. split; [exact Hr|]. apply cast_row_Ok in Hcast.
  destruct Hcast as [Hd [Hc _]]. split; assumption.
Qed.

Lemma restore_history_returns_complete cids dates ph cv name :
  name = target_roas \/
  ((forall c, In c cids -> exists s, In s cv /\ sn_campaign_id s = c) /\
   (forall s, In s cv -> snapshot_column name s <> None)) ->
  exists out, restore_history (placeholders cids dates) ph cv name = Ok out.
Proof.
  intros [Hroas | [Hrow Hval]]; apply restore_history_returns;
    [left; exact Hroas | right].
  intros f. apply fill_history_complete; [|exact Hval].
  intros [c d] Hp. apply in_prod_iff in Hp. apply Hrow. apply Hp.
Qed.



(** ** The cast to int *)

Lemma float_to_int_range q : int64_min <= float_to_int q <= int64_max.
Proof.
  unfold float_to_int.
  destruct ((int64_min <=? Qnum q ÷ Z.pos (Qden q)) &&
            (Qnum q ÷ Z.pos (Qden q) <=? int64_max)) eqn:H.
  - apply andb_true_iff in H. destruct H as [H1 H2].
    apply Z.leb_le in H1, H2. lia.
  - unfold int64_min, int64_max. lia.
Qed.

(** The integer part of a number: the integer next to it on the side of
    zero. *)
Lemma quot_truncates (q : Q) :
  ((0 <= q)%Q ->
   (inject_Z (Qnum q ÷ Z.pos (Qden q)) <= q)%Q /\
   (q < inject_Z (Qnum q ÷ Z.pos (Qden q)) + 1)%Q) /\
  ((q <= 0)%Q ->
   (inject_Z (Qnum q ÷ Z.pos (Qden q)) - 1 < q)%Q /\
   (q <= inject_Z (Qnum q ÷ Z.pos (Qden q)))%Q).
Proof.
  destruct q as [n d].
  unfold Qle, Qlt, Qminus, Qplus, Qopp, inject_Z. cbn [Qnum Qden Pos.mul].
  pose proof (Z.quot_rem' n (Z.pos d)) as Hqr.
  split; intros Hq.
  - assert (Hn : 0 <= n) by lia.
    pose proof (Z.rem_bound_pos n (Z.pos d) Hn ltac:(lia)) as Hr.
    split; nia.
  - assert (Hn : n <= 0) by lia.
    pose proof (Z.rem_bound_pos_neg n (Z.pos d) ltac:(lia) Hn) as Hr.
    split; nia.
Qed.

(** Within the range of int64 the cast is the truncation toward zero;
    outside it gives the least int64. *)
Lemma float_to_int_truncates (q : Q) :
  ((inject_Z int64_min - 1 < q)%Q /\ (q < inject_Z int64_max + 1)%Q ->
   float_to_int q = Qnum q ÷ Z.pos (Qden q)) /\
  (~ ((inject_Z int64_min - 1 < q)%Q /\ (q < inject_Z int64_max + 1)%Q) ->
   float_to_int q = int64_min).
Proof.
  assert (Hin : (inject_Z int64_min - 1 < q)%Q /\
                (q < inject_Z int64_max + 1)%Q <->
                int64_min <= Qnum q ÷ Z.pos (Qden q) <= int64_max).
  { destruct q as [n d].
    unfold Qle, Qlt, Qminus, Qplus, Qopp, inject_Z. cbn [Qnum Qden Pos.mul].
    pose proof (Z.quot_rem' n (Z.pos d)) as Hqr.
    assert (Hmin : int64_min < 0) by (unfold int64_min; lia).
    assert (Hmax : 0 < int64_max) by (unfold int64_max; lia).
    destruct (Z.le_ge_cases 0 n) as [Hn | Hn].
    - pose proof (Z.rem_bound_pos n (Z.pos d) Hn ltac:(lia)) as Hr.
      split; [intros [H1 H2]; split; nia | intros [H1 H2]; split; nia].
    - pose proof (Z.rem_bound_pos_neg n (Z.pos d) ltac:(lia) Hn) as Hr.
      split; [intros [H1 H2]; split; nia | intros [H1 H2]; split; nia]. }
  unfold float_to_int. split; intros H.
  - apply Hin in H. destruct H as [H1 H2].
    apply Z.leb_le in H1, H2. rewrite H1, H2. reflexivity.
  - destruct ((int64_min <=? Qnum q ÷ Z.pos (Qden q)) &&
              (Qnum q ÷ Z.pos (Qden q) <=? int64_max)) eqn:Hb; [|reflexivity].
    exfalso. apply H, Hin. apply andb_true_iff in Hb. destruct Hb as [H1 H2].
    apply Z.leb_le in H1, H2. lia.
Qed.



(** C7.  The cast.  For budget_amount and target_cpa every value of the
    returned column is a whole number, the cast to int of the filled
    value: an int64, and for a filled value whose integer part is an int64
    that integer part, the filled value without its fraction (the greatest
    integer not above a value that is not negative, the least integer not
    below a value that is not positive); for any other filled value the
    least int64.  For target_roas the column is returned as filled, without
    a cast.  The function returns for target_roas always, and for the other
    two columns exactly when no filled value is null. *)
Theorem restore_history_cast
    (placeholder_df : list placeholder) (ph : list event)
    (cv : list snapshot_row) (name : dimension) :
  (name = target_roas ->
   restore_history placeholder_df ph cv name =
   Ok (map (fun f => {| rs_date := fr_date f;
                        rs_campaign_id := fr_campaign_id f;
                        rs_value := FloatCell (fr_value f) |})
           (fill_history placeholder_df ph cv name))) /\
  (name <> target_roas ->
   forall out, restore_history placeholder_df ph cv name = Ok out ->
     Forall2 (fun f r => rs_date r = fr_date f /\
                         rs_campaign_id r = fr_campaign_id f /\
                         exists q z,
                           fr_value f = Some q /\
                           rs_value r = IntCell z /\
                           z = float_to_int q /\
                           int64_min <= z <= int64_max /\
                           ((inject_Z int64_min - 1 < q)%Q /\
                            (q < inject_Z int64_max + 1)%Q ->
                            ((0 <= q)%Q ->
                             (inject_Z z <= q)%Q /\ (q < inject_Z z + 1)%Q) /\
                            ((q <= 0)%Q ->
                             (inject_Z z - 1 < q)%Q /\ (q <= inject_Z z)%Q)) /\
                           (~ ((inject_Z int64_min - 1 < q)%Q /\
                               (q < inject_Z int64_max + 1)%Q) ->
                            z = int64_min))
             (fill_history placeholder_df ph cv name) out) /\
  (name <> target_roas ->
   ((exists out, restore_history placeholder_df ph cv name = Ok out) <->
    (forall f, In f (fill_history placeholder_df ph cv name) ->
               fr_value f <> None))).
Proof.
  split; [|split].
  - intros ->. unfold restore_history.
    induction (fill_history placeholder_df ph cv target_roas) as [|f l IH];
      [reflexivity|].
    cbn [mapM map]. rewrite IH. destruct f as [[d c] v]. reflexivity.
  - intros Hname out Hout. apply mapM_Ok_iff in Hout.
    eapply Forall2_impl; [|exact Hout]. intros f r Hcast.
    apply cast_row_Ok in Hcast. destruct Hcast as [Hd [Hc Hcell]].
    split; [exact Hd|]. split; [exact Hc|].
    destruct (fr_value f) as [q|].
    + exists q, (float_to_int q). split; [reflexivity|].
      split.
      { rewrite cast_cell_Some in Hcell. unfold restored_cell in Hcell.
        destruct name; cbn [dimension_eqb] in Hcell; congruence. }
      split; [reflexivity|]. split; [apply float_to_int_range|].
      destruct (float_to_int_truncates q) as [Hin Hover].
      split; [|exact Hover].
      intros Hq. rewrite (Hin Hq). apply quot_truncates.
    + rewrite cast_cell_None in Hcell by exact Hname. discriminate.
  - intros Hname. split.
    + intros [out Hout] f Hf Hnull. apply mapM_Ok_iff in Hout.
      destruct (Forall2_In_l _ _ _ _ Hout Hf) as [r [_ Hcast]].
      apply cast_row_Ok in Hcast. destruct Hcast as [_ [_ Hcell]].
      rewrite Hnull, cast_cell_None in Hcell by exact Hname. discriminate.
    + intros Hall. apply restore_history_returns. right. exact Hall.
Qed.

(** C8, as the code has it.  Let the entity [e] have no normalized event
    on any date of the window and no snapshot value of the column (no row,
    or a null).  For budget_amount and target_cpa [restore_history] raises:
    the cast to int meets the null.  For target_roas it returns, and the
    rows of [e], one or more for every date of the window, carry a null. *)
Theorem restore_history_without_value
    (cids : list Z) (dates : list string) (ph : list event)
    (cv : list snapshot_row) (name : dimension) (e : Z) :
  In e cids -> dates <> [] ->
  (forall ev, In ev ph -> ev_campaign_id ev = e -> ~ In (ev_date ev) dates) ->
  (forall s, In s cv -> sn_campaign_id s = e ->
             snapshot_column name s = None) ->
  (name <> target_roas ->
   restore_history (placeholders cids dates) ph cv name =
   Raise IntCastingNaNError) /\
  (name = target_roas ->
   exists out,
     restore_history (placeholders cids dates) ph cv name = Ok out /\
     (forall d, In d dates ->
        exists r, In r out /\ rs_campaign_id r = e /\ rs_date r = d) /\
     (forall r, In r out -> rs_campaign_id r = e ->
        rs_value r = FloatCell None)).
Proof.
  intros He Hdates Hno Hsnap.
  assert (Hnull : forall f,
            In f (fill_history (placeholders cids dates) ph cv name) ->
            fr_campaign_id f = e -> fr_value f = None).
  { intros f Hf Hfe.
    destruct (fill_history_without_events e (placeholders cids dates) ph cv
                name f) as [_ Hval]; try assumption.
    - intros ev Hev Hce Hin. apply in_prod_iff in Hin.
      apply (Hno ev Hev Hce). apply Hin.
    - destruct Hval as [[s [Hs [Hse Hv]]] | [_ Hv]]; [|exact Hv].
      rewrite Hv. apply Hsnap; assumption. }
  split.
  - intros Hname. destruct dates as [|d dates]; [congruence|].
    destruct (fill_history_covers (placeholders cids (d :: dates)) ph cv name
                (e, d)) as [v Hf].
    { apply in_prod_iff. split; [exact He | left; reflexivity]. }
    unfold restore_history.
    apply (mapM_Raise (cast_row name) _ _ IntCastingNaNError Hf).
    + specialize (Hnull _ Hf eq_refl). unfold fr_value in Hnull.
      cbn [snd fst] in Hnull. subst v. unfold cast_row.
      rewrite cast_cell_None by exact Hname. reflexivity.
    + intros f err. apply cast_row_Raise.
  - intros Hname.
    destruct (restore_history_returns (placeholders cids dates) ph cv name)
      as [out Hout]; [left; exact Hname|].
    exists out. split; [exact Hout|]. split.
    + intros d Hd.
      apply (restore_history_covers _ _ _ _ _ (e, d) Hout).
      apply in_prod_iff. split; assumption.
    + intros r Hr Hre.
      destruct (restore_history_rows _ _ _ _ _ _ Hout Hr)
        as [f [Hf [_ [Hc Hcast]]]].
      rewrite (Hnull f Hf) in Hcast by congruence.
      subst name. rewrite cast_cell_target_roas in Hcast. congruence.
Qed.

(** An entity without an event and without a budget in the snapshot. *)
Lemma restore_history_without_value_witness :
  restore_history (placeholders [111] ["D1"; "D2"]) []
    [{| sn_campaign_id := 111; sn_budget_amount := None;
        sn_target_cpa := None; sn_target_roas := None |}]
    budget_amount = Raise IntCastingNaNError.
Proof.
  apply (restore_history_without_value [111] ["D1"; "D2"] []
    [{| sn_campaign_id := 111; sn_budget_amount := None;
        sn_target_cpa := None; sn_target_roas := None |}] budget_amount 111).
  - left; reflexivity.
  - discriminate.
  - intros ev [].
  - intros s [<- | []] _. reflexivity.
  - discriminate.
Defined.

(** C8, counterexample.  A run for one entity that has no event and a
    null target_roas in the snapshot raises nothing, and the table of each
    date holds a null target_roas for the entity. *)
Lemma main_emits_null_target_roas :
  raised (main "p" "d" (fun _ => None) 20761 20761 [] [111]
            [{| sn_campaign_id := 111; sn_budget_amount := Some (100 # 1)%Q;
                sn_target_cpa := Some (5 # 1)%Q; sn_target_roas := None |}]
            ∅) = None /\
  destination (main "p" "d" (fun _ => None) 20761 20761 [] [111]
            [{| sn_campaign_id := 111; sn_budget_amount := Some (100 # 1)%Q;
                sn_target_cpa := Some (5 # 1)%Q; sn_target_roas := None |}]
            ∅) !! "p.d.bid_budgets_20261103" =
  Some [{| w_date := "2026-11-03"; w_campaign_id := 111;
           w_budget_amount := IntCell 100;
           w_target_cpa := Some (IntCell 5);
           w_target_roas := Some (FloatCell None) |}].
Proof. split; vm_compute; reflexivity. Qed.

(** ** The window and the placeholders *)

Lemma window_same_day today :
  in_bounds (today - 29) = true -> in_bounds (today - 1) = true ->
  window today today = Ok (map strftime (date_range (today - 29) (today - 1))).
Proof.
  intros Hlo Hhi. unfold window. rewrite Hlo, Hhi. cbn [andb].
  rewrite !to_datetime_strftime by assumption. reflexivity.
Qed.

Lemma date_range_29 today :
  date_range (today - 29) (today - 1) =
  map (fun i => today - 29 + Z.of_nat i) (seq 0 29).
Proof.
  unfold date_range. replace (today - 1 - (today - 29) + 1) with 29 by lia.
  reflexivity.
Qed.

Lemma NoDup_list_prod {A B} (l : list A) (l' : list B) :
  NoDup l -> NoDup l' -> NoDup (list_prod l l').
Proof.
  intros Hl Hl'. induction Hl as [|a l Ha _ IH]; [constructor|].
  cbn [list_prod]. apply NoDup_app.
  - clear -Hl'. induction Hl' as [|b l' Hb _ IH']; cbn [map]; constructor.
    + intros Hin. apply in_map_iff in Hin. destruct Hin as [x [Heq Hx]].
      inversion Heq; subst. contradiction.
    + exact IH'.
  - exact IH.
  - intros [a' b] Hin1 Hin2. apply in_map_iff in Hin1.
    destruct Hin1 as [x [Heq _]]. inversion Heq; subst.
    apply in_prod_iff in Hin2. tauto.
Qed.

(** C9.  The placeholder grid.  When both readings of the clock fall on
    the day [today] (and the window lies in the range of pandas' dates),
    the window is the 29 consecutive days from [today - 29] to [today - 1],
    each as its string, without a repeat; and the grid for a duplicate-free
    list of entities holds exactly the pairs of an entity and a date of the
    window, each once: [length campaign_ids * 29] rows. *)
Theorem placeholders_cross_product (today : Z) (campaign_ids : list Z) :
  in_bounds (today - 29) = true -> in_bounds (today - 1) = true ->
  NoDup campaign_ids ->
  exists dates,
    window today today = Ok dates /\
    dates = map (fun i => strftime (today - 29 + Z.of_nat i)) (seq 0 29) /\
    List.length dates = 29%nat /\
    NoDup dates /\
    (forall c d, In (c, d) (placeholders campaign_ids dates) <->
                 In c campaign_ids /\ In d dates) /\
    NoDup (placeholders campaign_ids dates) /\
    List.length (placeholders campaign_ids dates) =
    (List.length campaign_ids * 29)%nat.
Proof.
  intros Hlo Hhi Hcids. apply andb_true_iff in Hlo, Hhi.
  exists (map strftime (date_range (today - 29) (today - 1))).
  assert (Hdates : NoDup (map strftime (date_range (today - 29) (today - 1)))).
  { apply NoDup_map_strftime.
    - apply Forall_forall. intros z Hz. apply in_date_range in Hz.
      unfold in_bounds. apply andb_true_iff.
      destruct Hlo as [Hlo _], Hhi as [_ Hhi].
      apply Z.leb_le in Hlo, Hhi. split; apply Z.leb_le; lia.
    - apply sorted_NoDup, date_range_sorted. }
  assert (Hlen : List.length (map strftime (date_range (today - 29) (today - 1)))
                 = 29%nat).
  { rewrite length_map, date_range_length. lia. }
  split; [apply window_same_day; apply andb_true_iff; assumption|].
  split; [rewrite date_range_29, map_map; reflexivity|].
  split; [exact Hlen|]. split; [exact Hdates|].
  split; [intros c d; apply in_prod_iff|].
  split; [apply NoDup_list_prod; assumption|].
  unfold placeholders, placeholder. rewrite length_prod, Hlen. reflexivity.
Qed.

(** The window of a run on 2026-11-04: from 2026-10-06 to 2026-11-03. *)
Lemma placeholders_cross_product_witness :
  exists dates,
    window 20761 20761 = Ok dates /\
    nth 0 dates "" = "2026-10-06" /\ nth 28 dates "" = "2026-11-03" /\
    List.length (placeholders [111; 222] dates) = 58%nat.
Proof.
  destruct (placeholders_cross_product 20761 [111; 222])
    as [dates [Hw [Hd [Hlen [_ [_ [_ Hn]]]]]]].
  - reflexivity.
  - reflexivity.
  - repeat constructor; simpl; intuition lia.
  - exists dates. split; [exact Hw|]. rewrite Hn. subst dates.
    repeat split.
Defined.

(** ** format_partial_change_history *)

Lemma str_compare_Eq d1 d2 : String_as_OT.compare d1 d2 = Eq <-> d1 = d2.
Proof.
  destruct (String_as_OT.compare_spec d1 d2) as [Hd | Hd | Hd].
  - tauto.
  - split; [discriminate|]. intros ->.
    exfalso. exact (StrictOrder_Irreflexive d2 Hd).
  - split; [discriminate|]. intros ->.
    exfalso. exact (StrictOrder_Irreflexive d2 Hd).
Qed.

Lemma str_compare_Gt d1 d2 :
  String_as_OT.compare d1 d2 = Gt -> String_as_OT.compare d2 d1 = Lt.
Proof.
  destruct (String_as_OT.compare_spec d1 d2) as [Hd | Hd | Hd];
    intros H; try discriminate. exact Hd.
Qed.

Lemma str_compare_trans d1 d2 d3 :
  String_as_OT.compare d1 d2 = Lt -> String_as_OT.compare d2 d3 = Lt ->
  String_as_OT.compare d1 d3 = Lt.
Proof. apply (@StrictOrder_Transitive _ _ String_as_OT.lt_strorder). Qed.

Lemma key_compare_Eq k1 k2 : key_compare k1 k2 = Eq <-> k1 = k2.
Proof.
  unfold key_compare. destruct k1 as [d1 c1], k2 as [d2 c2]. cbn [fst snd].
  destruct (String_as_OT.compare d1 d2) eqn:Hd.
  - apply str_compare_Eq in Hd. subst d2. rewrite Z.compare_eq_iff.
    split; [intros ->; reflexivity | intros H; inversion H; reflexivity].
  - split; [discriminate|]. intros H; inversion H; subst.
    assert (He : String_as_OT.compare d2 d2 = Eq)
      by (apply str_compare_Eq; reflexivity).
    congruence.
  - split; [discriminate|]. intros H; inversion H; subst.
    assert (He : String_as_OT.compare d2 d2 = Eq)
      by (apply str_compare_Eq; reflexivity).
    congruence.
Qed.

Lemma key_compare_Gt k1 k2 : key_compare k1 k2 = Gt -> key_lt k2 k1.
Proof.
  unfold key_lt, key_compare. destruct k1 as [d1 c1], k2 as [d2 c2].
  cbn [fst snd].
  destruct (String_as_OT.compare d1 d2) eqn:Hd; intros H; try discriminate.
  - apply str_compare_Eq in Hd. subst d2.
    assert (He : String_as_OT.compare d1 d1 = Eq)
      by (apply str_compare_Eq; reflexivity).
    rewrite He. apply Z.compare_gt_iff in H. exact H.
  - rewrite (str_compare_Gt d1 d2 Hd). reflexivity.
Qed.

Lemma key_lt_trans k1 k2 k3 : key_lt k1 k2 -> key_lt k2 k3 -> key_lt k1 k3.
Proof.
  unfold key_lt, key_compare.
  destruct k1 as [d1 c1], k2 as [d2 c2], k3 as [d3 c3]. cbn [fst snd].
  destruct (String_as_OT.compare d1 d2) eqn:H12; intros H; try discriminate;
    destruct (String_as_OT.compare d2 d3) eqn:H23; intros H';
    try discriminate.
  - apply str_compare_Eq in H12, H23. subst d2 d3.
    assert (He : String_as_OT.compare d1 d1 = Eq)
      by (apply str_compare_Eq; reflexivity).
    rewrite He. change (c1 < c2) in H. change (c2 < c3) in H'.
    change (c1 < c3). lia.
  - apply str_compare_Eq in H12. subst d2. rewrite H23. reflexivity.
  - apply str_compare_Eq in H23. subst d3. rewrite H12. reflexivity.
  - rewrite (str_compare_trans d1 d2 d3 H12 H23). reflexivity.
Qed.

Lemma key_lt_irrefl k : ~ key_lt k k.
Proof.
  unfold key_lt. intros H.
  assert (Heq : key_compare k k = Eq) by (apply key_compare_Eq; reflexivity).
  congruence.
Qed.

Lemma in_group_true k e : in_group k e = true <-> event_key e = k.
Proof.
  unfold in_group, event_key. destruct k as [d c]. cbn [fst snd].
  rewrite andb_true_iff, String.eqb_eq, Z.eqb_eq.
  split; [intros [-> ->]; reflexivity | intros H; inversion H; auto].
Qed.

Lemma in_group_false k e : in_group k e = false <-> event_key e <> k.
Proof.
  rewrite <- in_group_true. destruct (in_group k e); split; congruence.
Qed.

Lemma add_to_group_sorted e groups :
  StronglySorted event_lt groups ->
  StronglySorted event_lt (add_to_group e groups) /\
  (forall x, Forall (event_lt x) groups -> event_lt x e ->
             Forall (event_lt x) (add_to_group e groups)).
Proof.
  induction 1 as [|y groups Hs IH Hy]; cbn [add_to_group].
  - split; [repeat constructor|]. intros x _ Hx. repeat constructor. exact Hx.
  - destruct (key_compare (event_key e) (event_key y)) eqn:Hc.
    + apply key_compare_Eq in Hc. split.
      * constructor; [exact Hs|]. unfold event_lt, last_of, event_key in *.
        cbn [ev_date ev_campaign_id]. exact Hy.
      * intros x Hx Hxe. inversion Hx; subst. constructor; [|assumption].
        unfold event_lt, last_of, event_key in *.
        cbn [ev_date ev_campaign_id]. assumption.
    + split.
      * constructor; [constructor; assumption|].
        constructor; [exact Hc|].
        eapply Forall_impl; [|exact Hy]. intros z Hz.
        eapply key_lt_trans; [exact Hc | exact Hz].
      * intros x Hx Hxe. constructor; assumption.
    + apply key_compare_Gt in Hc. destruct IH as [IHs IHf]. split.
      * constructor; [exact IHs|]. apply IHf; assumption.
      * intros x Hx Hxe. inversion Hx; subst. constructor; [assumption|].
        apply IHf; assumption.
Qed.

Lemma find_above k groups :
  Forall (fun y => key_lt k (event_key y)) groups ->
  find (in_group k) groups = None.
Proof.
  induction 1 as [|y groups Hy _ IH]; [reflexivity|]. cbn [find].
  destruct (in_group k y) eqn:Hk; [|exact IH].
  apply in_group_true in Hk. rewrite Hk in Hy.
  exfalso. eapply key_lt_irrefl. exact Hy.
Qed.

Lemma find_add_to_group k e groups :
  StronglySorted event_lt groups ->
  find (in_group k) (add_to_group e groups) =
  if in_group k e
  then Some (match find (in_group k) groups with
             | Some y => last_of y e
             | None => e
             end)
  else find (in_group k) groups.
Proof.
  induction 1 as [|y groups Hs IH Hy]; cbn [add_to_group find].
  - destruct (in_group k e); reflexivity.
  - destruct (key_compare (event_key e) (event_key y)) eqn:Hc.
    + apply key_compare_Eq in Hc. cbn [find].
      assert (Hl : in_group k (last_of y e) = in_group k y) by reflexivity.
      rewrite Hl.
      assert (Hey : in_group k e = in_group k y).
      { destruct (in_group k y) eqn:Hky.
        - apply in_group_true. apply in_group_true in Hky. congruence.
        - apply in_group_false. apply in_group_false in Hky. congruence. }
      rewrite Hey. destruct (in_group k y); reflexivity.
    + cbn [find]. destruct (in_group k e) eqn:Hke; [|reflexivity].
      apply in_group_true in Hke.
      assert (Hky : in_group k y = false).
      { apply in_group_false. intros Heq. rewrite Hke, Heq in Hc.
        eapply key_lt_irrefl. exact Hc. }
      rewrite Hky, find_above; [reflexivity|].
      eapply Forall_impl; [|exact Hy]. intros z Hz. rewrite <- Hke.
      eapply key_lt_trans; [exact Hc | exact Hz].
    + apply key_compare_Gt in Hc. cbn [find]. rewrite IH.
      destruct (in_group k y) eqn:Hky; [|reflexivity].
      apply in_group_true in Hky.
      assert (Hke : in_group k e = false).
      { apply in_group_false. intros Heq. rewrite Hky, Heq in Hc.
        eapply key_lt_irrefl. exact Hc. }
      rewrite Hke. reflexivity.
Qed.

Lemma fillna_None v : fillna v None = v.
Proof. destruct v; reflexivity. Qed.

Lemma last_valid_snoc vals v :
  last_valid (vals ++ [v]) = fillna v (last_valid vals).
Proof. unfold last_valid. rewrite fold_left_app. reflexivity. Qed.

Lemma group_last_snoc k rows e :
  group_last k (rows ++ [e]) =
  if in_group k e
  then Some (match group_last k rows with
             | Some y => last_of y e
             | None => e
             end)
  else group_last k rows.
Proof.
  unfold group_last. rewrite List.filter_app. cbn [List.filter].
  destruct (in_group k e) eqn:Hk; [|rewrite app_nil_r; reflexivity].
  apply in_group_true in Hk.
  destruct (List.filter (in_group k) rows) as [|x g] eqn:Hg.
  - cbn [app map]. unfold last_valid. cbn [fold_left]. rewrite !fillna_None.
    destruct e; unfold event_key in Hk; cbn in Hk. subst k. reflexivity.
  - rewrite <- Hg. clear Hg.
    destruct (List.filter (in_group k) rows ++ [e]) as [|x' g'] eqn:Hg';
      [destruct (List.filter (in_group k) rows); discriminate|].
    rewrite <- Hg', !map_app. cbn [map]. rewrite !last_valid_snoc. reflexivity.
Qed.

(** [groupby_last] keeps its groups sorted and holds, for every key, what
    [GroupBy.last()] makes of the group. *)
Lemma groupby_last_spec rows :
  StronglySorted event_lt (groupby_last rows) /\
  forall k, find (in_group k) (groupby_last rows) = group_last k rows.
Proof.
  unfold groupby_last.
  assert (Hgen : forall todo done acc,
    StronglySorted event_lt acc ->
    (forall k, find (in_group k) acc = group_last k done) ->
    StronglySorted event_lt
      (fold_left (fun groups e => add_to_group e groups) todo acc) /\
    forall k, find (in_group k)
                (fold_left (fun groups e => add_to_group e groups) todo acc) =
              group_last k (done ++ todo)).
  { induction todo as [|e todo IH]; intros done acc Hs Hf.
    - rewrite app_nil_r. split; assumption.
    - cbn [fold_left].
      replace (done ++ e :: todo) with ((done ++ [e]) ++ todo)
        by (rewrite <- app_assoc; reflexivity).
      apply IH.
      + apply add_to_group_sorted. exact Hs.
      + intros k. rewrite find_add_to_group, group_last_snoc, Hf by exact Hs.
        reflexivity. }
  apply (Hgen rows [] []); [constructor | reflexivity].
Qed.

Lemma sorted_find groups x :
  StronglySorted event_lt groups -> In x groups ->
  find (in_group (event_key x)) groups = Some x.
Proof.
  induction 1 as [|y groups Hs IH Hy]; intros Hin; [contradiction|].
  cbn [find]. destruct Hin as [-> | Hin].
  - assert (Hk : in_group (event_key x) x = true)
      by (apply in_group_true; reflexivity).
    rewrite Hk. reflexivity.
  - destruct (in_group (event_key x) y) eqn:Hk; [|apply IH; exact Hin].
    apply in_group_true in Hk. rewrite Forall_forall in Hy.
    specialize (Hy x Hin). unfold event_lt in Hy. rewrite Hk in Hy.
    exfalso. eapply key_lt_irrefl. exact Hy.
Qed.

Lemma sorted_keys_NoDup groups :
  StronglySorted event_lt groups -> NoDup (map event_key groups).
Proof.
  induction 1 as [|y groups Hs IH Hy]; cbn [map]; constructor; [|exact IH].
  intros Hin. apply in_map_iff in Hin. destruct Hin as [x [Hk Hx]].
  rewrite Forall_forall in Hy. specialize (Hy x Hx). unfold event_lt in Hy.
  rewrite Hk in Hy. eapply key_lt_irrefl. exact Hy.
Qed.

(** ** White space and the first word of a string *)

(** The first byte of a white space character: an ASCII white space or
    the first byte of a character of two or three bytes. *)
Lemma starts_with_space_lead c tl :
  starts_with_space (String c tl) = true ->
  is_space c = true \/ (0xC2 <= N_of_ascii c <= 0xEF)%N.
Proof.
  cbn [starts_with_space]. destruct (is_space c); [left; reflexivity|].
  intros H. right. cbn [orb] in H.
  destruct tl as [|c2 tl2]; [discriminate|].
  apply orb_true_iff in H. destruct H as [H | H].
  - unfold space2, code2 in H.
    destruct ((0xC2 <=? N_of_ascii c) && (N_of_ascii c <=? 0xDF))%N eqn:Hb;
      [|discriminate].
    apply andb_true_iff in Hb. destruct Hb as [H1 H2].
    apply N.leb_le in H1, H2. lia.
  - destruct tl2 as [|c3 tl3]; [discriminate|].
    unfold space3, code3 in H.
    destruct ((0xE0 <=? N_of_ascii c) && (N_of_ascii c <=? 0xEF))%N eqn:Hb;
      [|discriminate].
    apply andb_true_iff in Hb. destruct Hb as [H1 H2].
    apply N.leb_le in H1, H2. lia.
Qed.

Lemma is_space_ascii c : is_space c = true -> (N_of_ascii c <= 32)%N.
Proof.
  unfold is_space, nat_of_ascii. intros H.
  apply orb_true_iff in H.
  destruct H as [H | H]; apply andb_true_iff in H; destruct H as [_ H];
    apply Nat.leb_le in H; lia.
Qed.

Lemma lead_not_continuation c :
  is_space c = true \/ (0xC2 <= N_of_ascii c <= 0xEF)%N ->
  continuation (N_of_ascii c) = false.
Proof.
  intros H. unfold continuation. apply andb_false_iff.
  destruct H as [H | H].
  - apply is_space_ascii in H. left. apply N.leb_gt. lia.
  - right. apply N.leb_gt. lia.
Qed.

Lemma space2_continuation c1 c2 :
  continuation (N_of_ascii c2) = false -> space2 c1 c2 = false.
Proof.
  intros H. unfold space2, code2. rewrite H, andb_false_r. reflexivity.
Qed.

Lemma space3_continuation2 c1 c2 c3 :
  continuation (N_of_ascii c2) = false -> space3 c1 c2 c3 = false.
Proof.
  intros H. unfold space3, code3. rewrite H, andb_false_r. reflexivity.
Qed.

Lemma space3_continuation3 c1 c2 c3 :
  continuation (N_of_ascii c3) = false -> space3 c1 c2 c3 = false.
Proof.
  intros H. unfold space3, code3. rewrite H, andb_false_r. reflexivity.
Qed.

Lemma append_cons c s t : String c s +:+ t = String c (s +:+ t).
Proof. reflexivity. Qed.

Lemma append_nil t : EmptyString +:+ t = t.
Proof. reflexivity. Qed.

Lemma append_empty s : s +:+ EmptyString = s.
Proof.
  induction s as [|c s IH]; [reflexivity|].
  change (String c (s +:+ EmptyString) = String c s). rewrite IH. reflexivity.
Qed.

(** What follows a word does not change whether the word starts with
    white space: no white space character begins with the last bytes of
    another character. *)
Lemma starts_with_space_app s rest :
  s <> EmptyString ->
  rest = EmptyString \/ starts_with_space rest = true ->
  starts_with_space (s +:+ rest) = starts_with_space s.
Proof.
  intros Hs [-> | Hrest].
  - rewrite append_empty. reflexivity.
  - destruct rest as [|r rest']; [discriminate|].
    apply starts_with_space_lead, lead_not_continuation in Hrest.
    destruct s as [|c1 [|c2 [|c3 s']]]; [congruence | | |].
    + rewrite ?append_cons, ?append_nil; cbn [starts_with_space skip_spaces]. rewrite (space2_continuation c1 r Hrest).
      destruct rest'; [|rewrite (space3_continuation2 c1 r _ Hrest)];
        rewrite ?orb_false_r; reflexivity.
    + rewrite ?append_cons, ?append_nil; cbn [starts_with_space skip_spaces]. rewrite (space3_continuation3 c1 c2 r Hrest). reflexivity.
    + reflexivity.
Qed.

Lemma starts_with_space_prefix s t :
  starts_with_space s = true -> starts_with_space (s +:+ t) = true.
Proof.
  destruct s as [|c1 [|c2 [|c3 s']]]; [discriminate | | |].
  - rewrite ?append_cons, ?append_nil; cbn [starts_with_space skip_spaces]. rewrite orb_false_r. intros ->. reflexivity.
  - rewrite ?append_cons, ?append_nil; cbn [starts_with_space skip_spaces]. rewrite orb_false_r. intros H. apply orb_true_iff in H.
    destruct H as [-> | ->]; [reflexivity|]. rewrite orb_true_r.
    destruct t; reflexivity.
  - rewrite ?append_cons, ?append_nil; cbn [starts_with_space skip_spaces]. intros H. exact H.
Qed.

Lemma take_word_prefix s : exists rest, s = take_word s +:+ rest.
Proof.
  induction s as [|c s [rest IH]]; [exists EmptyString; reflexivity|].
  cbn [take_word]. destruct (starts_with_space (String c s)).
  - exists (String c s). reflexivity.
  - exists rest. rewrite append_cons, <- IH. reflexivity.
Qed.

(** A word that [take_word] returns holds no white space. *)
Lemma take_word_no_space s : has_space (take_word s) = false.
Proof.
  induction s as [|c s IH]; [reflexivity|].
  cbn [take_word]. destruct (starts_with_space (String c s)) eqn:Hc;
    [reflexivity|].
  cbn [has_space]. rewrite IH, orb_false_r.
  destruct (starts_with_space (String c (take_word s))) eqn:Hw;
    [|reflexivity].
  destruct (take_word_prefix s) as [rest Hrest].
  apply (starts_with_space_prefix _ rest) in Hw. rewrite append_cons in Hw.
  rewrite <- Hrest in Hw. congruence.
Qed.

Lemma has_space_bytes s :
  has_space s = false ->
  forall c, In c (list_ascii_of_string s) -> is_space c = false.
Proof.
  induction s as [|a s IH]; intros H c Hc; [contradiction|].
  cbn [has_space] in H. apply orb_false_iff in H. destruct H as [Ha Hs].
  destruct Hc as [<- | Hc]; [|apply IH; assumption].
  cbn [starts_with_space] in Ha. apply orb_false_iff in Ha. tauto.
Qed.

Lemma skip_spaces_id s : starts_with_space s = false -> skip_spaces s = s.
Proof.
  destruct s as [|c1 [|c2 [|c3 s']]]; [reflexivity | | |].
  - rewrite ?append_cons, ?append_nil; cbn [starts_with_space skip_spaces]. rewrite orb_false_r. intros ->. reflexivity.
  - rewrite ?append_cons, ?append_nil; cbn [starts_with_space skip_spaces]. rewrite orb_false_r. intros H. apply orb_false_iff in H.
    destruct H as [-> ->]. reflexivity.
  - rewrite ?append_cons, ?append_nil; cbn [starts_with_space skip_spaces]. intros H. apply orb_false_iff in H. destruct H as [-> H].
    apply orb_false_iff in H. destruct H as [-> ->]. reflexivity.
Qed.

(** What [skip_spaces] leaves does not start with white space. *)
Lemma skip_spaces_no_space s : starts_with_space (skip_spaces s) = false.
Proof.
  assert (H : forall n s, (String.length s <= n)%nat ->
                          starts_with_space (skip_spaces s) = false).
  { clear s. induction n as [|n IH]; intros s Hn.
    - destruct s; [reflexivity | simpl in Hn; lia].
    - destruct s as [|c1 tl1]; [reflexivity|]. cbn [skip_spaces].
      cbn [String.length] in Hn.
      destruct (is_space c1) eqn:H1; [apply IH; lia|].
      destruct tl1 as [|c2 tl2].
      + rewrite ?append_cons, ?append_nil; cbn [starts_with_space skip_spaces]. rewrite H1. reflexivity.
      + cbn [String.length] in Hn.
        destruct (space2 c1 c2) eqn:H2; [apply IH; lia|].
        destruct tl2 as [|c3 tl3].
        * rewrite ?append_cons, ?append_nil; cbn [starts_with_space skip_spaces]. rewrite H1, H2. reflexivity.
        * cbn [String.length] in Hn.
          destruct (space3 c1 c2 c3) eqn:H3; [apply IH; lia|].
          rewrite ?append_cons, ?append_nil; cbn [starts_with_space skip_spaces]. rewrite H1, H2, H3. reflexivity. }
  apply (H (String.length s)). lia.
Qed.

Lemma take_word_app date rest :
  has_space date = false ->
  rest = EmptyString \/ starts_with_space rest = true ->
  take_word (date +:+ rest) = date.
Proof.
  intros Hd Hrest. induction date as [|c date IH].
  - rewrite append_nil. destruct Hrest as [-> | Hrest]; [reflexivity|].
    destruct rest as [|r rest']; [reflexivity|].
    cbn [take_word]. rewrite Hrest. reflexivity.
  - cbn [has_space] in Hd. apply orb_false_iff in Hd.
    destruct Hd as [Hc Hd].
    assert (Hstart : starts_with_space (String c (date +:+ rest)) = false).
    { rewrite <- append_cons.
      rewrite (starts_with_space_app (String c date) rest);
        [exact Hc | discriminate | exact Hrest]. }
    rewrite append_cons. cbn [take_word]. rewrite Hstart, (IH Hd).
    reflexivity.
Qed.

(** The first word of a string that begins with a word and goes on, if at
    all, with white space. *)
Lemma first_word_app date rest :
  date <> EmptyString -> has_space date = false ->
  rest = EmptyString \/ starts_with_space rest = true ->
  first_word (date +:+ rest) = Some date.
Proof.
  intros Hne Hd Hrest. unfold first_word.
  assert (Hstart : starts_with_space (date +:+ rest) = false).
  { rewrite (starts_with_space_app date rest Hne Hrest).
    destruct date as [|c date]; [congruence|].
    cbn [has_space] in Hd. apply orb_false_iff in Hd. tauto. }
  rewrite (skip_spaces_id _ Hstart).
  pose proof (take_word_app date rest Hd Hrest) as Hw.
  destruct date as [|c date]; [congruence|].
  rewrite append_cons in *. rewrite Hw. reflexivity.
Qed.

Lemma first_word_Some s d :
  first_word s = Some d ->
  d <> EmptyString /\ has_space d = false /\
  (forall c, In c (list_ascii_of_string d) -> is_space c = false).
Proof.
  unfold first_word. pose proof (skip_spaces_no_space s) as Hs.
  destruct (skip_spaces s) as [|a w]; [discriminate|].
  intros H. assert (Hd : d = take_word (String a w)) by congruence.
  clear H. subst d.
  pose proof (take_word_no_space (String a w)) as Hno.
  split; [|split; [exact Hno | apply has_space_bytes; exact Hno]].
  cbn [take_word]. rewrite Hs. discriminate.
Qed.

(** A byte that begins no white space character. *)
Lemma plain_byte c tl :
  is_space c = false -> (N_of_ascii c < 0xC2)%N ->
  starts_with_space (String c tl) = false.
Proof.
  intros Hc Hlt.
  destruct (starts_with_space (String c tl)) eqn:H; [|reflexivity].
  apply starts_with_space_lead in H. destruct H as [H | H]; [congruence | lia].
Qed.

Lemma digit_plain n :
  is_space (digit n) = false /\ (N_of_ascii (digit n) < 0xC2)%N.
Proof.
  unfold digit. pose proof (Z.mod_pos_bound n 10 ltac:(lia)) as Hb.
  set (k := Z.to_nat (n mod 10)).
  assert (Hk : (k < 10)%nat) by (unfold k; lia). clearbody k.
  do 10 (destruct k as [|k]; [split; vm_compute; reflexivity|]). lia.
Qed.

Lemma strftime_word day :
  strftime day <> EmptyString /\ has_space (strftime day) = false.
Proof.
  unfold strftime. destruct (civil_from_days day) as [[y m] d].
  split; [discriminate|].
  cbn [has_space].
  repeat match goal with
  | |- context [starts_with_space (String (digit ?n) ?tl)] =>
      rewrite (plain_byte (digit n) tl (proj1 (digit_plain n))
                 (proj2 (digit_plain n)))
  | |- context [starts_with_space (String "-"%char ?tl)] =>
      rewrite (plain_byte "-"%char tl eq_refl eq_refl)
  end.
  reflexivity.
Qed.

(** ** The bytes and the characters of a str *)

Ltac bool_cases :=
  repeat match goal with
  | |- context [(?a <=? ?b)%N] => destruct (N.leb_spec a b); try lia
  | |- context [(?a <? ?b)%N] => destruct (N.ltb_spec a b); try lia
  | |- context [(?a =? ?b)%N] => destruct (N.eqb_spec a b); try lia
  | |- context [(?a <=? ?b)%nat] => destruct (Nat.leb_spec a b); try lia
  end; try reflexivity; try lia.

Lemma byte_of_N n : (n < 256)%N -> N_of_ascii (ascii_of_N n) = n.
Proof. apply N_ascii_embedding. Qed.

(** A byte below 0xC2 begins a white space character when it is one. *)
Lemma starts_with_space_ascii c tl :
  (N_of_ascii c < 0xC2)%N -> starts_with_space (String c tl) = is_space c.
Proof.
  intros Hc. destruct (is_space c) eqn:H.
  - cbn [starts_with_space]. rewrite H. reflexivity.
  - apply plain_byte; assumption.
Qed.

Lemma is_space_isspace c :
  (N_of_ascii c < 0x80)%N -> is_space c = isspace (N_of_ascii c).
Proof.
  intros Hc. unfold is_space, isspace, nat_of_ascii.
  set (n := N_of_ascii c) in *. clearbody n.
  assert (Hn : N.of_nat (N.to_nat n) = n) by apply N2Nat.id.
  set (m := N.to_nat n) in *. clearbody m. subst n.
  bool_cases.
Qed.

Lemma is_space_high c : (32 < N_of_ascii c)%N -> is_space c = false.
Proof.
  intros Hc. destruct (is_space c) eqn:H; [|reflexivity].
  apply is_space_ascii in H. lia.
Qed.

Lemma space2_lead c1 c2 :
  ~ (0xC2 <= N_of_ascii c1 <= 0xDF)%N -> space2 c1 c2 = false.
Proof.
  intros H. unfold space2, code2.
  destruct ((0xC2 <=? N_of_ascii c1) && (N_of_ascii c1 <=? 0xDF))%N eqn:Hb;
    [|reflexivity].
  apply andb_true_iff in Hb. destruct Hb as [H1 H2].
  apply N.leb_le in H1, H2. lia.
Qed.

Lemma space3_lead c1 c2 c3 :
  ~ (0xE0 <= N_of_ascii c1 <= 0xEF)%N -> space3 c1 c2 c3 = false.
Proof.
  intros H. unfold space3, code3.
  destruct ((0xE0 <=? N_of_ascii c1) && (N_of_ascii c1 <=? 0xEF))%N eqn:Hb;
    [|reflexivity].
  apply andb_true_iff in Hb. destruct Hb as [H1 H2].
  apply N.leb_le in H1, H2. lia.
Qed.

(** No white space character starts inside a character. *)
Lemma continuation_no_space c tl :
  continuation (N_of_ascii c) = true ->
  starts_with_space (String c tl) = false.
Proof.
  intros Hc. destruct (starts_with_space (String c tl)) eqn:H; [|reflexivity].
  apply starts_with_space_lead, lead_not_continuation in H. congruence.
Qed.

Lemma continuation_byte r :
  (r < 64)%N -> continuation (N_of_ascii (ascii_of_N (0x80 + r))) = true.
Proof.
  intros Hr. rewrite byte_of_N by lia. unfold continuation. bool_cases.
Qed.

Lemma isspace_bound cp : isspace cp = true -> (cp <= 0x3000)%N.
Proof. unfold isspace. bool_cases; discriminate. Qed.

(** The shape of a string that starts with the encoding of a character:
    whether it starts with white space, and what [skip_spaces] and
    [take_word] do on it. *)
Lemma utf8_step cp tl :
  (cp < 0x110000)%N ->
  starts_with_space (utf8 cp +:+ tl) = isspace cp /\
  skip_spaces (utf8 cp +:+ tl) =
    (if isspace cp then skip_spaces tl else utf8 cp +:+ tl) /\
  take_word (utf8 cp +:+ tl) =
    (if isspace cp then EmptyString else utf8 cp +:+ take_word tl) /\
  has_space (utf8 cp +:+ tl) = isspace cp || has_space tl.
Proof.
  intros Hcp.
  pose proof (N.div_mod cp 64 ltac:(lia)) as Hd1.
  pose proof (N.mod_lt cp 64 ltac:(lia)) as Hm1.
  pose proof (N.div_mod (cp / 64) 64 ltac:(lia)) as Hd2.
  pose proof (N.mod_lt (cp / 64) 64 ltac:(lia)) as Hm2.
  pose proof (N.div_mod (cp / 64 / 64) 64 ltac:(lia)) as Hd3.
  pose proof (N.mod_lt (cp / 64 / 64) 64 ltac:(lia)) as Hm3.
  assert (H4096 : (cp / 4096 = cp / 64 / 64)%N)
    by (rewrite N.Div0.div_div; reflexivity).
  assert (H262144 : (cp / 262144 = cp / 64 / 64 / 64)%N)
    by (rewrite !N.Div0.div_div; reflexivity).
  assert (Hstart : starts_with_space (utf8 cp +:+ tl) = isspace cp /\
                   (isspace cp = true ->
                    skip_spaces (utf8 cp +:+ tl) = skip_spaces tl) /\
                   (isspace cp = false ->
                    take_word (utf8 cp +:+ tl) = utf8 cp +:+ take_word tl) /\
                   has_space (utf8 cp +:+ tl) = isspace cp || has_space tl).
  { unfold utf8. rewrite ?H262144, ?H4096. clear H4096 H262144.
    set (q1 := (cp / 64)%N) in *. set (r1 := (cp mod 64)%N) in *.
    set (q2 := (q1 / 64)%N) in *. set (r2 := (q1 mod 64)%N) in *.
    set (q3 := (q2 / 64)%N) in *. set (r3 := (q2 mod 64)%N) in *.
    clearbody r3 q3. clearbody r2 q2. clearbody r1 q1.
    destruct (N.ltb_spec cp 0x80) as [H1 | H1];
      [|destruct (N.ltb_spec cp 0x800) as [H2 | H2];
        [|destruct (N.ltb_spec cp 0x10000) as [H3 | H3]]].
    - (* one byte *)
      rewrite !append_cons, append_nil.
      assert (Hb : N_of_ascii (ascii_of_N cp) = cp) by (apply byte_of_N; lia).
      set (c := ascii_of_N cp) in *.
      assert (Hs : is_space c = isspace cp)
        by (rewrite is_space_isspace, Hb by lia; reflexivity).
      assert (Hw : starts_with_space (String c tl) = isspace cp)
        by (rewrite starts_with_space_ascii by lia; exact Hs).
      split; [exact Hw|]. split; [|split]; try intros Hsp.
      + cbn [skip_spaces]. rewrite Hs, Hsp. reflexivity.
      + cbn [take_word]. rewrite Hw, Hsp. reflexivity.
      + cbn [has_space]. rewrite Hw. reflexivity.
    - (* two bytes *)
      rewrite !append_cons, append_nil.
      assert (Hb1 : N_of_ascii (ascii_of_N (0xC0 + q1)) =
                    (0xC0 + q1)%N) by (apply byte_of_N; lia).
      assert (Hb2 : N_of_ascii (ascii_of_N (0x80 + r1)) =
                    (0x80 + r1)%N) by (apply byte_of_N; lia).
      pose proof (continuation_byte (r1) Hm1) as Hc2.
      set (c1 := ascii_of_N (0xC0 + q1)) in *.
      set (c2 := ascii_of_N (0x80 + r1)) in *.
      assert (Hs1 : is_space c1 = false) by (apply is_space_high; lia).
      assert (Hs2 : space2 c1 c2 = isspace cp).
      { unfold space2, code2. rewrite Hc2, Hb1, Hb2.
        replace ((0xC2 <=? 0xC0 + q1) && (0xC0 + q1 <=? 0xDF))%N
          with true by (symmetry; apply andb_true_iff;
                        split; apply N.leb_le; lia).
        cbn [andb]. f_equal. lia. }
      assert (Hs3 : forall c3, space3 c1 c2 c3 = false)
        by (intros c3; apply space3_lead; lia).
      assert (Hw : starts_with_space (String c1 (String c2 tl)) = isspace cp).
      { cbn [starts_with_space]. rewrite Hs1, Hs2. cbn [orb].
        destruct tl; [|rewrite Hs3]; apply orb_false_r. }
      split; [exact Hw|]. split; [|split]; try intros Hsp.
      + cbn [skip_spaces]. rewrite Hs1, Hs2, Hsp. reflexivity.
      + cbn [take_word]. rewrite Hw, Hsp.
        fold (take_word (String c2 tl)). cbn [take_word].
        rewrite (continuation_no_space c2 tl Hc2). reflexivity.
      + cbn [has_space]. rewrite Hw.
        fold (has_space (String c2 tl)). cbn [has_space].
        rewrite (continuation_no_space c2 tl Hc2). reflexivity.
    - (* three bytes *)
      rewrite !append_cons, append_nil.
      assert (Hb1 : N_of_ascii (ascii_of_N (0xE0 + q2)) =
                    (0xE0 + q2)%N) by (apply byte_of_N; lia).
      assert (Hb2 : N_of_ascii (ascii_of_N (0x80 + r2)) =
                    (0x80 + r2)%N) by (apply byte_of_N; lia).
      assert (Hb3 : N_of_ascii (ascii_of_N (0x80 + r1)) =
                    (0x80 + r1)%N) by (apply byte_of_N; lia).
      pose proof (continuation_byte (r2) Hm2) as Hc2.
      pose proof (continuation_byte (r1) Hm1) as Hc3.
      set (c1 := ascii_of_N (0xE0 + q2)) in *.
      set (c2 := ascii_of_N (0x80 + r2)) in *.
      set (c3 := ascii_of_N (0x80 + r1)) in *.
      assert (Hs1 : is_space c1 = false) by (apply is_space_high; lia).
      assert (Hs2 : space2 c1 c2 = false) by (apply space2_lead; lia).
      assert (Hs3 : space3 c1 c2 c3 = isspace cp).
      { unfold space3, code3. rewrite Hc2, Hc3, Hb1, Hb2, Hb3.
        replace ((0xE0 <=? 0xE0 + q2) && (0xE0 + q2 <=? 0xEF))%N
          with true by (symmetry; apply andb_true_iff;
                        split; apply N.leb_le; lia).
        cbn [andb].
        replace ((0xE0 + q2 - 0xE0) * 4096 +
                 (0x80 + r2 - 0x80) * 64 +
                 (0x80 + r1 - 0x80))%N with cp by lia.
        replace (0x800 <=? cp)%N with true
          by (symmetry; apply N.leb_le; lia).
        reflexivity. }
      assert (Hw : starts_with_space (String c1 (String c2 (String c3 tl))) =
                   isspace cp).
      { cbn [starts_with_space]. rewrite Hs1, Hs2, Hs3. reflexivity. }
      split; [exact Hw|]. split; [|split]; try intros Hsp.
      + cbn [skip_spaces]. rewrite Hs1, Hs2, Hs3, Hsp. reflexivity.
      + cbn [take_word]. rewrite Hw, Hsp.
        fold (take_word (String c2 (String c3 tl))). cbn [take_word].
        rewrite (continuation_no_space c2 _ Hc2).
        fold (take_word (String c3 tl)). cbn [take_word].
        rewrite (continuation_no_space c3 tl Hc3). reflexivity.
      + cbn [has_space]. rewrite Hw.
        fold (has_space (String c2 (String c3 tl))). cbn [has_space].
        rewrite (continuation_no_space c2 _ Hc2).
        fold (has_space (String c3 tl)). cbn [has_space].
        rewrite (continuation_no_space c3 tl Hc3). reflexivity.
    - (* four bytes *)
      rewrite !append_cons, append_nil.
      assert (Hb1 : N_of_ascii (ascii_of_N (0xF0 + q3)) =
                    (0xF0 + q3)%N) by (apply byte_of_N; lia).
      pose proof (continuation_byte (r3)
                    Hm3) as Hc2.
      pose proof (continuation_byte (r2) Hm2) as Hc3.
      pose proof (continuation_byte (r1) Hm1) as Hc4.
      set (c1 := ascii_of_N (0xF0 + q3)) in *.
      set (c2 := ascii_of_N (0x80 + r3)) in *.
      set (c3 := ascii_of_N (0x80 + r2)) in *.
      set (c4 := ascii_of_N (0x80 + r1)) in *.
      assert (Hno : isspace cp = false).
      { destruct (isspace cp) eqn:Hsp; [|reflexivity].
        apply isspace_bound in Hsp. lia. }
      assert (Hw : starts_with_space
                     (String c1 (String c2 (String c3 (String c4 tl)))) =
                   false).
      { cbn [starts_with_space].
        rewrite (is_space_high c1), (space2_lead c1 c2),
          (space3_lead c1 c2 c3) by lia. reflexivity. }
      rewrite Hno. split; [exact Hw|].
      split; [|split]; try intros Hsp; [discriminate | |].
      + cbn [take_word]. rewrite Hw.
        fold (take_word (String c2 (String c3 (String c4 tl)))).
        cbn [take_word]. rewrite (continuation_no_space c2 _ Hc2).
        fold (take_word (String c3 (String c4 tl))).
        cbn [take_word]. rewrite (continuation_no_space c3 _ Hc3).
        fold (take_word (String c4 tl)).
        cbn [take_word]. rewrite (continuation_no_space c4 _ Hc4).
        reflexivity.
      + cbn [has_space]. rewrite Hw.
        fold (has_space (String c2 (String c3 (String c4 tl)))).
        cbn [has_space]. rewrite (continuation_no_space c2 _ Hc2).
        fold (has_space (String c3 (String c4 tl))).
        cbn [has_space]. rewrite (continuation_no_space c3 _ Hc3).
        fold (has_space (String c4 tl)).
        cbn [has_space]. rewrite (continuation_no_space c4 _ Hc4).
        reflexivity. }
  destruct Hstart as [Hw [Hskip [Htake Hhas]]]. split; [exact Hw|].
  split; [|split; [|exact Hhas]].
  - destruct (isspace cp) eqn:Hsp;
      [apply Hskip; reflexivity | apply skip_spaces_id; exact Hw].
  - destruct (isspace cp) eqn:Hsp; [|apply Htake; reflexivity].
    destruct (utf8 cp +:+ tl) as [|c s]; [reflexivity|].
    cbn [take_word]. rewrite Hw. reflexivity.
Qed.

Lemma utf8_nonempty cp tl : utf8 cp +:+ tl <> EmptyString.
Proof.
  unfold utf8.
  destruct (cp <? 0x80)%N; [discriminate|].
  destruct (cp <? 0x800)%N; [discriminate|].
  destruct (cp <? 0x10000)%N; discriminate.
Qed.

Lemma append_assoc s t u : (s +:+ t) +:+ u = s +:+ (t +:+ u).
Proof.
  induction s as [|c s IH]; [reflexivity|].
  rewrite !append_cons, IH. reflexivity.
Qed.

Lemma skip_spaces_encode s :
  Forall (fun cp => (cp < 0x110000)%N) s ->
  skip_spaces (encode s) = encode (lstrip s).
Proof.
  induction 1 as [|cp s Hcp Hs IH]; [reflexivity|].
  cbn [encode lstrip].
  destruct (utf8_step cp (encode s) Hcp) as [_ [Hskip _]]. rewrite Hskip.
  destruct (isspace cp); [exact IH | reflexivity].
Qed.

Lemma take_word_encode s :
  Forall (fun cp => (cp < 0x110000)%N) s ->
  take_word (encode s) = encode (until_space s).
Proof.
  induction 1 as [|cp s Hcp Hs IH]; [reflexivity|].
  cbn [encode until_space].
  destruct (utf8_step cp (encode s) Hcp) as [_ [_ [Htake _]]]. rewrite Htake.
  destruct (isspace cp); [reflexivity|]. cbn [encode]. rewrite IH.
  reflexivity.
Qed.

Lemma Forall_lstrip (P : N -> Prop) s : Forall P s -> Forall P (lstrip s).
Proof.
  induction 1 as [|cp s Hcp Hs IH]; [constructor|].
  cbn [lstrip]. destruct (isspace cp); [exact IH | constructor; assumption].
Qed.

(** The first word of the bytes of a str is the bytes of its first
    word. *)
Lemma first_word_encode s :
  Forall (fun cp => (cp < 0x110000)%N) s ->
  first_word (encode s) = option_map encode (split_first s).
Proof.
  intros Hs. unfold first_word, split_first.
  rewrite (skip_spaces_encode s Hs).
  pose proof (Forall_lstrip _ s Hs) as Hw.
  destruct (lstrip s) as [|cp w]; [reflexivity|].
  cbv beta iota. cbn [option_map]. rewrite <- (take_word_encode _ Hw).
  cbn [encode].
  pose proof (utf8_nonempty cp (encode w)) as Hne.
  destruct (utf8 cp +:+ encode w); [congruence | reflexivity].
Qed.

Lemma has_space_encode s :
  Forall (fun cp => (cp < 0x110000)%N) s ->
  has_space (encode s) = existsb isspace s.
Proof.
  induction 1 as [|cp s Hcp Hs IH]; [reflexivity|].
  cbn [encode existsb].
  destruct (utf8_step cp (encode s) Hcp) as [_ [_ [_ Hhas]]].
  rewrite Hhas, IH. reflexivity.
Qed.

Lemma in_somes {A} (l : list (option A)) x : In x (somes l) <-> In (Some x) l.
Proof.
  induction l as [|[y|] l IH]; cbn [somes In].
  - tauto.
  - rewrite IH. split; intros [H | H]; auto; left; congruence.
  - rewrite IH. split; [auto | intros [H | H]; [discriminate | exact H]].
Qed.

Lemma filter_renamed k dimension_name df :
  map value_old (List.filter (in_group k)
                   (somes (map (renamed dimension_name) df))) =
  map (old_column dimension_name) (List.filter (raw_in_group k) df) /\
  map value_new (List.filter (in_group k)
                   (somes (map (renamed dimension_name) df))) =
  map (new_column dimension_name) (List.filter (raw_in_group k) df).
Proof.
  induction df as [|r df [IHo IHn]]; [split; reflexivity|].
  cbn [map List.filter].
  destruct (renamed dimension_name r) as [x|] eqn:Hx.
  - assert (Hk : in_group k x = raw_in_group k r /\
                 value_old x = old_column dimension_name r /\
                 value_new x = new_column dimension_name r).
    { unfold renamed in Hx. unfold raw_in_group.
      destruct (first_word (change_date r)); inversion Hx; subst.
      repeat split. }
    destruct Hk as [Hk [Hvo Hvn]]. cbn [somes List.filter]. rewrite Hk.
    destruct (raw_in_group k r); cbn [map]; rewrite ?IHo, ?IHn, ?Hvo, ?Hvn;
      split; reflexivity.
  - assert (Hk : raw_in_group k r = false).
    { unfold renamed in Hx. unfold raw_in_group.
      destruct (first_word (change_date r)); [discriminate | reflexivity]. }
    cbn [somes]. rewrite Hk. split; assumption.
Qed.

Lemma last_valid_last vals v : last_valid (vals ++ [Some v]) = Some v.
Proof. rewrite last_valid_snoc. reflexivity. Qed.

(** C5, as the code has it.  [format_partial_change_history] returns
    exactly when some row has a dated timestamp.  The date of a row is the
    date component of its timestamp: of a timestamp that begins with a
    date and goes on, if at all, with white space, the date; so for the
    dates that [strftime] writes.  The white space is that of
    [str.split()]: on the bytes of a str the first word is the first word
    of its characters, cut at the characters of [isspace].  The result has
    one event per pair of a date and an entity, so its keys are unique, and
    every dated row has its event.  The event of a group holds, column by
    column, the last value of the group that is not null: the values of the
    chronologically last row whenever those are not null.  In [main] an
    empty selection of rows is not formatted and gives the empty event
    table. *)
Theorem format_partial_change_history_last_values
    (df : list change_row) (dimension_name : dimension) :
  ((exists r, In r df /\ first_word (change_date r) <> None) <->
   (exists out, format_partial_change_history df dimension_name = Ok out)) /\
  (forall out, format_partial_change_history df dimension_name = Ok out ->
     NoDup (map event_key out) /\
     (forall r d, In r df -> first_word (change_date r) = Some d ->
        exists x, In x out /\ event_key x = (d, ch_campaign_id r)) /\
     (forall x, In x out ->
        List.filter (raw_in_group (event_key x)) df <> [] /\
        value_old x =
        last_valid (map (old_column dimension_name)
                      (List.filter (raw_in_group (event_key x)) df)) /\
        value_new x =
        last_valid (map (new_column dimension_name)
                      (List.filter (raw_in_group (event_key x)) df)) /\
        (forall earlier r,
           List.filter (raw_in_group (event_key x)) df = earlier ++ [r] ->
           old_column dimension_name r <> None ->
           new_column dimension_name r <> None ->
           value_old x = old_column dimension_name r /\
           value_new x = new_column dimension_name r))) /\
  (forall changed change_history,
     List.filter changed change_history = [] ->
     change_events changed dimension_name change_history = Ok []) /\
  (forall date rest,
     date <> EmptyString -> has_space date = false ->
     rest = EmptyString \/ starts_with_space rest = true ->
     first_word (date +:+ rest) = Some date) /\
  (forall day rest,
     rest = EmptyString \/ starts_with_space rest = true ->
     first_word (strftime day +:+ rest) = Some (strftime day)) /\
  (forall s, Forall (fun cp => (cp < 0x110000)%N) s ->
     first_word (encode s) = option_map encode (split_first s) /\
     has_space (encode s) = existsb isspace s /\
     forall rest, starts_with_space (encode s +:+ rest) =
                  match s with
                  | cp :: _ => isspace cp
                  | [] => starts_with_space rest
                  end).
Proof.
  split; [|split; [|split; [|split; [|split]]]].
  - unfold format_partial_change_history. split.
    + intros [r [Hr Hd]].
      destruct (somes (map (renamed dimension_name) df)) as [|x l] eqn:Hs;
        [|eexists; reflexivity].
      exfalso. destruct (first_word (change_date r)) as [d|] eqn:Hw;
        [|congruence].
      assert (Hin : In {| ev_date := d; ev_campaign_id := ch_campaign_id r;
                          value_old := old_column dimension_name r;
                          value_new := new_column dimension_name r |}
                      (somes (map (renamed dimension_name) df))).
      { apply in_somes, in_map_iff. exists r. split; [|exact Hr].
        unfold renamed. rewrite Hw. reflexivity. }
      rewrite Hs in Hin. contradiction.
    + intros [out Hout].
      destruct (somes (map (renamed dimension_name) df)) as [|x l] eqn:Hs;
        [discriminate|].
      assert (Hin : In x (somes (map (renamed dimension_name) df)))
        by (rewrite Hs; left; reflexivity).
      apply in_somes, in_map_iff in Hin. destruct Hin as [r [Hx Hr]].
      exists r. split; [exact Hr|]. unfold renamed in Hx.
      destruct (first_word (change_date r)); [discriminate | discriminate].
  - intros out Hout. unfold format_partial_change_history in Hout.
    set (dated := somes (map (renamed dimension_name) df)) in *.
    assert (Hout' : out = groupby_last dated)
      by (destruct dated; [discriminate | congruence]).
    clear Hout. subst out.
    destruct (groupby_last_spec dated) as [Hsorted Hfind].
    split; [apply sorted_keys_NoDup; exact Hsorted|]. split.
    + intros r d Hr Hd.
      set (k := (d, ch_campaign_id r)).
      assert (Hin : In {| ev_date := d; ev_campaign_id := ch_campaign_id r;
                          value_old := old_column dimension_name r;
                          value_new := new_column dimension_name r |} dated).
      { apply in_somes, in_map_iff. exists r. split; [|exact Hr].
        unfold renamed. rewrite Hd. reflexivity. }
      assert (Hg : In {| ev_date := d; ev_campaign_id := ch_campaign_id r;
                         value_old := old_column dimension_name r;
                         value_new := new_column dimension_name r |}
                     (List.filter (in_group k) dated)).
      { apply filter_In. split; [exact Hin|]. apply in_group_true.
        reflexivity. }
      specialize (Hfind k). unfold group_last in Hfind.
      destruct (List.filter (in_group k) dated) as [|y g]; [contradiction|].
      apply find_some in Hfind. destruct Hfind as [Hx Hk].
      eexists. split; [exact Hx|]. apply in_group_true in Hk. exact Hk.
    + intros x Hx.
      pose proof (sorted_find _ x Hsorted Hx) as Hfx.
      rewrite Hfind in Hfx. unfold group_last in Hfx.
      destruct (filter_renamed (event_key x) dimension_name df) as [Ho Hn].
      fold dated in Ho, Hn.
      destruct (List.filter (in_group (event_key x)) dated) as [|y g] eqn:Hg;
        [discriminate|].
      cbv beta iota in Hfx. rewrite Ho, Hn in Hfx.
      assert (Hvo : value_old x =
                last_valid (map (old_column dimension_name)
                  (List.filter (raw_in_group (event_key x)) df)))
        by (inversion Hfx as [Hrec]; rewrite <- Hrec at 1; reflexivity).
      assert (Hvn : value_new x =
                last_valid (map (new_column dimension_name)
                  (List.filter (raw_in_group (event_key x)) df)))
        by (inversion Hfx as [Hrec]; rewrite <- Hrec at 1; reflexivity).
      split; [|split; [exact Hvo | split; [exact Hvn|]]].
      * intros Hnil. rewrite Hnil in Ho. discriminate.
      * intros earlier r Hsplit Hold Hnew. rewrite Hvo, Hvn, Hsplit, !map_app.
        cbn [map]. destruct (old_column dimension_name r) as [o|]; [|congruence].
        destruct (new_column dimension_name r) as [n|]; [|congruence].
        rewrite !last_valid_last. split; reflexivity.
  - intros changed change_history Hnone. unfold change_events.
    rewrite Hnone. reflexivity.
  - apply first_word_app.
  - intros day rest Hrest. destruct (strftime_word day) as [Hne Hns].
    apply first_word_app; assumption.
  - intros s Hs. split; [apply first_word_encode; exact Hs|].
    split; [apply has_space_encode; exact Hs|].
    intros rest. destruct Hs as [|cp s Hcp Hs]; [reflexivity|].
    cbn [encode]. rewrite append_assoc.
    apply (utf8_step cp (encode s +:+ rest) Hcp).
Qed.

(** C5, counterexample.  Two bid changes of one entity on one day, the
    later one with no new value: the event kept for the day has the new
    value of the earlier row, not the null of the last row.  And the
    function does not return on a frame without rows. *)
Lemma format_partial_change_history_mixes_rows :
  format_partial_change_history
    [{| change_date := "2026-10-20 10:00:00"; ch_campaign_id := 111;
        old_budget_amount := None; new_budget_amount := None;
        old_target_cpa := Some (10 # 1)%Q; new_target_cpa := Some (20 # 1)%Q;
        old_target_roas := None; new_target_roas := None |};
     {| change_date := "2026-10-20 11:00:00"; ch_campaign_id := 111;
        old_budget_amount := None; new_budget_amount := None;
        old_target_cpa := Some (20 # 1)%Q; new_target_cpa := None;
        old_target_roas := None; new_target_roas := None |}]
    target_cpa =
  Ok [{| ev_date := "2026-10-20"; ev_campaign_id := 111;
         value_old := Some (20 # 1)%Q; value_new := Some (20 # 1)%Q |}] /\
  format_partial_change_history [] target_cpa = Raise KeyError.
Proof. split; vm_compute; reflexivity. Qed.

(** ** The keys of the frames *)

Lemma filter_at_most_one {R K} (key : R -> K) (p : R -> bool) (k : K) l :
  NoDup (map key l) -> (forall r, p r = true -> key r = k) ->
  (List.length (List.filter p l) <= 1)%nat.
Proof.
  intros Hnd Hp. induction l as [|r l IH]; [simpl; lia|].
  cbn [map] in Hnd. apply NoDup_cons_iff in Hnd. destruct Hnd as [Hr Hnd].
  cbn [List.filter]. destruct (p r) eqn:Hpr; [|apply IH; exact Hnd].
  rewrite filter_none; [simpl; lia|].
  intros x Hx. destruct (p x) eqn:Hpx; [|reflexivity].
  exfalso. apply Hr. apply in_map_iff. exists x. split; [|exact Hx].
  rewrite (Hp x Hpx), (Hp r Hpr). reflexivity.
Qed.

Lemma change_events_keys changed dimension_name change_history ph :
  change_events changed dimension_name change_history = Ok ph ->
  NoDup (map event_key ph).
Proof.
  unfold change_events, format_partial_change_history.
  destruct (List.filter changed change_history) as [|r rows].
  - intros H. inversion H. constructor.
  - destruct (somes (map (renamed dimension_name) (r :: rows)));
      [discriminate|].
    intros H. inversion H. apply sorted_keys_NoDup, groupby_last_spec.
Qed.

Lemma change_events_returns changed dimension_name change_history :
  (forall r, In r change_history -> first_word (change_date r) <> None) ->
  exists ph, change_events changed dimension_name change_history = Ok ph.
Proof.
  intros Hdated. unfold change_events, format_partial_change_history.
  destruct (List.filter changed change_history) as [|r rows] eqn:Hf;
    [eexists; reflexivity|].
  assert (Hr : In r change_history).
  { assert (Hin : In r (List.filter changed change_history))
      by (rewrite Hf; left; reflexivity).
    apply filter_In in Hin. apply Hin. }
  cbn [map]. unfold renamed at 1.
  destruct (first_word (change_date r)) eqn:Hw;
    [|exfalso; exact (Hdated r Hr Hw)].
  cbn [somes]. eexists; reflexivity.
Qed.

(** With unique keys on the right of each merge, [fill_history] has one
    row per placeholder, in the order of the placeholders. *)
Lemma fill_history_keys placeholder_df ph cv name :
  NoDup (map event_key ph) -> NoDup (map sn_campaign_id cv) ->
  map (fun f => (fr_campaign_id f, fr_date f))
      (fill_history placeholder_df ph cv name) = placeholder_df.
Proof.
  intros Hph Hcv.
  assert (Hsnap : forall c : Z,
            (List.length (List.filter (fun s => Z.eqb c (sn_campaign_id s)) cv)
             <= 1)%nat).
  { intros c. apply (filter_at_most_one sn_campaign_id _ c); [exact Hcv|].
    intros s Hs. apply Z.eqb_eq in Hs. congruence. }
  unfold fill_history. destruct ph as [|ev ph].
  - rewrite left_merge_at_most_one by (intros; apply Hsnap).
    rewrite map_map. rewrite <- (map_id placeholder_df) at 2.
    apply map_ext. intros [c d]. reflexivity.
  - cbv zeta. rewrite (left_merge_at_most_one _ (join_snapshot_where name))
      by (intros; apply Hsnap).
    rewrite map_map.
    transitivity (map (fun r : joined_row => (j_campaign_id r, j_date r))
      (map fst (fill_forward_backward
         (left_merge same_campaign_date join_event placeholder_df (ev :: ph))))).
    { rewrite map_map. apply map_ext. intros r. reflexivity. }
    rewrite fill_forward_backward_from, map_fst_fill_from.
    rewrite left_merge_at_most_one.
    + rewrite map_map. rewrite <- (map_id placeholder_df) at 2.
      apply map_ext. intros [c d]. reflexivity.
    + intros p _.
      apply (filter_at_most_one event_key _ (snd p, fst p)); [exact Hph|].
      intros x Hx. apply same_campaign_date_true in Hx. unfold event_key.
      destruct Hx as [-> ->]. reflexivity.
Qed.

Lemma Forall2_map_eq {A B C} (R : A -> B -> Prop) (f : A -> C) (g : B -> C)
    l l' :
  Forall2 R l l' -> (forall x y, R x y -> f x = g y) -> map f l = map g l'.
Proof.
  intros H Hfg. induction H as [|x y l l' Hxy _ IH]; [reflexivity|].
  cbn [map]. rewrite IH, (Hfg x y Hxy). reflexivity.
Qed.

Lemma restore_history_keys placeholder_df ph cv name out :
  NoDup (map event_key ph) -> NoDup (map sn_campaign_id cv) ->
  restore_history placeholder_df ph cv name = Ok out ->
  map (fun r => (rs_campaign_id r, rs_date r)) out = placeholder_df.
Proof.
  intros Hph Hcv Hout. apply mapM_Ok_iff in Hout.
  rewrite <- (fill_history_keys placeholder_df ph cv name Hph Hcv) at 1.
  symmetry. eapply Forall2_map_eq; [exact Hout|].
  intros f r Hcast. apply cast_row_Ok in Hcast.
  destruct Hcast as [-> [-> _]]. reflexivity.
Qed.

Lemma combine_histories_keys rb rc rr :
  NoDup (map (fun r => (rs_campaign_id r, rs_date r)) rc) ->
  NoDup (map (fun r => (rs_campaign_id r, rs_date r)) rr) ->
  map (fun w => (w_campaign_id w, w_date w)) (combine_histories rb rc rr) =
  map (fun r => (rs_campaign_id r, rs_date r)) rb.
Proof.
  intros Hrc Hrr.
  assert (Hone : forall l d c,
            NoDup (map (fun r => (rs_campaign_id r, rs_date r)) l) ->
            (List.length (List.filter (same_date_campaign d c) l) <= 1)%nat).
  { intros l d c Hl.
    apply (filter_at_most_one (fun r => (rs_campaign_id r, rs_date r)) _ (c, d));
      [exact Hl|].
    intros r Hr. unfold same_date_campaign in Hr.
    apply andb_true_iff in Hr. destruct Hr as [Hd Hc].
    apply String.eqb_eq in Hd. apply Z.eqb_eq in Hc. congruence. }
  unfold combine_histories.
  rewrite (left_merge_at_most_one _ _ _ rr) by (intros; apply Hone; exact Hrr).
  rewrite (left_merge_at_most_one _ _ _ rc) by (intros; apply Hone; exact Hrc).
  rewrite !map_map. reflexivity.
Qed.

(** C4.  Cardinality.  For a duplicate-free list of entities, a
    duplicate-free list of dates and a snapshot with at most one row per
    entity (the normalized events have unique keys by construction), the
    wide table, whenever it is produced, has the pairs of an entity and a
    date as its keys, in the order of the grid: each pair once,
    [length campaign_ids * length dates] rows.  So has every column
    restored on the way.  The table is produced when every change row has a
    dated timestamp and the snapshot has a budget and a target CPA for every
    entity. *)
Theorem wide_history_cardinality
    (dates : list string) (change_history : list change_row)
    (campaign_ids : list Z) (current_bids_budgets : list snapshot_row) :
  NoDup campaign_ids -> NoDup dates ->
  NoDup (map sn_campaign_id current_bids_budgets) ->
  ((forall r, In r change_history -> first_word (change_date r) <> None) ->
   (forall c, In c campaign_ids ->
      exists s, In s current_bids_budgets /\ sn_campaign_id s = c) ->
   (forall s, In s current_bids_budgets ->
      sn_budget_amount s <> None /\ sn_target_cpa s <> None) ->
   exists wide,
     restored_bid_budget_history dates change_history campaign_ids
       current_bids_budgets = Ok wide) /\
  (forall ph name out,
     NoDup (map event_key ph) ->
     restore_history (placeholders campaign_ids dates) ph
       current_bids_budgets name = Ok out ->
     map (fun r => (rs_campaign_id r, rs_date r)) out =
     list_prod campaign_ids dates) /\
  (forall wide,
     restored_bid_budget_history dates change_history campaign_ids
       current_bids_budgets = Ok wide ->
     map (fun w => (w_campaign_id w, w_date w)) wide =
     list_prod campaign_ids dates /\
     NoDup (map (fun w => (w_campaign_id w, w_date w)) wide) /\
     List.length wide = (List.length campaign_ids * List.length dates)%nat).
Proof.
  intros Hcids Hdates Hcv.
  assert (Hgrid : NoDup (list_prod campaign_ids dates))
    by (apply NoDup_list_prod; assumption).
  split; [|split].
  - intros Hdated Hrow Hval. unfold restored_bid_budget_history.
    destruct (change_events_returns budget_changed budget_amount
                change_history Hdated) as [budgets ->].
    destruct (change_events_returns bid_changed target_cpa
                change_history Hdated) as [bids ->].
    cbn [bind].
    destruct (restore_history_returns_complete campaign_ids dates budgets
                current_bids_budgets budget_amount) as [rb ->].
    { right. split; [exact Hrow|]. intros s Hs. apply (Hval s Hs). }
    destruct (restore_history_returns_complete campaign_ids dates bids
                current_bids_budgets target_cpa) as [rc ->].
    { right. split; [exact Hrow|]. intros s Hs. apply (Hval s Hs). }
    destruct (restore_history_returns_complete campaign_ids dates bids
                current_bids_budgets target_roas) as [rr ->];
      [left; reflexivity|].
    cbn [bind]. eexists; reflexivity.
  - intros ph name out Hph Hout.
    apply (restore_history_keys _ _ _ _ _ Hph Hcv Hout).
  - intros wide Hwide. unfold restored_bid_budget_history in Hwide.
    destruct (change_events budget_changed budget_amount change_history)
      as [budgets|] eqn:Hbudgets; [|discriminate].
    destruct (change_events bid_changed target_cpa change_history)
      as [bids|] eqn:Hbids; [|discriminate].
    cbn [bind] in Hwide.
    apply change_events_keys in Hbudgets, Hbids.
    destruct (restore_history _ budgets _ budget_amount) as [rb|] eqn:Hrb;
      [|discriminate].
    destruct (restore_history _ bids _ target_cpa) as [rc|] eqn:Hrc;
      [|discriminate].
    destruct (restore_history _ bids _ target_roas) as [rr|] eqn:Hrr;
      [|discriminate].
    cbn [bind] in Hwide. inversion Hwide; subst wide. clear Hwide.
    apply (restore_history_keys _ _ _ _ _ Hbudgets Hcv) in Hrb.
    apply (restore_history_keys _ _ _ _ _ Hbids Hcv) in Hrc.
    apply (restore_history_keys _ _ _ _ _ Hbids Hcv) in Hrr.
    assert (Hkeys : map (fun w => (w_campaign_id w, w_date w))
                      (combine_histories rb rc rr) =
                    list_prod campaign_ids dates).
    { rewrite combine_histories_keys; [exact Hrb | |].
      - rewrite Hrc. exact Hgrid.
      - rewrite Hrr. exact Hgrid. }
    split; [exact Hkeys|]. split; [rewrite Hkeys; exact Hgrid|].
    rewrite <- (length_map (fun w => (w_campaign_id w, w_date w))), Hkeys.
    apply length_prod.
Qed.

(** Two entities and three dates: six rows. *)
Lemma wide_history_cardinality_witness :
  exists wide,
    restored_bid_budget_history ["2026-11-01"; "2026-11-02"; "2026-11-03"]
      [{| change_date := "2026-11-02 09:30:00"; ch_campaign_id := 111;
          old_budget_amount := Some (100 # 1)%Q;
          new_budget_amount := Some (150 # 1)%Q;
          old_target_cpa := None; new_target_cpa := None;
          old_target_roas := None; new_target_roas := None |}]
      [111; 222]
      [{| sn_campaign_id := 111; sn_budget_amount := Some (150 # 1)%Q;
          sn_target_cpa := Some (7 # 1)%Q; sn_target_roas := None |};
       {| sn_campaign_id := 222; sn_budget_amount := Some (200 # 1)%Q;
          sn_target_cpa := Some (9 # 1)%Q; sn_target_roas := Some (3 # 2)%Q |}]
    = Ok wide /\
    List.length wide = 6%nat.
Proof.
  destruct (wide_history_cardinality
    ["2026-11-01"; "2026-11-02"; "2026-11-03"]
    [{| change_date := "2026-11-02 09:30:00"; ch_campaign_id := 111;
        old_budget_amount := Some (100 # 1)%Q;
        new_budget_amount := Some (150 # 1)%Q;
        old_target_cpa := None; new_target_cpa := None;
        old_target_roas := None; new_target_roas := None |}]
    [111; 222]
    [{| sn_campaign_id := 111; sn_budget_amount := Some (150 # 1)%Q;
        sn_target_cpa := Some (7 # 1)%Q; sn_target_roas := None |};
     {| sn_campaign_id := 222; sn_budget_amount := Some (200 # 1)%Q;
        sn_target_cpa := Some (9 # 1)%Q; sn_target_roas := Some (3 # 2)%Q |}])
    as [Hret [_ Hcard]].
  - repeat constructor; simpl; intuition lia.
  - repeat constructor; simpl; intuition discriminate.
  - repeat constructor; simpl; intuition lia.
  - destruct Hret as [wide Hwide].
    + intros r [<- | []]. discriminate.
    + intros c [<- | [<- | []]];
        [ eexists; split; [left; reflexivity | reflexivity]
        | eexists; split; [right; left; reflexivity | reflexivity] ].
    + intros s [<- | [<- | []]]; split; discriminate.
    + exists wide. split; [exact Hwide|].
      destruct (Hcard wide Hwide) as [_ [_ Hlen]]. exact Hlen.
Defined.

(** ** The writes *)

(** A run of the loop that raises nothing leaves a table for every date,
    none of them refused. *)
Lemma write_partitions_completed bq_project bq_dataset fault history dates :
  forall store log,
  raised (write_partitions bq_project bq_dataset fault history store log dates)
  = None ->
  (forall table, store !! table <> None ->
     destination (write_partitions bq_project bq_dataset fault history store
                    log dates) !! table <> None) /\
  (forall date, In date dates ->
     fault (table_id bq_project bq_dataset date) = None /\
     destination (write_partitions bq_project bq_dataset fault history store
                    log dates) !! table_id bq_project bq_dataset date <> None).
Proof.
  induction dates as [|date rest IH]; intros store log Hrun.
  - split; [intros table Ht; exact Ht | intros date []].
  - cbn [write_partitions] in *. unfold write_data_to_bq in *.
    destruct (fault (table_id bq_project bq_dataset date)) as [code|] eqn:Hf;
      [discriminate|].
    destruct (store !! table_id bq_project bq_dataset date) as [rows|] eqn:Hs.
    + destruct (IH store _ Hrun) as [Hkeep Hall]. split; [exact Hkeep|].
      intros date' [<- | Hin]; [|apply Hall; exact Hin].
      split; [exact Hf|]. apply Hkeep. rewrite Hs. discriminate.
    + destruct (IH _ _ Hrun) as [Hkeep Hall].
      assert (Hnew : forall table, store !! table <> None ->
                <[table_id bq_project bq_dataset date :=
                    List.filter (fun r => String.eqb (w_date r) date) history]>
                  store !! table <> None).
      { intros table Ht.
        destruct (decide (table_id bq_project bq_dataset date = table))
          as [<- | Hne]; [congruence|].
        rewrite lookup_insert_ne by exact Hne. exact Ht. }
      split; [intros table Ht; apply Hkeep, Hnew; exact Ht|].
      intros date' [<- | Hin]; [|apply Hall; exact Hin].
      split; [exact Hf|]. apply Hkeep. rewrite lookup_insert_eq. discriminate.
Qed.

(** Over a destination that has a table for every date, the loop writes
    nothing, whatever it is refused. *)
Lemma write_partitions_all_present bq_project bq_dataset fault history dates :
  forall store log,
  (forall date, In date dates ->
     store !! table_id bq_project bq_dataset date <> None) ->
  destination (write_partitions bq_project bq_dataset fault history store log
                 dates) = store /\
  ((forall date, In date dates ->
      fault (table_id bq_project bq_dataset date) = None) ->
   write_partitions bq_project bq_dataset fault history store log dates =
   {| destination := store;
      warnings := log ++ map (table_id bq_project bq_dataset) dates;
      raised := None |}).
Proof.
  induction dates as [|date rest IH]; intros store log Hall.
  - cbn [write_partitions map destination]. rewrite app_nil_r. tauto.
  - cbn [write_partitions]. unfold write_data_to_bq.
    pose proof (Hall date (or_introl eq_refl)) as Hdate.
    destruct (IH store (log ++ [table_id bq_project bq_dataset date]))
      as [Hdest Hrun]; [intros d Hd; apply Hall; right; exact Hd|].
    destruct (store !! table_id bq_project bq_dataset date) as [rows|];
      [|congruence].
    destruct (fault (table_id bq_project bq_dataset date)) as [code|] eqn:Hf.
    + split; [reflexivity|]. intros Hnone.
      rewrite (Hnone date (or_introl eq_refl)) in Hf. discriminate.
    + split; [exact Hdest|]. intros Hnone. rewrite Hrun.
      * cbn [map]. rewrite <- app_assoc. reflexivity.
      * intros d Hd. apply Hnone. right. exact Hd.
Qed.

(** C6.  The write loop.  When the sink reports that the table of a date
    exists, the loop logs the table, leaves the destination as it is and goes
    on with the next date; on any other failure of the sink the run ends with
    that error, the later dates unwritten.  A rerun over the destination of
    a run that raised nothing, with the same dates, reports every table as
    existing and leaves the destination unchanged; the destination is
    unchanged also when the rerun is refused somewhere.  The same holds of
    two runs of [main] on the same inputs. *)
Theorem write_partitions_create_if_absent
    (bq_project bq_dataset : string) (fault : string -> option Z)
    (history : list wide_row) :
  (forall store log date rest,
     write_data_to_bq fault store
       (List.filter (fun r => String.eqb (w_date r) date) history)
       (table_id bq_project bq_dataset date) = Conflict ->
     write_partitions bq_project bq_dataset fault history store log
       (date :: rest) =
     write_partitions bq_project bq_dataset fault history store
       (log ++ [table_id bq_project bq_dataset date]) rest) /\
  (forall store log date rest code,
     write_data_to_bq fault store
       (List.filter (fun r => String.eqb (w_date r) date) history)
       (table_id bq_project bq_dataset date) = Failed code ->
     write_partitions bq_project bq_dataset fault history store log
       (date :: rest) =
     {| destination := store; warnings := log;
        raised := Some (SinkError code) |}) /\
  (forall store dates history' fault',
     raised (write_partitions bq_project bq_dataset fault history store []
               dates) = None ->
     write_partitions bq_project bq_dataset fault history'
       (destination (write_partitions bq_project bq_dataset fault history
                       store [] dates)) [] dates =
     {| destination :=
          destination (write_partitions bq_project bq_dataset fault history
                         store [] dates);
        warnings := map (table_id bq_project bq_dataset) dates;
        raised := None |} /\
     destination
       (write_partitions bq_project bq_dataset fault' history'
          (destination (write_partitions bq_project bq_dataset fault history
                          store [] dates)) [] dates) =
     destination (write_partitions bq_project bq_dataset fault history store
                    [] dates)) /\
  (forall now1 now2 change_history campaign_ids current_bids_budgets store,
     raised (main bq_project bq_dataset fault now1 now2 change_history
               campaign_ids current_bids_budgets store) = None ->
     exists dates,
       window now1 now2 = Ok dates /\
       main bq_project bq_dataset fault now1 now2 change_history campaign_ids
         current_bids_budgets
         (destination (main bq_project bq_dataset fault now1 now2
                         change_history campaign_ids current_bids_budgets
                         store)) =
       {| destination :=
            destination (main bq_project bq_dataset fault now1 now2
                           change_history campaign_ids current_bids_budgets
                           store);
          warnings := map (table_id bq_project bq_dataset) dates;
          raised := None |}).
Proof.
  assert (Hrerun : forall hist store dates history' fault',
     raised (write_partitions bq_project bq_dataset fault hist store []
               dates) = None ->
     write_partitions bq_project bq_dataset fault history'
       (destination (write_partitions bq_project bq_dataset fault hist
                       store [] dates)) [] dates =
     {| destination :=
          destination (write_partitions bq_project bq_dataset fault hist
                         store [] dates);
        warnings := map (table_id bq_project bq_dataset) dates;
        raised := None |} /\
     destination
       (write_partitions bq_project bq_dataset fault' history'
          (destination (write_partitions bq_project bq_dataset fault hist
                          store [] dates)) [] dates) =
     destination (write_partitions bq_project bq_dataset fault hist store
                    [] dates)).
  { intros hist store dates history' fault' Hrun.
    destruct (write_partitions_completed _ _ _ _ _ _ _ Hrun) as [_ Hall].
    set (first := destination (write_partitions bq_project bq_dataset fault
                                 hist store [] dates)) in *.
    split.
    - destruct (write_partitions_all_present bq_project bq_dataset fault
                  history' dates first []) as [_ Hsame];
        [intros d Hd; apply Hall; exact Hd|].
      apply Hsame. intros d Hd. apply Hall. exact Hd.
    - apply write_partitions_all_present. intros d Hd. apply Hall. exact Hd. }
  split; [|split; [|split]].
  - intros store log date rest Hw. cbn [write_partitions]. rewrite Hw.
    reflexivity.
  - intros store log date rest code Hw. cbn [write_partitions]. rewrite Hw.
    reflexivity.
  - apply Hrerun.
  - intros now1 now2 change_history campaign_ids current_bids_budgets store.
    unfold main. destruct (window now1 now2) as [dates|e]; [|discriminate].
    destruct (restored_bid_budget_history dates change_history campaign_ids
                current_bids_budgets) as [hist|e]; [|discriminate].
    intros Hrun. exists dates. split; [reflexivity|].
    apply (Hrerun hist store dates hist fault Hrun).
Qed.

(** ** The change events of main *)

Lemma positive_value_true v :
  positive_value v = true <-> exists q, v = Some q /\ (0 < q)%Q.
Proof.
  unfold positive_value. destruct v as [q|].
  - rewrite Z.ltb_lt. unfold Qlt. cbn [Qnum Qden]. split.
    + intros H. exists q. split; [reflexivity | lia].
    + intros [q' [Hq H]]. inversion Hq; subst. lia.
  - split; [discriminate | intros [q [H _]]; discriminate].
Qed.

Lemma filter_without changed (r : change_row) before after :
  changed r = false ->
  List.filter changed (before ++ r :: after) =
  List.filter changed (before ++ after).
Proof.
  intros Hr. rewrite !List.filter_app. cbn [List.filter]. rewrite Hr.
  reflexivity.
Qed.

(** C10.  The filters of the change history.  A row counts as a budget
    change exactly when its old and its new budget are both positive, and as
    a bid change exactly when its old target CPA is positive, whatever its new
    target CPA.  A row that fails a filter has no part in the events of that
    filter, and a row that fails both has no part in the wide table. *)
Theorem change_events_ignore_other_rows :
  (forall r, budget_changed r = true <->
     exists o n, old_budget_amount r = Some o /\ new_budget_amount r = Some n /\
                 (0 < o)%Q /\ (0 < n)%Q) /\
  (forall r, bid_changed r = true <->
     exists o, old_target_cpa r = Some o /\ (0 < o)%Q) /\
  (forall dimension_name before r after,
     budget_changed r = false ->
     change_events budget_changed dimension_name (before ++ r :: after) =
     change_events budget_changed dimension_name (before ++ after)) /\
  (forall dimension_name before r after,
     bid_changed r = false ->
     change_events bid_changed dimension_name (before ++ r :: after) =
     change_events bid_changed dimension_name (before ++ after)) /\
  (forall dates before r after campaign_ids current_bids_budgets,
     budget_changed r = false -> bid_changed r = false ->
     restored_bid_budget_history dates (before ++ r :: after) campaign_ids
       current_bids_budgets =
     restored_bid_budget_history dates (before ++ after) campaign_ids
       current_bids_budgets).
Proof.
  split; [|split; [|split; [|split]]].
  - intros r. unfold budget_changed.
    rewrite andb_true_iff, !positive_value_true. split.
    + intros [[o [Ho Hpo]] [n [Hn Hpn]]]. exists o, n. auto.
    + intros [o [n [Ho [Hn [Hpo Hpn]]]]]. split; eexists; eauto.
  - intros r. unfold bid_changed. apply positive_value_true.
  - intros dimension_name before r after Hr. unfold change_events.
    rewrite (filter_without _ _ _ _ Hr). reflexivity.
  - intros dimension_name before r after Hr. unfold change_events.
    rewrite (filter_without _ _ _ _ Hr). reflexivity.
  - intros dates before r after campaign_ids current_bids_budgets Hb Hc.
    unfold restored_bid_budget_history, change_events.
    rewrite (filter_without _ _ _ _ Hb), (filter_without _ _ _ _ Hc).
    reflexivity.
Qed.

Lemma change_events_without_target_roas changed dimension_name change_history :
  (forall r, changed (without_target_roas r) = changed r) ->
  dimension_name <> target_roas ->
  change_events changed dimension_name (map without_target_roas change_history)
  = change_events changed dimension_name change_history.
Proof.
  intros Hchanged Hname. unfold change_events.
  assert (Hfilter : List.filter changed (map without_target_roas change_history)
                    = map without_target_roas
                        (List.filter changed change_history)).
  { induction change_history as [|r l IH]; [reflexivity|].
    cbn [map List.filter]. rewrite Hchanged, IH.
    destruct (changed r); reflexivity. }
  rewrite Hfilter.
  assert (Hformat : forall rows,
            format_partial_change_history (map without_target_roas rows)
              dimension_name =
            format_partial_change_history rows dimension_name).
  { intros rows. unfold format_partial_change_history. rewrite map_map.
    assert (Hren : map (fun r => renamed dimension_name (without_target_roas r))
                     rows = map (renamed dimension_name) rows).
    { apply map_ext. intros r. destruct dimension_name;
        [reflexivity | reflexivity | congruence]. }
    rewrite Hren. reflexivity. }
  destruct (List.filter changed change_history) as [|r rows];
    [reflexivity|].
  apply (Hformat (r :: rows)).
Qed.

(** C2, what the code does.  The target_roas column of the wide table is
    filled from the target_cpa events: with a bid change from 10 to 20 and
    a change of the target ROAS from 1.5 to 2.5 on the same day, the
    restored target_roas is 10, 20, 20.  The target_roas values of the
    change history are never read: the wide table is the same without
    them. *)
Theorem target_roas_restored_from_target_cpa_events :
  restored_bid_budget_history ["2026-11-01"; "2026-11-02"; "2026-11-03"]
    [{| change_date := "2026-11-02 09:00:00"; ch_campaign_id := 111;
        old_budget_amount := None; new_budget_amount := None;
        old_target_cpa := Some (10 # 1)%Q; new_target_cpa := Some (20 # 1)%Q;
        old_target_roas := Some (3 # 2)%Q; new_target_roas := Some (5 # 2)%Q |}]
    [111]
    [{| sn_campaign_id := 111; sn_budget_amount := Some (100 # 1)%Q;
        sn_target_cpa := Some (20 # 1)%Q; sn_target_roas := Some (5 # 2)%Q |}]
  = Ok [{| w_date := "2026-11-01"; w_campaign_id := 111;
           w_budget_amount := IntCell 100;
           w_target_cpa := Some (IntCell 10);
           w_target_roas := Some (FloatCell (Some (10 # 1)%Q)) |};
        {| w_date := "2026-11-02"; w_campaign_id := 111;
           w_budget_amount := IntCell 100;
           w_target_cpa := Some (IntCell 20);
           w_target_roas := Some (FloatCell (Some (20 # 1)%Q)) |};
        {| w_date := "2026-11-03"; w_campaign_id := 111;
           w_budget_amount := IntCell 100;
           w_target_cpa := Some (IntCell 20);
           w_target_roas := Some (FloatCell (Some (20 # 1)%Q)) |}] /\
  (forall dates change_history campaign_ids current_bids_budgets,
     restored_bid_budget_history dates
       (map without_target_roas change_history) campaign_ids
       current_bids_budgets =
     restored_bid_budget_history dates change_history campaign_ids
       current_bids_budgets).
Proof.
  split; [vm_compute; reflexivity|].
  intros dates change_history campaign_ids current_bids_budgets.
  unfold restored_bid_budget_history.
  rewrite !change_events_without_target_roas by (reflexivity || discriminate).
  reflexivity.
Qed.

(** * Further properties *)

(** ** The fill policy of restore_history *)

Lemma fillna_assoc a b c : fillna (fillna a b) c = fillna a (fillna b c).
Proof. destruct a; reflexivity. Qed.

Lemma fold_fillna vals acc :
  fold_left (fun acc v => fillna v acc) vals acc = fillna (last_valid vals) acc.
Proof.
  revert acc. induction vals as [|v vals IH]; intros acc; [reflexivity|].
  unfold last_valid. cbn [fold_left]. rewrite !IH, fillna_None.
  rewrite fillna_assoc. reflexivity.
Qed.

Lemma last_valid_cons v vals :
  last_valid (v :: vals) = fillna (last_valid vals) v.
Proof.
  unfold last_valid at 1. cbn [fold_left]. rewrite fold_fillna, fillna_None.
  reflexivity.
Qed.

Lemma next_valid_single e joined :
  (forall r, In r joined -> j_campaign_id r = e) ->
  next_valid e (olds joined) = first_valid (map j_value_old joined).
Proof.
  induction joined as [|r joined IH]; intros He; [reflexivity|].
  cbn [olds map next_valid first_valid].
  rewrite (He r (or_introl eq_refl)), Z.eqb_refl. fold (olds joined).
  rewrite IH by (intros; apply He; right; assumption). reflexivity.
Qed.

(** In a frame of one campaign, the filled value of a row is the last
    non-null new value down to the row, else the first non-null old value
    from the row on. *)
Lemma fill_from_single e joined : forall last,
  (forall r, In r joined -> j_campaign_id r = e) ->
  forall x, In x (fill_from last joined) ->
  exists pre post,
    joined = pre ++ fst x :: post /\
    snd x = fillna (fillna (last_valid (map j_value_new (pre ++ [fst x])))
                           (last !! e))
                   (first_valid (map j_value_old (fst x :: post))).
Proof.
  induction joined as [|r joined IH]; intros last He x Hx; [contradiction|].
  rewrite fill_from_cons in Hx. destruct Hx as [<- | Hx].
  - exists [], joined. split; [reflexivity|]. cbn [fst snd app map].
    rewrite last_valid_cons. change (last_valid []) with (@None Q).
    cbn [fillna]. rewrite (He r (or_introl eq_refl)).
    rewrite next_valid_single by (intros; apply He; right; assumption).
    reflexivity.
  - destruct (IH _ (fun r' Hr' => He r' (or_intror Hr')) x Hx)
      as [pre [post [Hsplit Hv]]].
    exists (r :: pre), post. split; [rewrite Hsplit; reflexivity|].
    rewrite Hv. f_equal. cbn [app map]. rewrite last_valid_cons.
    rewrite fillna_assoc. f_equal.
    rewrite (He r (or_introl eq_refl)).
    destruct (j_value_new r) as [q|]; [|reflexivity].
    rewrite lookup_insert_eq. reflexivity.
Qed.

Lemma hd_error_filter {A} (p : A -> bool) (l : list A) :
  hd_error (List.filter p l) = find p l.
Proof.
  induction l as [|x l IH]; [reflexivity|]. cbn [List.filter find].
  destruct (p x); [reflexivity | exact IH].
Qed.

(** The rows of [joined] for one campaign, when the events have unique
    keys. *)
Lemma joined_of_campaign e dates ph :
  NoDup (map event_key ph) ->
  left_merge same_campaign_date join_event (map (pair e) dates) ph =
  map (fun d => {| j_campaign_id := e; j_date := d;
                   j_value_old := old_on ph e d;
                   j_value_new := new_on ph e d |}) dates.
Proof.
  intros Hkeys. rewrite left_merge_at_most_one.
  - rewrite map_map. apply map_ext. intros d.
    unfold join_event, old_on, new_on, event_on. rewrite hd_error_filter.
    reflexivity.
  - intros p _.
    apply (filter_at_most_one event_key _ (snd p, fst p)); [exact Hkeys|].
    intros x Hx. apply same_campaign_date_true in Hx. unfold event_key.
    destruct Hx as [-> ->]. reflexivity.
Qed.

Lemma last_valid_nulls (vals : list (option Q)) :
  (forall v, In v vals -> v = None) -> last_valid vals = None.
Proof.
  induction vals as [|v vals IH]; intros H; [reflexivity|].
  rewrite last_valid_cons, IH by (intros; apply H; right; assumption).
  apply H. left. reflexivity.
Qed.

Lemma first_valid_nulls (vals : list (option Q)) :
  (forall v, In v vals -> v = None) -> first_valid vals = None.
Proof.
  induction vals as [|v vals IH]; intros H; [reflexivity|].
  cbn [first_valid]. rewrite IH by (intros; apply H; right; assumption).
  rewrite (H v (or_introl eq_refl)). reflexivity.
Qed.

(** X1.  The fill policy.  With a duplicate-free list of entities and
    events with unique keys, the value of an entity on a date of the grid
    is, in this order: the new value of its latest event on or before the
    date that has one; else the old value of its earliest event on or after
    the date that has one; else its snapshot value; the whole as cast for
    the column. *)
Theorem restore_history_fill_policy
    (cids : list Z) (dates : list string) (ph : list event)
    (cv : list snapshot_row) (name : dimension) (e : Z)
    (out : list restored_row) (r : restored_row) :
  NoDup cids -> In e cids ->
  NoDup (map event_key ph) ->
  restore_history (placeholders cids dates) ph cv name = Ok out ->
  In r out -> rs_campaign_id r = e ->
  exists before after current,
    dates = before ++ rs_date r :: after /\
    ((exists s, In s cv /\ sn_campaign_id s = e /\
                current = snapshot_column name s) \/
     ((forall s, In s cv -> sn_campaign_id s <> e) /\ current = None)) /\
    cast_cell name
      (fillna (last_valid (map (new_on ph e) (before ++ [rs_date r])))
         (fillna (first_valid (map (old_on ph e) (rs_date r :: after)))
            current)) = Ok (rs_value r).
Proof.
  intros Hcids He Hkeys Hout Hr Hre.
  destruct (restore_history_rows _ _ _ _ _ _ Hout Hr)
    as [f [Hf [Hd [Hc Hcast]]]].
  assert (Hin : In f (List.filter (fun f => fr_campaign_id f =? e)
    (fill_history (placeholders cids dates) ph cv name)))
    by (apply filter_In; split; [assumption | apply Z.eqb_eq; congruence]).
  rewrite fill_history_of_campaign in Hin. unfold placeholders in Hin.
  rewrite (filter_list_prod e cids _ Hcids He) in Hin.
  rewrite Hd. clear Hf Hr Hout Hd.
  assert (Hcur : forall (c : Z) (m : option snapshot_row) (cur : option Q),
    (m = None /\ (forall s, In s cv -> (e =? sn_campaign_id s) = false) \/
     exists s, m = Some s /\ In s cv /\ (e =? sn_campaign_id s) = true) ->
    cur = match m with Some s => snapshot_column name s | None => None end ->
    (exists s, In s cv /\ sn_campaign_id s = e /\
               cur = snapshot_column name s) \/
    ((forall s, In s cv -> sn_campaign_id s <> e) /\ cur = None)).
  { intros _ m cur [[-> Hnone] | [s [-> [Hs Hk]]]] ->.
    - right. split; [|reflexivity]. intros s Hs Heq.
      specialize (Hnone s Hs). apply Z.eqb_neq in Hnone. congruence.
    - left. exists s. apply Z.eqb_eq in Hk. auto. }
  unfold fill_history in Hin. destruct ph as [|ev ph].
  - apply in_left_merge in Hin. destruct Hin as [p [Hp Hcase]].
    apply in_map_iff in Hp. destruct Hp as [d [<- Hd]].
    destruct (in_split d dates Hd) as [before [after Hsplit]].
    assert (Hnull : forall ds, last_valid (map (new_on [] e) ds) = None /\
                               first_valid (map (old_on [] e) ds) = None).
    { intros ds. split; [apply last_valid_nulls | apply first_valid_nulls];
        intros v Hv; apply in_map_iff in Hv; destruct Hv as [d' [<- _]];
        reflexivity. }
    exists before, after, (fr_value f).
    assert (Hfd : fr_date f = d)
      by (destruct Hcase as [[s [_ [_ ->]]] | [_ ->]]; reflexivity).
    rewrite Hfd. split; [exact Hsplit|]. split.
    + destruct Hcase as [[s [Hs [Hk ->]]] | [Hnone ->]].
      * apply (Hcur e (Some s)); [right; exists s; auto | reflexivity].
      * apply (Hcur e None); [left; auto | reflexivity].
    + rewrite (proj1 (Hnull _)), (proj2 (Hnull _)). exact Hcast.
  - cbv zeta in Hin. rewrite (joined_of_campaign e dates _ Hkeys) in Hin.
    rewrite fill_forward_backward_from in Hin.
    apply in_left_merge in Hin. destruct Hin as [x [Hx Hcase]].
    set (row := fun d => {| j_campaign_id := e; j_date := d;
                            j_value_old := old_on (ev :: ph) e d;
                            j_value_new := new_on (ev :: ph) e d |}) in *.
    destruct (fill_from_single e (map row dates) ∅) with (x := x)
      as [pre [post [Hsplit Hv]]]; [|exact Hx|].
    { intros r' Hr'. apply in_map_iff in Hr'. destruct Hr' as [d [<- _]].
      reflexivity. }
    apply map_eq_app in Hsplit.
    destruct Hsplit as [before [rest [Hdates [Hpre Hrest]]]].
    destruct rest as [|d after]; [discriminate|]. cbn [map] in Hrest.
    inversion Hrest as [[Hrow Hpost]]. clear Hrest.
    assert (Hxc : j_campaign_id (fst x) = e) by (rewrite <- Hrow; reflexivity).
    assert (Hxd : j_date (fst x) = d) by (rewrite <- Hrow; reflexivity).
    assert (Hfv : fr_date f = d /\
      exists m, fr_value f =
        fillna (snd x)
          (match m with Some s => snapshot_column name s | None => None end) /\
        (m = None /\ (forall s, In s cv -> (e =? sn_campaign_id s) = false) \/
         exists s, m = Some s /\ In s cv /\ (e =? sn_campaign_id s) = true)).
    { destruct Hcase as [[s [Hs [Hk ->]]] | [Hnone ->]].
      - split; [exact Hxd|]. exists (Some s). split.
        + unfold join_snapshot_where, fr_value. cbn [snd].
          destruct (snd x); reflexivity.
        + right. exists s. rewrite Hxc in Hk. auto.
      - split; [exact Hxd|]. exists None. split.
        + unfold join_snapshot_where, fr_value. cbn [snd].
          destruct (snd x); reflexivity.
        + left. split; [reflexivity|]. intros s Hs. rewrite <- Hxc.
          apply Hnone. exact Hs. }
    destruct Hfv as [Hfd [m [Hfval Hm]]].
    exists before, after,
      (match m with Some s => snapshot_column name s | None => None end).
    rewrite Hfd. split; [exact Hdates|]. split.
    + apply (Hcur e m); [exact Hm | reflexivity].
    + rewrite <- fillna_assoc. rewrite Hfval, Hv in Hcast.
      rewrite lookup_empty, fillna_None in Hcast.
      rewrite <- Hpre, <- Hpost, <- Hrow in Hcast.
      rewrite <- (map_map row j_value_new) , <- (map_map row j_value_old).
      rewrite map_app. cbn [map]. exact Hcast.
Qed.

(** Two budget changes of one entity, on the first and on the third of
    four days: the second day has the new value of the first change, not
    the old value of the second one. *)
Lemma restore_history_fill_policy_witness :
  exists before after current,
    ["D1"; "D2"; "D3"; "D4"] = before ++ "D2" :: after /\
    ((exists s, In s [] /\ sn_campaign_id s = 111 /\
                current = snapshot_column budget_amount s) \/
     ((forall s : snapshot_row, In s [] -> sn_campaign_id s <> 111) /\
      current = None)) /\
    cast_cell budget_amount
      (fillna
         (last_valid
            (map (new_on
                    [{| ev_date := "D1"; ev_campaign_id := 111;
                        value_old := Some (100 # 1)%Q;
                        value_new := Some (120 # 1)%Q |};
                     {| ev_date := "D3"; ev_campaign_id := 111;
                        value_old := Some (130 # 1)%Q;
                        value_new := Some (150 # 1)%Q |}] 111)
               (before ++ ["D2"])))
         (fillna
            (first_valid
               (map (old_on
                       [{| ev_date := "D1"; ev_campaign_id := 111;
                           value_old := Some (100 # 1)%Q;
                           value_new := Some (120 # 1)%Q |};
                        {| ev_date := "D3"; ev_campaign_id := 111;
                           value_old := Some (130 # 1)%Q;
                           value_new := Some (150 # 1)%Q |}] 111)
                  ("D2" :: after)))
            current)) = Ok (IntCell 120).
Proof.
  apply (restore_history_fill_policy [111] ["D1"; "D2"; "D3"; "D4"]
    [{| ev_date := "D1"; ev_campaign_id := 111;
        value_old := Some (100 # 1)%Q; value_new := Some (120 # 1)%Q |};
     {| ev_date := "D3"; ev_campaign_id := 111;
        value_old := Some (130 # 1)%Q; value_new := Some (150 # 1)%Q |}]
    [] budget_amount 111
    [{| rs_date := "D1"; rs_campaign_id := 111; rs_value := IntCell 120 |};
     {| rs_date := "D2"; rs_campaign_id := 111; rs_value := IntCell 120 |};
     {| rs_date := "D3"; rs_campaign_id := 111; rs_value := IntCell 150 |};
     {| rs_date := "D4"; rs_campaign_id := 111; rs_value := IntCell 150 |}]
    {| rs_date := "D2"; rs_campaign_id := 111; rs_value := IntCell 120 |}).
  - repeat constructor; simpl; intuition.
  - left; reflexivity.
  - repeat constructor; simpl; intuition discriminate.
  - vm_compute. reflexivity.
  - right; left; reflexivity.
  - reflexivity.
Defined.

(** ** Events off the grid *)

Lemma filter_on_grid placeholder_df ph p :
  In p placeholder_df ->
  List.filter (same_campaign_date p) (List.filter (on_grid placeholder_df) ph)
  = List.filter (same_campaign_date p) ph.
Proof.
  intros Hp. induction ph as [|ev ph IH]; [reflexivity|].
  cbn [List.filter]. destruct (on_grid placeholder_df ev) eqn:Hg.
  - cbn [List.filter]. rewrite IH. reflexivity.
  - rewrite IH. destruct (same_campaign_date p ev) eqn:Hk; [|reflexivity].
    exfalso. unfold on_grid in Hg.
    assert (Hex : existsb (fun p => same_campaign_date p ev) placeholder_df
                  = true)
      by (apply existsb_exists; exists p; split; assumption).
    congruence.
Qed.

Lemma flat_map_agree {A B} (f g : A -> list B) (l : list A) :
  (forall a, In a l -> f a = g a) -> flat_map f l = flat_map g l.
Proof.
  induction l as [|a l IH]; intros H; [reflexivity|]. cbn [flat_map].
  rewrite (H a (or_introl eq_refl)), IH; [reflexivity|].
  intros; apply H; right; assumption.
Qed.

Lemma left_merge_on_grid placeholder_df ph :
  left_merge same_campaign_date join_event placeholder_df
    (List.filter (on_grid placeholder_df) ph) =
  left_merge same_campaign_date join_event placeholder_df ph.
Proof.
  unfold left_merge. apply flat_map_agree. intros p Hp. unfold merge_row.
  rewrite (filter_on_grid placeholder_df ph p Hp). reflexivity.
Qed.

Lemma next_valid_nulls k (rows : list (Z * option Q)) :
  (forall r, In r rows -> snd r = None) -> next_valid k rows = None.
Proof.
  induction rows as [|[k' v] rows IH]; intros H; [reflexivity|].
  cbn [next_valid]. rewrite IH by (intros; apply H; right; assumption).
  specialize (H (k', v) (or_introl eq_refl)). cbn [snd] in H. subst v.
  destruct (k' =? k); reflexivity.
Qed.

Lemma fill_from_all_null joined :
  (forall r, In r joined -> j_value_old r = None /\ j_value_new r = None) ->
  fill_from ∅ joined = map (fun r => (r, None)) joined.
Proof.
  induction joined as [|r joined IH]; intros H; [reflexivity|].
  rewrite fill_from_cons. destruct (H r (or_introl eq_refl)) as [Ho Hn].
  rewrite Ho, Hn, lookup_empty. cbn [fillna map].
  rewrite IH by (intros; apply H; right; assumption). f_equal. f_equal.
  apply next_valid_nulls. intros p Hp. unfold olds in Hp.
  apply in_map_iff in Hp. destruct Hp as [r' [<- Hr']]. cbn [snd].
  apply H. right. exact Hr'.
Qed.

Lemma left_merge_map {L L' R O} (g : L' -> L) (same_key : L -> R -> bool)
    (join : L -> option R -> O) left right :
  left_merge same_key join (map g left) right =
  left_merge (fun l => same_key (g l)) (fun l => join (g l)) left right.
Proof.
  unfold left_merge. rewrite flat_map_concat_map, map_map.
  rewrite <- flat_map_concat_map. reflexivity.
Qed.

(** The two branches of [restore_history] agree when no placeholder has
    an event. *)
Lemma fill_history_no_match placeholder_df ph cv name :
  (forall p, In p placeholder_df ->
             List.filter (same_campaign_date p) ph = []) ->
  fill_history placeholder_df ph cv name =
  fill_history placeholder_df [] cv name.
Proof.
  intros Hno. unfold fill_history. destruct ph as [|ev ph]; [reflexivity|].
  cbv zeta.
  assert (Hjoined : left_merge same_campaign_date join_event placeholder_df
                      (ev :: ph) =
                    map (fun p => join_event p None) placeholder_df).
  { unfold left_merge. rewrite flat_map_concat_map.
    rewrite (map_ext_in _ (fun p => [join_event p None])).
    - rewrite <- flat_map_concat_map. clear.
      induction placeholder_df as [|p l IH]; [reflexivity|].
      cbn [flat_map map app]. rewrite IH. reflexivity.
    - intros p Hp. unfold merge_row. rewrite (Hno p Hp). reflexivity. }
  rewrite Hjoined, fill_forward_backward_from, fill_from_all_null.
  - rewrite map_map, left_merge_map. reflexivity.
  - intros r Hr. apply in_map_iff in Hr. destruct Hr as [p [<- _]].
    split; reflexivity.
Qed.

(** X2.  Events off the grid.  [restore_history] reads only the events
    whose campaign and date are those of a placeholder: the result is the
    same without the others.  With no event on the grid it is the result for
    an empty event table, so the two branches of the function agree. *)
Theorem restore_history_events_off_grid
    (placeholder_df : list placeholder) (ph : list event)
    (cv : list snapshot_row) (name : dimension) :
  restore_history placeholder_df ph cv name =
  restore_history placeholder_df (List.filter (on_grid placeholder_df) ph)
    cv name /\
  ((forall ev, In ev ph -> on_grid placeholder_df ev = false) ->
   restore_history placeholder_df ph cv name =
   restore_history placeholder_df [] cv name).
Proof.
  assert (Hfill : fill_history placeholder_df ph cv name =
                  fill_history placeholder_df
                    (List.filter (on_grid placeholder_df) ph) cv name).
  { destruct (List.filter (on_grid placeholder_df) ph) as [|ev' ph'] eqn:Hf.
    - apply fill_history_no_match. intros p Hp.
      rewrite <- (filter_on_grid placeholder_df ph p Hp), Hf. reflexivity.
    - destruct ph as [|ev ph]; [discriminate|].
      unfold fill_history. cbv zeta. rewrite <- Hf.
      rewrite left_merge_on_grid. reflexivity. }
  split.
  - unfold restore_history. rewrite Hfill. reflexivity.
  - intros Hoff. unfold restore_history. rewrite Hfill.
    rewrite filter_none by exact Hoff. reflexivity.
Qed.

(** ** Rows per placeholder *)

Lemma flat_map_map {A B C} (g : A -> B) (f : B -> list C) (l : list A) :
  flat_map f (map g l) = flat_map (fun a => f (g a)) l.
Proof.
  induction l as [|a l IH]; [reflexivity|]. cbn [map flat_map].
  rewrite IH. reflexivity.
Qed.

Lemma map_left_merge {L R O K} (same_key : L -> R -> bool)
    (join : L -> option R -> O) (key : O -> K) (key_left : L -> K)
    left right :
  (forall l r, key (join l r) = key_left l) ->
  map key (left_merge same_key join left right) =
  flat_map (fun l => repeat (key_left l)
                       (Nat.max 1 (List.length (List.filter (same_key l) right))))
           left.
Proof.
  intros Hkey. unfold left_merge.
  induction left as [|l left IH]; [reflexivity|].
  cbn [flat_map]. rewrite map_app, IH. f_equal. unfold merge_row.
  destruct (List.filter (same_key l) right) as [|m ms].
  - cbn [map List.length Nat.max repeat]. rewrite Hkey. reflexivity.
  - replace (Nat.max 1 (List.length (m :: ms))) with (List.length (m :: ms))
      by (cbn [List.length]; lia).
    induction (m :: ms) as [|a t IHt]; [reflexivity|].
    cbn [map List.length repeat]. rewrite Hkey, IHt. reflexivity.
Qed.

Lemma fill_history_row_counts placeholder_df ph cv name :
  NoDup (map event_key ph) ->
  map (fun f => (fr_campaign_id f, fr_date f))
      (fill_history placeholder_df ph cv name) =
  flat_map (fun p : placeholder =>
              repeat p (Nat.max 1 (snapshot_rows cv (fst p))))
           placeholder_df.
Proof.
  intros Hph. unfold fill_history. destruct ph as [|ev ph].
  - rewrite (map_left_merge _ _ _ (fun p : placeholder => p)).
    + reflexivity.
    + intros [c d] s. reflexivity.
  - cbv zeta.
    rewrite (map_left_merge _ _ _
               (fun x : joined_row * option Q =>
                  (j_campaign_id (fst x), j_date (fst x))))
      by (intros x s; reflexivity).
    rewrite <- (flat_map_map fst
      (fun r : joined_row =>
         repeat (j_campaign_id r, j_date r)
           (Nat.max 1 (List.length
              (List.filter (fun s => Z.eqb (j_campaign_id r) (sn_campaign_id s))
                 cv))))).
    rewrite fill_forward_backward_from, map_fst_fill_from.
    rewrite left_merge_at_most_one.
    + rewrite flat_map_map. apply flat_map_ext. intros [c d]. reflexivity.
    + intros p _.
      apply (filter_at_most_one event_key _ (snd p, fst p)); [exact Hph|].
      intros x Hx. apply same_campaign_date_true in Hx. unfold event_key.
      destruct Hx as [-> ->]. reflexivity.
Qed.

(** X3.  Rows per placeholder.  With events of unique keys, the frame
    [restore_history] returns has, in the order of the placeholders, one row
    per placeholder and row of the snapshot for its campaign, and one row
    for a placeholder whose campaign the snapshot lacks: a campaign that the
    snapshot lists twice has every date twice. *)
Theorem restore_history_row_counts
    (placeholder_df : list placeholder) (ph : list event)
    (cv : list snapshot_row) (name : dimension) (out : list restored_row) :
  NoDup (map event_key ph) ->
  restore_history placeholder_df ph cv name = Ok out ->
  map (fun r => (rs_campaign_id r, rs_date r)) out =
  flat_map (fun p : placeholder =>
              repeat p (Nat.max 1 (snapshot_rows cv (fst p))))
           placeholder_df.
Proof.
  intros Hph Hout. apply mapM_Ok_iff in Hout.
  rewrite <- (fill_history_row_counts placeholder_df ph cv name Hph).
  symmetry. eapply Forall2_map_eq; [exact Hout|].
  intros f r Hcast. apply cast_row_Ok in Hcast.
  destruct Hcast as [-> [-> _]]. reflexivity.
Qed.

(** A snapshot with two rows for the campaign 111. *)
Lemma restore_history_row_counts_witness :
  map (fun r => (rs_campaign_id r, rs_date r))
    [{| rs_date := "D1"; rs_campaign_id := 111; rs_value := IntCell 7 |};
     {| rs_date := "D1"; rs_campaign_id := 111; rs_value := IntCell 8 |};
     {| rs_date := "D2"; rs_campaign_id := 111; rs_value := IntCell 7 |};
     {| rs_date := "D2"; rs_campaign_id := 111; rs_value := IntCell 8 |}] =
  [(111, "D1"); (111, "D1"); (111, "D2"); (111, "D2")].
Proof.
  apply (restore_history_row_counts (placeholders [111] ["D1"; "D2"]) []
    [{| sn_campaign_id := 111; sn_budget_amount := Some (7 # 1)%Q;
        sn_target_cpa := None; sn_target_roas := None |};
     {| sn_campaign_id := 111; sn_budget_amount := Some (8 # 1)%Q;
        sn_target_cpa := None; sn_target_roas := None |}]
    budget_amount).
  - constructor.
  - vm_compute. reflexivity.
Defined.

(** ** The events of main *)

Lemma format_partial_change_history_groups df dimension_name out x :
  format_partial_change_history df dimension_name = Ok out -> In x out ->
  List.filter (raw_in_group (event_key x)) df <> [] /\
  value_old x =
  last_valid (map (old_column dimension_name)
                (List.filter (raw_in_group (event_key x)) df)) /\
  value_new x =
  last_valid (map (new_column dimension_name)
                (List.filter (raw_in_group (event_key x)) df)).
Proof.
  intros Hout Hx. unfold format_partial_change_history in Hout.
  set (dated := somes (map (renamed dimension_name) df)) in *.
  assert (Hout' : out = groupby_last dated)
    by (destruct dated; [discriminate | congruence]).
  clear Hout. subst out.
  destruct (groupby_last_spec dated) as [Hsorted Hfind].
  pose proof (sorted_find _ x Hsorted Hx) as Hfx.
  rewrite Hfind in Hfx. unfold group_last in Hfx.
  destruct (filter_renamed (event_key x) dimension_name df) as [Ho Hn].
  fold dated in Ho, Hn.
  destruct (List.filter (in_group (event_key x)) dated) as [|y g];
    [discriminate|].
  cbv beta iota in Hfx. rewrite Ho, Hn in Hfx.
  split; [intros Hnil; rewrite Hnil in Ho; discriminate|].
  split; inversion Hfx as [Hrec]; rewrite <- Hrec at 1; reflexivity.
Qed.

Lemma change_events_groups changed dimension_name change_history ph x :
  change_events changed dimension_name change_history = Ok ph -> In x ph ->
  exists earlier r,
    List.filter (raw_in_group (event_key x))
      (List.filter changed change_history) = earlier ++ [r] /\
    changed r = true /\ In r change_history /\
    raw_in_group (event_key x) r = true /\
    value_old x =
    last_valid (map (old_column dimension_name) (earlier ++ [r])) /\
    value_new x =
    last_valid (map (new_column dimension_name) (earlier ++ [r])).
Proof.
  unfold change_events. intros Hph Hx.
  destruct (List.filter changed change_history) as [|r0 rows] eqn:Hf.
  - inversion Hph; subst. contradiction.
  - rewrite <- Hf in *. clear Hf r0 rows.
    destruct (format_partial_change_history_groups _ _ _ _ Hph Hx)
      as [Hne [Ho Hn]].
    destruct (exists_last Hne) as [earlier [r Hsplit]].
    exists earlier, r. rewrite <- Hsplit.
    assert (Hr : In r (List.filter (raw_in_group (event_key x))
                         (List.filter changed change_history)))
      by (rewrite Hsplit; apply in_or_app; right; left; reflexivity).
    apply filter_In in Hr. destruct Hr as [Hr Hg].
    apply filter_In in Hr. tauto.
Qed.

(** X4.  Budget events.  Both values of a budget event are positive, and
    they are the values of one row: the last budget change of the entity on
    that day.  For the budgets, "last wins" holds row by row. *)
Theorem budget_events_are_last_rows
    (change_history : list change_row) (budgets : list event) (x : event) :
  change_events budget_changed budget_amount change_history = Ok budgets ->
  In x budgets ->
  exists earlier r o n,
    List.filter (raw_in_group (event_key x))
      (List.filter budget_changed change_history) = earlier ++ [r] /\
    old_budget_amount r = Some o /\ new_budget_amount r = Some n /\
    (0 < o)%Q /\ (0 < n)%Q /\
    value_old x = Some o /\ value_new x = Some n.
Proof.
  intros Hph Hx.
  destruct (change_events_groups _ _ _ _ _ Hph Hx)
    as [earlier [r [Hsplit [Hchanged [_ [_ [Ho Hn]]]]]]].
  unfold budget_changed in Hchanged. apply andb_true_iff in Hchanged.
  destruct Hchanged as [Hpo Hpn].
  apply positive_value_true in Hpo, Hpn.
  destruct Hpo as [o [Hold Hpo]], Hpn as [n [Hnew Hpn]].
  exists earlier, r, o, n. repeat (split; [assumption|]).
  rewrite Ho, Hn, !map_app. cbn [map old_column new_column].
  rewrite Hold, Hnew, !last_valid_last. split; reflexivity.
Qed.

(** Two budget changes of one entity on one day. *)
Lemma budget_events_are_last_rows_witness :
  exists earlier r o n,
    List.filter
      (raw_in_group
         (event_key {| ev_date := "2026-11-02"; ev_campaign_id := 111;
                       value_old := Some (120 # 1)%Q;
                       value_new := Some (150 # 1)%Q |}))
      (List.filter budget_changed
         [{| change_date := "2026-11-02 09:00:00"; ch_campaign_id := 111;
             old_budget_amount := Some (100 # 1)%Q;
             new_budget_amount := Some (120 # 1)%Q;
             old_target_cpa := None; new_target_cpa := None;
             old_target_roas := None; new_target_roas := None |};
          {| change_date := "2026-11-02 17:00:00"; ch_campaign_id := 111;
             old_budget_amount := Some (120 # 1)%Q;
             new_budget_amount := Some (150 # 1)%Q;
             old_target_cpa := None; new_target_cpa := None;
             old_target_roas := None; new_target_roas := None |}])
    = earlier ++ [r] /\
    old_budget_amount r = Some o /\ new_budget_amount r = Some n /\
    (0 < o)%Q /\ (0 < n)%Q /\
    Some (120 # 1)%Q = Some o /\ Some (150 # 1)%Q = Some n.
Proof.
  apply (budget_events_are_last_rows
    [{| change_date := "2026-11-02 09:00:00"; ch_campaign_id := 111;
        old_budget_amount := Some (100 # 1)%Q;
        new_budget_amount := Some (120 # 1)%Q;
        old_target_cpa := None; new_target_cpa := None;
        old_target_roas := None; new_target_roas := None |};
     {| change_date := "2026-11-02 17:00:00"; ch_campaign_id := 111;
        old_budget_amount := Some (120 # 1)%Q;
        new_budget_amount := Some (150 # 1)%Q;
        old_target_cpa := None; new_target_cpa := None;
        old_target_roas := None; new_target_roas := None |}]
    [{| ev_date := "2026-11-02"; ev_campaign_id := 111;
        value_old := Some (120 # 1)%Q; value_new := Some (150 # 1)%Q |}]
    {| ev_date := "2026-11-02"; ev_campaign_id := 111;
       value_old := Some (120 # 1)%Q; value_new := Some (150 # 1)%Q |}).
  - vm_compute. reflexivity.
  - left; reflexivity.
Defined.

(** X5.  Bid events.  The old value of a bid event is positive: it is
    the old target CPA of the last bid change of the entity on that day.
    Its new value is the last new target CPA of the day's bid changes that
    is not null, and is null when there is none. *)
Theorem bid_events_old_values
    (change_history : list change_row) (bids : list event) (x : event) :
  change_events bid_changed target_cpa change_history = Ok bids ->
  In x bids ->
  exists earlier r o,
    List.filter (raw_in_group (event_key x))
      (List.filter bid_changed change_history) = earlier ++ [r] /\
    old_target_cpa r = Some o /\ (0 < o)%Q /\
    value_old x = Some o /\
    value_new x = last_valid (map new_target_cpa (earlier ++ [r])).
Proof.
  intros Hph Hx.
  destruct (change_events_groups _ _ _ _ _ Hph Hx)
    as [earlier [r [Hsplit [Hchanged [_ [_ [Ho Hn]]]]]]].
  unfold bid_changed in Hchanged. apply positive_value_true in Hchanged.
  destruct Hchanged as [o [Hold Hpo]].
  exists earlier, r, o. repeat (split; [assumption|]).
  split; [|exact Hn].
  rewrite Ho, map_app. cbn [map old_column]. rewrite Hold, last_valid_last.
  reflexivity.
Qed.

(** Two bid changes of one entity on one day, the later one without a new
    value. *)
Lemma bid_events_old_values_witness :
  exists earlier r o,
    List.filter
      (raw_in_group
         (event_key {| ev_date := "2026-10-20"; ev_campaign_id := 111;
                       value_old := Some (20 # 1)%Q;
                       value_new := Some (20 # 1)%Q |}))
      (List.filter bid_changed
         [{| change_date := "2026-10-20 10:00:00"; ch_campaign_id := 111;
             old_budget_amount := None; new_budget_amount := None;
             old_target_cpa := Some (10 # 1)%Q;
             new_target_cpa := Some (20 # 1)%Q;
             old_target_roas := None; new_target_roas := None |};
          {| change_date := "2026-10-20 11:00:00"; ch_campaign_id := 111;
             old_budget_amount := None; new_budget_amount := None;
             old_target_cpa := Some (20 # 1)%Q; new_target_cpa := None;
             old_target_roas := None; new_target_roas := None |}])
    = earlier ++ [r] /\
    old_target_cpa r = Some o /\ (0 < o)%Q /\
    Some (20 # 1)%Q = Some o /\
    Some (20 # 1)%Q = last_valid (map new_target_cpa (earlier ++ [r])).
Proof.
  apply (bid_events_old_values
    [{| change_date := "2026-10-20 10:00:00"; ch_campaign_id := 111;
        old_budget_amount := None; new_budget_amount := None;
        old_target_cpa := Some (10 # 1)%Q; new_target_cpa := Some (20 # 1)%Q;
        old_target_roas := None; new_target_roas := None |};
     {| change_date := "2026-10-20 11:00:00"; ch_campaign_id := 111;
        old_budget_amount := None; new_budget_amount := None;
        old_target_cpa := Some (20 # 1)%Q; new_target_cpa := None;
        old_target_roas := None; new_target_roas := None |}]
    [{| ev_date := "2026-10-20"; ev_campaign_id := 111;
        value_old := Some (20 # 1)%Q; value_new := Some (20 # 1)%Q |}]
    {| ev_date := "2026-10-20"; ev_campaign_id := 111;
       value_old := Some (20 # 1)%Q; value_new := Some (20 # 1)%Q |}).
  - vm_compute. reflexivity.
  - left; reflexivity.
Defined.

(** ** The merges of main *)

Lemma filter_unique {R K} (key : R -> K) (p : R -> bool) (x : R) l :
  NoDup (map key l) -> In x l -> p x = true ->
  (forall y, p y = true -> key y = key x) ->
  List.filter p l = [x].
Proof.
  intros Hnd Hin Hpx Hp. induction l as [|y l IH]; [contradiction|].
  cbn [map] in Hnd. apply NoDup_cons_iff in Hnd. destruct Hnd as [Hy Hnd].
  cbn [List.filter]. destruct Hin as [-> | Hin].
  - rewrite Hpx. f_equal. apply filter_none. intros z Hz.
    destruct (p z) eqn:Hpz; [|reflexivity]. exfalso. apply Hy.
    apply in_map_iff. exists z. split; [apply Hp; exact Hpz | exact Hz].
  - destruct (p y) eqn:Hpy; [|apply IH; assumption].
    exfalso. apply Hy. apply in_map_iff. exists x.
    split; [symmetry; apply Hp; exact Hpy | exact Hin].
Qed.

Lemma same_date_campaign_true d c r :
  same_date_campaign d c r = true <-> restored_key r = (c, d).
Proof.
  unfold same_date_campaign, restored_key.
  rewrite andb_true_iff, String.eqb_eq, Z.eqb_eq.
  split; [intros [-> ->]; reflexivity | intros H; inversion H; auto].
Qed.

(** A left merge with a frame that has the same keys in the same order,
    none twice, pairs the rows up. *)
Lemma left_merge_aligned {L O} (dl : L -> string) (cl : L -> Z)
    (join : L -> option restored_row -> O) right : forall left,
  map (fun l => (cl l, dl l)) left = map restored_key right ->
  NoDup (map restored_key right) ->
  left_merge (fun l r => same_date_campaign (dl l) (cl l) r) join left right =
  map (fun lr => join (fst lr) (Some (snd lr))) (combine left right).
Proof.
  intros left Hkeys Hnd.
  assert (Hgen : forall ls rs,
            map (fun l => (cl l, dl l)) ls = map restored_key rs ->
            (forall r, In r rs -> In r right) ->
            flat_map (merge_row (fun l r => same_date_campaign (dl l) (cl l) r)
                        join right) ls =
            map (fun lr => join (fst lr) (Some (snd lr))) (combine ls rs)).
  { induction ls as [|l ls IH]; intros rs Hk Hin; [reflexivity|].
    destruct rs as [|r rs]; [discriminate|]. cbn [map] in Hk.
    inversion Hk as [[Hc Hd Hrest]]. cbn [flat_map combine map fst snd].
    rewrite (IH rs Hrest) by (intros; apply Hin; right; assumption).
    unfold merge_row.
    rewrite (filter_unique restored_key _ r right Hnd).
    - reflexivity.
    - apply Hin. left. reflexivity.
    - apply same_date_campaign_true. unfold restored_key. congruence.
    - intros y Hy. apply same_date_campaign_true in Hy.
      unfold restored_key in *. congruence. }
  apply (Hgen left right Hkeys). auto.
Qed.

Lemma combine_histories_zip rb rc rr :
  map restored_key rc = map restored_key rb ->
  map restored_key rr = map restored_key rb ->
  NoDup (map restored_key rb) ->
  combine_histories rb rc rr = map wide_of (combine rb (combine rc rr)).
Proof.
  intros Hrc Hrr Hnd. unfold combine_histories.
  rewrite (left_merge_aligned rs_date rs_campaign_id _ rc rb);
    [| symmetry; exact Hrc | rewrite Hrc; exact Hnd].
  rewrite (left_merge_aligned (fun l => rs_date (fst l))
             (fun l => rs_campaign_id (fst l))).
  - assert (Hlen : List.length rb = List.length rc)
      by (rewrite <- (length_map restored_key rb), <- Hrc, length_map;
          reflexivity).
    clear Hrc Hrr Hnd. revert rc rr Hlen.
    induction rb as [|b rb IH]; intros rc rr Hlen; [reflexivity|].
    destruct rc as [|c rc]; [discriminate|].
    destruct rr as [|r rr]; [reflexivity|].
    cbn [combine map fst snd]. rewrite IH by (simpl in Hlen; lia).
    reflexivity.
  - rewrite Hrr, map_map. clear Hrr Hnd.
    assert (Hlen : List.length rb = List.length rc)
      by (rewrite <- (length_map restored_key rb), <- Hrc, length_map;
          reflexivity).
    clear Hrc. revert rc Hlen.
    induction rb as [|b rb IH]; intros rc Hlen; [reflexivity|].
    destruct rc as [|c rc]; [discriminate|].
    cbn [combine map fst]. rewrite IH by (simpl in Hlen; lia). reflexivity.
  - rewrite Hrr. exact Hnd.
Qed.

(** X6.  The merges.  When the three restored frames have the same keys in
    the same order, none twice, the two left merges pair their rows up:
    the wide table has one row per key, with the three values of that
    key, and no merge leaves a value out. *)
Theorem combine_histories_aligned
    (restored_budgets restored_target_cpas restored_target_roas
       : list restored_row) :
  map restored_key restored_target_cpas = map restored_key restored_budgets ->
  map restored_key restored_target_roas = map restored_key restored_budgets ->
  NoDup (map restored_key restored_budgets) ->
  combine_histories restored_budgets restored_target_cpas restored_target_roas
  = map wide_of
      (combine restored_budgets
         (combine restored_target_cpas restored_target_roas)).
Proof. apply combine_histories_zip. Qed.

(** Two keys, three frames. *)
Lemma combine_histories_aligned_witness :
  combine_histories
    [{| rs_date := "D1"; rs_campaign_id := 111; rs_value := IntCell 100 |};
     {| rs_date := "D2"; rs_campaign_id := 111; rs_value := IntCell 150 |}]
    [{| rs_date := "D1"; rs_campaign_id := 111; rs_value := IntCell 7 |};
     {| rs_date := "D2"; rs_campaign_id := 111; rs_value := IntCell 9 |}]
    [{| rs_date := "D1"; rs_campaign_id := 111;
        rs_value := FloatCell (Some (3 # 2)%Q) |};
     {| rs_date := "D2"; rs_campaign_id := 111;
        rs_value := FloatCell None |}] =
  [{| w_date := "D1"; w_campaign_id := 111; w_budget_amount := IntCell 100;
      w_target_cpa := Some (IntCell 7);
      w_target_roas := Some (FloatCell (Some (3 # 2)%Q)) |};
   {| w_date := "D2"; w_campaign_id := 111; w_budget_amount := IntCell 150;
      w_target_cpa := Some (IntCell 9);
      w_target_roas := Some (FloatCell None) |}].
Proof.
  apply (combine_histories_aligned
    [{| rs_date := "D1"; rs_campaign_id := 111; rs_value := IntCell 100 |};
     {| rs_date := "D2"; rs_campaign_id := 111; rs_value := IntCell 150 |}]
    [{| rs_date := "D1"; rs_campaign_id := 111; rs_value := IntCell 7 |};
     {| rs_date := "D2"; rs_campaign_id := 111; rs_value := IntCell 9 |}]
    [{| rs_date := "D1"; rs_campaign_id := 111;
        rs_value := FloatCell (Some (3 # 2)%Q) |};
     {| rs_date := "D2"; rs_campaign_id := 111;
        rs_value := FloatCell None |}]).
  - reflexivity.
  - reflexivity.
  - repeat constructor; simpl; intuition discriminate.
Defined.

Lemma restore_history_cells placeholder_df ph cv name out r :
  restore_history placeholder_df ph cv name = Ok out -> In r out ->
  (name = target_roas -> exists v, rs_value r = FloatCell v) /\
  (name <> target_roas -> exists z, rs_value r = IntCell z).
Proof.
  intros Hout Hr.
  destruct (restore_history_rows _ _ _ _ _ _ Hout Hr) as [f [_ [_ [_ Hcast]]]].
  split.
  - intros ->. rewrite cast_cell_target_roas in Hcast. inversion Hcast.
    eexists; reflexivity.
  - intros Hname. destruct (fr_value f) as [q|].
    + rewrite cast_cell_Some in Hcast. unfold restored_cell in Hcast.
      destruct name; cbn [dimension_eqb] in Hcast; try congruence;
        inversion Hcast; eexists; reflexivity.
    + rewrite cast_cell_None in Hcast by exact Hname. discriminate.
Qed.

(** What [restored_bid_budget_history] returns: the three restored frames,
    merged. *)
Lemma restored_bid_budget_history_Ok dates change_history campaign_ids
    current_bids_budgets wide :
  restored_bid_budget_history dates change_history campaign_ids
    current_bids_budgets = Ok wide ->
  exists budgets bids rb rc rr,
    change_events budget_changed budget_amount change_history = Ok budgets /\
    change_events bid_changed target_cpa change_history = Ok bids /\
    restore_history (placeholders campaign_ids dates) budgets
      current_bids_budgets budget_amount = Ok rb /\
    restore_history (placeholders campaign_ids dates) bids
      current_bids_budgets target_cpa = Ok rc /\
    restore_history (placeholders campaign_ids dates) bids
      current_bids_budgets target_roas = Ok rr /\
    wide = combine_histories rb rc rr.
Proof.
  unfold restored_bid_budget_history. intros Hwide.
  destruct (change_events budget_changed budget_amount change_history)
    as [budgets|] eqn:Hb; [|discriminate].
  destruct (change_events bid_changed target_cpa change_history)
    as [bids|] eqn:Hc; [|discriminate].
  cbn [bind] in Hwide.
  destruct (restore_history _ budgets _ budget_amount) as [rb|] eqn:Hrb;
    [|discriminate].
  destruct (restore_history _ bids _ target_cpa) as [rc|] eqn:Hrc;
    [|discriminate].
  destruct (restore_history _ bids _ target_roas) as [rr|] eqn:Hrr;
    [|discriminate].
  cbn [bind] in Hwide. inversion Hwide.
  exists budgets, bids, rb, rc, rr. repeat split; assumption.
Qed.

Lemma wide_history_zip dates change_history campaign_ids
    current_bids_budgets wide :
  NoDup campaign_ids -> NoDup dates ->
  NoDup (map sn_campaign_id current_bids_budgets) ->
  restored_bid_budget_history dates change_history campaign_ids
    current_bids_budgets = Ok wide ->
  exists rb rc rr budgets bids,
    restore_history (placeholders campaign_ids dates) budgets
      current_bids_budgets budget_amount = Ok rb /\
    restore_history (placeholders campaign_ids dates) bids
      current_bids_budgets target_cpa = Ok rc /\
    restore_history (placeholders campaign_ids dates) bids
      current_bids_budgets target_roas = Ok rr /\
    map restored_key rb = list_prod campaign_ids dates /\
    wide = map wide_of (combine rb (combine rc rr)).
Proof.
  intros Hcids Hdates Hcv Hwide.
  destruct (restored_bid_budget_history_Ok _ _ _ _ _ Hwide)
    as [budgets [bids [rb [rc [rr [Hb [Hc [Hrb [Hrc [Hrr ->]]]]]]]]]].
  apply change_events_keys in Hb, Hc.
  pose proof (restore_history_keys _ _ _ _ _ Hb Hcv Hrb) as Kb.
  pose proof (restore_history_keys _ _ _ _ _ Hc Hcv Hrc) as Kc.
  pose proof (restore_history_keys _ _ _ _ _ Hc Hcv Hrr) as Kr.
  exists rb, rc, rr, budgets, bids. repeat (split; [assumption|]).
  apply combine_histories_zip.
  - unfold restored_key. rewrite Kb, Kc. reflexivity.
  - unfold restored_key. rewrite Kb, Kr. reflexivity.
  - unfold restored_key. rewrite Kb. apply NoDup_list_prod; assumption.
Qed.

(** X7.  No value missing.  For duplicate-free entities and dates and a
    snapshot with at most one row per entity, every row of the wide table is
    the row of an entity and a date of the grid, with an integer budget, an
    integer target CPA and a target ROAS cell: no merge leaves a column
    empty. *)
Theorem wide_history_complete
    (dates : list string) (change_history : list change_row)
    (campaign_ids : list Z) (current_bids_budgets : list snapshot_row)
    (wide : list wide_row) (w : wide_row) :
  NoDup campaign_ids -> NoDup dates ->
  NoDup (map sn_campaign_id current_bids_budgets) ->
  restored_bid_budget_history dates change_history campaign_ids
    current_bids_budgets = Ok wide ->
  In w wide ->
  In (w_campaign_id w) campaign_ids /\ In (w_date w) dates /\
  exists zb zc v,
    w_budget_amount w = IntCell zb /\
    w_target_cpa w = Some (IntCell zc) /\
    w_target_roas w = Some (FloatCell v).
Proof.
  intros Hcids Hdates Hcv Hwide Hw.
  destruct (wide_history_zip _ _ _ _ _ Hcids Hdates Hcv Hwide)
    as [rb [rc [rr [budgets [bids [Hrb [Hrc [Hrr [Kb ->]]]]]]]]].
  apply in_map_iff in Hw. destruct Hw as [[b [c r]] [<- Ht]].
  pose proof (in_combine_l _ _ _ _ Ht) as Hb.
  apply in_combine_r in Ht.
  pose proof (in_combine_l _ _ _ _ Ht) as Hc.
  apply in_combine_r in Ht.
  unfold wide_of. cbn [fst snd w_campaign_id w_date w_budget_amount
    w_target_cpa w_target_roas].
  assert (Hkey : In (restored_key b) (list_prod campaign_ids dates))
    by (rewrite <- Kb; apply in_map; exact Hb).
  apply in_prod_iff in Hkey. destruct Hkey as [Hkc Hkd].
  split; [exact Hkc|]. split; [exact Hkd|].
  destruct (proj2 (restore_history_cells _ _ _ _ _ _ Hrb Hb)) as [zb Hzb];
    [discriminate|].
  destruct (proj2 (restore_history_cells _ _ _ _ _ _ Hrc Hc)) as [zc Hzc];
    [discriminate|].
  destruct (proj1 (restore_history_cells _ _ _ _ _ _ Hrr Ht)) as [v Hv];
    [reflexivity|].
  exists zb, zc, v. rewrite Hzb, Hzc, Hv. repeat split.
Qed.

(** One entity, one date. *)
Lemma wide_history_complete_witness :
  In 111 [111] /\ In "2026-11-03" ["2026-11-03"] /\
  exists zb zc v,
    IntCell 100 = IntCell zb /\
    Some (IntCell 5) = Some (IntCell zc) /\
    Some (FloatCell None) = Some (FloatCell v).
Proof.
  apply (wide_history_complete ["2026-11-03"] [] [111]
    [{| sn_campaign_id := 111; sn_budget_amount := Some (100 # 1)%Q;
        sn_target_cpa := Some (5 # 1)%Q; sn_target_roas := None |}]
    [{| w_date := "2026-11-03"; w_campaign_id := 111;
        w_budget_amount := IntCell 100;
        w_target_cpa := Some (IntCell 5);
        w_target_roas := Some (FloatCell None) |}]
    {| w_date := "2026-11-03"; w_campaign_id := 111;
       w_budget_amount := IntCell 100;
       w_target_cpa := Some (IntCell 5);
       w_target_roas := Some (FloatCell None) |}).
  - repeat constructor; simpl; intuition.
  - repeat constructor; simpl; intuition.
  - repeat constructor; simpl; intuition.
  - vm_compute. reflexivity.
  - left; reflexivity.
Defined.

(** ** The window and the tables *)

(** X8.  The two readings of the clock.  The window runs from 29 days
    before the first reading to the day before the second: 29 dates when
    both readings fall on one day, 30 when midnight passes between them. *)
Theorem window_between_readings (now1 now2 : Z) :
  in_bounds (now1 - 29) = true -> in_bounds (now2 - 1) = true ->
  window now1 now2 =
  Ok (map strftime (date_range (now1 - 29) (now2 - 1))) /\
  (forall dates, window now1 now2 = Ok dates ->
     List.length dates = Z.to_nat (now2 - now1 + 29)) /\
  (now2 = now1 + 1 ->
   exists dates, window now1 now2 = Ok dates /\
     List.length dates = 30%nat /\ last dates "" = strftime now1).
Proof.
  intros Hlo Hhi.
  assert (Hw : window now1 now2 =
               Ok (map strftime (date_range (now1 - 29) (now2 - 1)))).
  { unfold window. rewrite Hlo, Hhi. cbn [andb].
    rewrite !to_datetime_strftime by assumption. reflexivity. }
  split; [exact Hw|]. split.
  - intros dates Hd. rewrite Hw in Hd. inversion Hd.
    rewrite length_map, date_range_length. f_equal. lia.
  - intros ->. eexists. split; [exact Hw|]. split.
    + rewrite length_map, date_range_length. lia.
    + unfold date_range.
      replace (now1 + 1 - 1 - (now1 - 29) + 1) with 30 by lia.
      change (Z.to_nat 30) with 30%nat. cbn [seq map last].
      f_equal. lia.
Qed.

(** A run that starts on 2026-11-04 and passes midnight. *)
Lemma window_between_readings_witness :
  exists dates, window 20761 20762 = Ok dates /\
    List.length dates = 30%nat /\ last dates "" = "2026-11-04".
Proof.
  destruct (window_between_readings 20761 20762) as [_ [_ H]];
    [reflexivity | reflexivity |].
  apply H. reflexivity.
Defined.

Lemma digit_not_dash n : Ascii.eqb (digit n) "-" = false.
Proof.
  unfold digit. pose proof (Z.mod_pos_bound n 10 eq_refl) as Hk.
  set (k := n mod 10) in *.
  assert (Hcases : k = 0 \/ k = 1 \/ k = 2 \/ k = 3 \/ k = 4 \/ k = 5 \/
                   k = 6 \/ k = 7 \/ k = 8 \/ k = 9) by lia.
  repeat (destruct Hcases as [-> | Hcases]; [reflexivity|]).
  rewrite Hcases. reflexivity.
Qed.

Lemma with_dashes_remove_dashes z :
  with_dashes (remove_dashes (strftime z)) = strftime z.
Proof.
  unfold strftime. destruct (civil_from_days z) as [[y m] d].
  cbn [remove_dashes]. rewrite !digit_not_dash.
  change (Ascii.eqb "-" "-") with true. cbv iota. reflexivity.
Qed.

Lemma append_inj_l (p x y : string) : p +:+ x = p +:+ y -> x = y.
Proof.
  induction p as [|c p IH]; simpl; intros H; [exact H|].
  inversion H. auto.
Qed.

Lemma table_id_strftime_inj bq_project bq_dataset z z' :
  in_bounds z = true -> in_bounds z' = true ->
  table_id bq_project bq_dataset (strftime z) =
  table_id bq_project bq_dataset (strftime z') -> z = z'.
Proof.
  intros Hz Hz' H. unfold table_id in H.
  do 4 apply append_inj_l in H.
  apply strftime_inj; [assumption | assumption|].
  rewrite <- (with_dashes_remove_dashes z), <- (with_dashes_remove_dashes z').
  rewrite H. reflexivity.
Qed.

(** X9.  One table per date.  The table of a date is named after the
    date without its dashes, and two dates that pandas can hold never have
    the same table. *)
Theorem table_id_of_date (bq_project bq_dataset : string) (z z' : Z) :
  in_bounds z = true -> in_bounds z' = true ->
  with_dashes (remove_dashes (strftime z)) = strftime z /\
  (table_id bq_project bq_dataset (strftime z) =
   table_id bq_project bq_dataset (strftime z') -> z = z').
Proof.
  intros Hz Hz'. split; [apply with_dashes_remove_dashes|].
  apply table_id_strftime_inj; assumption.
Qed.

(** The table of 2026-11-03. *)
Lemma table_id_of_date_witness :
  table_id "p" "d" (strftime 20760) = "p.d.bid_budgets_20261103" /\
  (table_id "p" "d" (strftime 20760) = table_id "p" "d" (strftime 20760) ->
   20760 = 20760).
Proof.
  split; [reflexivity|].
  apply (table_id_of_date "p" "d" 20760 20760); reflexivity.
Defined.

(** ** What a run writes *)

Lemma write_partitions_keeps bq_project bq_dataset fault history dates :
  forall store log table rows,
  store !! table = Some rows ->
  destination (write_partitions bq_project bq_dataset fault history store log
                 dates) !! table = Some rows.
Proof.
  induction dates as [|date rest IH]; intros store log table rows Hs;
    [exact Hs|].
  cbn [write_partitions]. unfold write_data_to_bq.
  destruct (fault (table_id bq_project bq_dataset date)); [exact Hs|].
  destruct (store !! table_id bq_project bq_dataset date) eqn:Hd.
  - apply IH. exact Hs.
  - apply IH. rewrite lookup_insert_ne; [exact Hs|]. congruence.
Qed.

Lemma write_partitions_creates bq_project bq_dataset fault history dates :
  forall store log table rows,
  store !! table = None ->
  destination (write_partitions bq_project bq_dataset fault history store log
                 dates) !! table = Some rows ->
  exists date, In date dates /\ table = table_id bq_project bq_dataset date /\
    rows = List.filter (fun r => String.eqb (w_date r) date) history.
Proof.
  induction dates as [|date rest IH]; intros store log table rows Hs Hd.
  - cbn [write_partitions destination] in Hd. congruence.
  - cbn [write_partitions] in Hd. unfold write_data_to_bq in Hd.
    destruct (fault (table_id bq_project bq_dataset date));
      [cbn [destination] in Hd; congruence|].
    destruct (store !! table_id bq_project bq_dataset date) eqn:Hdate.
    + destruct (IH _ _ _ _ Hs Hd) as [d [Hin H]]. exists d.
      split; [right; exact Hin | exact H].
    + destruct (decide (table_id bq_project bq_dataset date = table))
        as [Heq | Hne].
      * subst table. exists date. split; [left; reflexivity|].
        split; [reflexivity|].
        rewrite (write_partitions_keeps bq_project bq_dataset fault history
                   rest _ log _
                   (List.filter (fun r => String.eqb (w_date r) date) history))
          in Hd by apply lookup_insert_eq.
        inversion Hd. reflexivity.
      * rewrite <- (lookup_insert_ne store _ _
                      (List.filter (fun r => String.eqb (w_date r) date)
                         history) Hne) in Hs.
        destruct (IH _ _ _ _ Hs Hd) as [d [Hin H]]. exists d.
        split; [right; exact Hin | exact H].
Qed.

(** X10.  The tables of a run.  Whatever happens in the loop, a table that
    exists is left as it is; and a table that the loop creates is the table
    of one of the dates and holds exactly the rows of the wide table with
    that date. *)
Theorem write_partitions_tables
    (bq_project bq_dataset : string) (fault : string -> option Z)
    (history : list wide_row) (dates : list string)
    (store : gmap string (list wide_row)) (log : list string)
    (table : string) :
  (forall rows, store !! table = Some rows ->
     destination (write_partitions bq_project bq_dataset fault history store
                    log dates) !! table = Some rows) /\
  (forall rows, store !! table = None ->
     destination (write_partitions bq_project bq_dataset fault history store
                    log dates) !! table = Some rows ->
     exists date, In date dates /\
       table = table_id bq_project bq_dataset date /\
       rows = List.filter (fun r => String.eqb (w_date r) date) history).
Proof.
  split.
  - intros rows. apply write_partitions_keeps.
  - intros rows. apply write_partitions_creates.
Qed.

Lemma write_partitions_raised bq_project bq_dataset fault history dates :
  forall store log e,
  raised (write_partitions bq_project bq_dataset fault history store log
            dates) = Some e ->
  exists code, e = SinkError code.
Proof.
  induction dates as [|date rest IH]; intros store log e Hr.
  - discriminate.
  - cbn [write_partitions] in Hr.
    destruct (write_data_to_bq fault store _ _) as [store' | | code].
    + apply (IH _ _ _ Hr).
    + apply (IH _ _ _ Hr).
    + cbn [raised] in Hr. inversion Hr. exists code. reflexivity.
Qed.

(** X11.  No partial output of a failed restoration.  A run that ends
    with an error that is not an error of the sink (a date out of bounds, a
    frame without a date column, a null met by the cast to int) has written
    nothing and logged nothing: these errors come before the first write. *)
Theorem main_fails_before_writing
    (bq_project bq_dataset : string) (fault : string -> option Z)
    (now1 now2 : Z) (change_history : list change_row) (campaign_ids : list Z)
    (current_bids_budgets : list snapshot_row)
    (store : gmap string (list wide_row)) (e : exception) :
  raised (main bq_project bq_dataset fault now1 now2 change_history
            campaign_ids current_bids_budgets store) = Some e ->
  (forall code, e <> SinkError code) ->
  main bq_project bq_dataset fault now1 now2 change_history campaign_ids
    current_bids_budgets store =
  {| destination := store; warnings := []; raised := Some e |}.
Proof.
  unfold main. intros Hr Hsink.
  destruct (window now1 now2) as [dates | e1].
  - destruct (restored_bid_budget_history dates change_history campaign_ids
                current_bids_budgets) as [history | e2].
    + destruct (write_partitions_raised _ _ _ _ _ _ _ _ Hr) as [code ->].
      exfalso. apply (Hsink code). reflexivity.
    + cbn [raised] in Hr. inversion Hr. reflexivity.
  - cbn [raised] in Hr. inversion Hr. reflexivity.
Qed.

(** An entity without a budget: the run fails with the tables of the
    destination untouched. *)
Lemma main_fails_before_writing_witness :
  main "p" "d" (fun _ => None) 20761 20761 [] [111]
    [{| sn_campaign_id := 111; sn_budget_amount := None;
        sn_target_cpa := Some (5 # 1)%Q; sn_target_roas := None |}]
    (<["p.d.bid_budgets_20261103" := []]> ∅) =
  {| destination := <["p.d.bid_budgets_20261103" := []]> ∅;
     warnings := []; raised := Some IntCastingNaNError |}.
Proof.
  apply (main_fails_before_writing "p" "d" (fun _ => None) 20761 20761 []
    [111]
    [{| sn_campaign_id := 111; sn_budget_amount := None;
        sn_target_cpa := Some (5 # 1)%Q; sn_target_roas := None |}]
    (<["p.d.bid_budgets_20261103" := []]> ∅) IntCastingNaNError).
  - vm_compute. reflexivity.
  - intros code. discriminate.
Defined.

Lemma write_partitions_fresh bq_project bq_dataset fault history dates :
  forall store log,
  NoDup (map (table_id bq_project bq_dataset) dates) ->
  (forall date, In date dates ->
     store !! table_id bq_project bq_dataset date = None) ->
  raised (write_partitions bq_project bq_dataset fault history store log
            dates) = None ->
  forall date, In date dates ->
    destination (write_partitions bq_project bq_dataset fault history store
                   log dates) !! table_id bq_project bq_dataset date =
    Some (List.filter (fun r => String.eqb (w_date r) date) history).
Proof.
  induction dates as [|d rest IH]; intros store log Hnd Hs Hr date Hin;
    [contradiction|].
  cbn [map] in Hnd. apply NoDup_cons_iff in Hnd. destruct Hnd as [Hd Hnd].
  cbn [write_partitions] in *. unfold write_data_to_bq in *.
  destruct (fault (table_id bq_project bq_dataset d)); [discriminate|].
  rewrite (Hs d (or_introl eq_refl)) in *.
  destruct Hin as [<- | Hin].
  - apply write_partitions_keeps. apply lookup_insert_eq.
  - apply IH; try assumption.
    intros date' Hin'. rewrite lookup_insert_ne.
    + apply Hs. right. exact Hin'.
    + intros Heq. apply Hd. rewrite Heq. apply in_map. exact Hin'.
Qed.

Lemma filter_date_list_prod (cids : list Z) (dates : list string) date :
  NoDup dates -> In date dates ->
  List.filter (fun k : Z * string => String.eqb (snd k) date)
    (list_prod cids dates) = map (fun c => (c, date)) cids.
Proof.
  intros Hnd Hin.
  assert (Hone : forall c : Z,
            List.filter (fun k : Z * string => String.eqb (snd k) date)
              (map (pair c) dates) = [(c, date)]).
  { intros c. clear -Hnd Hin. induction dates as [|d dates IH];
      [contradiction|].
    apply NoDup_cons_iff in Hnd. destruct Hnd as [Hd Hnd].
    cbn [map List.filter snd]. destruct (String.eqb_spec d date) as [-> | Hne].
    - f_equal. apply filter_none. intros k Hk. apply in_map_iff in Hk.
      destruct Hk as [d' [<- Hd']]. cbn [snd]. apply String.eqb_neq.
      intros ->. contradiction.
    - destruct Hin as [-> | Hin]; [congruence|]. apply IH; assumption. }
  induction cids as [|c cids IH]; [reflexivity|].
  cbn [list_prod map]. rewrite List.filter_app, Hone, IH. reflexivity.
Qed.

Lemma daily_history_campaigns (wide : list wide_row) cids dates date :
  map (fun w => (w_campaign_id w, w_date w)) wide = list_prod cids dates ->
  NoDup dates -> In date dates ->
  map w_campaign_id
    (List.filter (fun r => String.eqb (w_date r) date) wide) = cids.
Proof.
  intros Hkeys Hnd Hin.
  assert (Hcomm : map (fun w => (w_campaign_id w, w_date w))
                    (List.filter (fun r => String.eqb (w_date r) date) wide) =
                  List.filter (fun k : Z * string => String.eqb (snd k) date)
                    (map (fun w => (w_campaign_id w, w_date w)) wide)).
  { clear. induction wide as [|w wide IH]; [reflexivity|].
    cbn [map List.filter snd]. destruct (String.eqb (w_date w) date);
      cbn [map]; rewrite IH; reflexivity. }
  rewrite Hkeys, (filter_date_list_prod cids dates date Hnd Hin) in Hcomm.
  rewrite <- (map_map (fun w => (w_campaign_id w, w_date w)) fst), Hcomm.
  rewrite map_map. apply map_id.
Qed.

Lemma wide_history_keys dates change_history campaign_ids
    current_bids_budgets wide :
  NoDup campaign_ids -> NoDup dates ->
  NoDup (map sn_campaign_id current_bids_budgets) ->
  restored_bid_budget_history dates change_history campaign_ids
    current_bids_budgets = Ok wide ->
  map (fun w => (w_campaign_id w, w_date w)) wide =
  list_prod campaign_ids dates.
Proof.
  intros Hcids Hdates Hcv Hwide.
  destruct (restored_bid_budget_history_Ok _ _ _ _ _ Hwide)
    as [budgets [bids [rb [rc [rr [Hb [Hc [Hrb [Hrc [Hrr ->]]]]]]]]]].
  apply change_events_keys in Hb, Hc.
  pose proof (restore_history_keys _ _ _ _ _ Hb Hcv Hrb) as Kb.
  pose proof (restore_history_keys _ _ _ _ _ Hc Hcv Hrc) as Kc.
  pose proof (restore_history_keys _ _ _ _ _ Hc Hcv Hrr) as Kr.
  assert (Hgrid : NoDup (list_prod campaign_ids dates))
    by (apply NoDup_list_prod; assumption).
  rewrite combine_histories_keys; [exact Kb | |].
  - unfold placeholders in Kc. rewrite Kc. exact Hgrid.
  - unfold placeholders in Kr. rewrite Kr. exact Hgrid.
Qed.

(** X12.  A complete run.  When both readings of the clock fall on the
    day [today], the entities are duplicate-free, the snapshot has at most
    one row per entity and the destination has none of the tables of the
    window, a run that raises nothing leaves, for each of the 29 dates, the
    table of that date with exactly one row per entity, in the order of the
    entities, each row with that date. *)
Theorem main_writes_one_row_per_campaign
    (bq_project bq_dataset : string) (fault : string -> option Z)
    (today : Z) (change_history : list change_row) (campaign_ids : list Z)
    (current_bids_budgets : list snapshot_row)
    (store : gmap string (list wide_row)) :
  in_bounds (today - 29) = true -> in_bounds (today - 1) = true ->
  NoDup campaign_ids ->
  NoDup (map sn_campaign_id current_bids_budgets) ->
  (forall z, today - 29 <= z <= today - 1 ->
     store !! table_id bq_project bq_dataset (strftime z) = None) ->
  raised (main bq_project bq_dataset fault today today change_history
            campaign_ids current_bids_budgets store) = None ->
  forall z, today - 29 <= z <= today - 1 ->
    exists rows,
      destination (main bq_project bq_dataset fault today today change_history
                     campaign_ids current_bids_budgets store)
        !! table_id bq_project bq_dataset (strftime z) = Some rows /\
      map w_campaign_id rows = campaign_ids /\
      (forall w, In w rows -> w_date w = strftime z).
Proof.
  intros Hlo Hhi Hcids Hcv Hfresh Hrun z Hz.
  assert (Hbounds : forall o, today - 29 <= o <= today - 1 ->
                      in_bounds o = true).
  { intros o Ho. unfold in_bounds in *.
    apply andb_true_iff in Hlo, Hhi. destruct Hlo as [Hlo _], Hhi as [_ Hhi].
    apply Z.leb_le in Hlo, Hhi. apply andb_true_iff.
    split; apply Z.leb_le; lia. }
  unfold main in *. rewrite (window_same_day today Hlo Hhi) in *.
  set (ords := date_range (today - 29) (today - 1)) in *.
  assert (Hords : forall o, In o ords <-> today - 29 <= o <= today - 1)
    by (intros o; apply in_date_range).
  assert (Hdates : NoDup (map strftime ords)).
  { apply NoDup_map_strftime.
    - apply Forall_forall. intros o Ho. apply Hbounds, Hords, Ho.
    - apply sorted_NoDup, date_range_sorted. }
  destruct (restored_bid_budget_history (map strftime ords) change_history
              campaign_ids current_bids_budgets) as [history | e] eqn:Hhist;
    [|discriminate].
  pose proof (wide_history_keys _ _ _ _ _ Hcids Hdates Hcv Hhist) as Hkeys.
  assert (Hin : In (strftime z) (map strftime ords))
    by (apply in_map, Hords, Hz).
  exists (List.filter (fun r => String.eqb (w_date r) (strftime z)) history).
  split; [|split].
  - apply write_partitions_fresh; try assumption.
    + rewrite map_map. clear -Hdates Hbounds Hords.
      assert (Hb : forall o, In o ords -> in_bounds o = true)
        by (intros o Ho; apply Hbounds, Hords, Ho).
      clear Hbounds Hords.
      assert (Hnd : NoDup ords).
      { clear -Hdates. induction ords as [|o os IH]; constructor.
        - cbn [map] in Hdates. apply NoDup_cons_iff in Hdates.
          intros Hin. apply (proj1 Hdates). apply in_map. exact Hin.
        - apply IH. cbn [map] in Hdates. apply NoDup_cons_iff in Hdates.
          apply Hdates. }
      clear Hdates. induction Hnd as [|o os Ho _ IH]; cbn [map]; constructor.
      * intros Hin. apply in_map_iff in Hin. destruct Hin as [o' [Heq Ho']].
        apply Ho.
        rewrite <- (table_id_strftime_inj bq_project bq_dataset o' o); auto.
        -- apply Hb. right. exact Ho'.
        -- apply Hb. left. reflexivity.
      * apply IH. intros o' Ho'. apply Hb. right. exact Ho'.
    + intros date Hd. apply in_map_iff in Hd. destruct Hd as [o [<- Ho]].
      apply Hfresh, Hords, Ho.
  - apply (daily_history_campaigns history campaign_ids (map strftime ords));
      assumption.
  - intros w Hw. apply filter_In in Hw. destruct Hw as [_ Hw].
    apply String.eqb_eq in Hw. exact Hw.
Qed.

(** A run for one entity over an empty destination. *)
Lemma main_writes_one_row_per_campaign_witness :
  exists rows,
    destination
      (main "p" "d" (fun _ => None) 20761 20761 [] [111]
         [{| sn_campaign_id := 111; sn_budget_amount := Some (100 # 1)%Q;
             sn_target_cpa := Some (5 # 1)%Q; sn_target_roas := None |}] ∅)
      !! table_id "p" "d" (strftime 20760) = Some rows /\
    map w_campaign_id rows = [111] /\
    (forall w, In w rows -> w_date w = strftime 20760).
Proof.
  apply (main_writes_one_row_per_campaign "p" "d" (fun _ => None) 20761 []
    [111]
    [{| sn_campaign_id := 111; sn_budget_amount := Some (100 # 1)%Q;
        sn_target_cpa := Some (5 # 1)%Q; sn_target_roas := None |}] ∅).
  - reflexivity.
  - reflexivity.
  - repeat constructor; simpl; intuition.
  - repeat constructor; simpl; intuition.
  - intros z _. apply lookup_empty.
  - vm_compute. reflexivity.
  - lia.
Defined.

(** ** The dates and the order of the events *)

(** X13.  The events that come out.  The events that
    [format_partial_change_history] returns are sorted by date and then by
    entity, as [groupby] leaves them; the date of each is a non-empty word
    without white space, the first word of the timestamp of a row of that
    entity. *)
Theorem format_partial_change_history_sorted
    (df : list change_row) (dimension_name : dimension) (out : list event) :
  format_partial_change_history df dimension_name = Ok out ->
  StronglySorted event_lt out /\
  (forall x, In x out ->
     ev_date x <> EmptyString /\
     has_space (ev_date x) = false /\
     (forall c, In c (list_ascii_of_string (ev_date x)) ->
                is_space c = false) /\
     exists r, In r df /\ first_word (change_date r) = Some (ev_date x) /\
               ch_campaign_id r = ev_campaign_id x).
Proof.
  intros Hout. split.
  - unfold format_partial_change_history in Hout.
    destruct (somes (map (renamed dimension_name) df)) as [|y l] eqn:Hs;
      [discriminate|].
    inversion Hout. apply groupby_last_spec.
  - intros x Hx.
    destruct (format_partial_change_history_groups _ _ _ _ Hout Hx)
      as [Hne _].
    destruct (List.filter (raw_in_group (event_key x)) df) as [|r g] eqn:Hg;
      [congruence|].
    assert (Hr : In r (List.filter (raw_in_group (event_key x)) df))
      by (rewrite Hg; left; reflexivity).
    apply filter_In in Hr. destruct Hr as [Hr Hk].
    unfold raw_in_group, event_key in Hk. cbn [fst snd] in Hk.
    destruct (first_word (change_date r)) as [d|] eqn:Hw; [|discriminate].
    apply andb_true_iff in Hk. destruct Hk as [Hd Hc].
    apply String.eqb_eq in Hd. apply Z.eqb_eq in Hc. subst d.
    destruct (first_word_Some _ _ Hw) as [Hnonempty [Hnospace Hbytes]].
    split; [exact Hnonempty|]. split; [exact Hnospace|].
    split; [exact Hbytes|].
    exists r. auto.
Qed.

(** Rows of two days, the later day first. *)
Lemma format_partial_change_history_sorted_witness :
  StronglySorted event_lt
    [{| ev_date := "2026-10-20"; ev_campaign_id := 111;
        value_old := Some (20 # 1)%Q; value_new := Some (30 # 1)%Q |};
     {| ev_date := "2026-10-21"; ev_campaign_id := 111;
        value_old := Some (10 # 1)%Q; value_new := Some (20 # 1)%Q |}].
Proof.
  apply (format_partial_change_history_sorted
    [{| change_date := "2026-10-21 10:00:00"; ch_campaign_id := 111;
        old_budget_amount := None; new_budget_amount := None;
        old_target_cpa := Some (10 # 1)%Q; new_target_cpa := Some (20 # 1)%Q;
        old_target_roas := None; new_target_roas := None |};
     {| change_date := "  2026-10-20 11:00:00"; ch_campaign_id := 111;
        old_budget_amount := None; new_budget_amount := None;
        old_target_cpa := Some (20 # 1)%Q; new_target_cpa := Some (30 # 1)%Q;
        old_target_roas := None; new_target_roas := None |}]
    target_cpa).
  vm_compute. reflexivity.
Defined.

(** ** One campaign at a time *)

Lemma left_merge_filter_right {L R O} (same_key : L -> R -> bool)
    (join : L -> option R -> O) (q : R -> bool) left right :
  (forall l r, In l left -> In r right -> same_key l r = true -> q r = true) ->
  left_merge same_key join left (List.filter q right) =
  left_merge same_key join left right.
Proof.
  intros Hq. unfold left_merge. apply flat_map_agree. intros l Hl.
  unfold merge_row.
  assert (Hgen : forall rs, (forall r, In r rs -> In r right) ->
            List.filter (same_key l) (List.filter q rs) =
            List.filter (same_key l) rs).
  { induction rs as [|r rs IH]; intros Hin; [reflexivity|].
    cbn [List.filter]. destruct (q r) eqn:Hqr.
    - cbn [List.filter]. rewrite IH by (intros; apply Hin; right; assumption).
      reflexivity.
    - rewrite IH by (intros; apply Hin; right; assumption).
      destruct (same_key l r) eqn:Hk; [|reflexivity].
      rewrite (Hq l r Hl (Hin r (or_introl eq_refl)) Hk) in Hqr. discriminate. }
  assert (Hf : List.filter (same_key l) (List.filter q right) =
               List.filter (same_key l) right) by (apply Hgen; auto).
  rewrite Hf. reflexivity.
Qed.

Lemma fill_history_filter_events rows ph cv name (q : event -> bool) :
  (forall p ev, In p rows -> In ev ph -> same_campaign_date p ev = true ->
                q ev = true) ->
  fill_history rows ph cv name = fill_history rows (List.filter q ph) cv name.
Proof.
  intros Hq.
  pose proof (left_merge_filter_right same_campaign_date join_event q rows ph
                Hq) as Hmerge.
  destruct (List.filter q ph) as [|ev' ph'] eqn:Hf.
  - apply fill_history_no_match. intros p Hp.
    destruct (List.filter (same_campaign_date p) ph) as [|x xs] eqn:Hx;
      [reflexivity|].
    assert (Hin : In x (List.filter (same_campaign_date p) ph))
      by (rewrite Hx; left; reflexivity).
    apply filter_In in Hin. destruct Hin as [Hin Hk].
    assert (Hqx : In x (List.filter q ph))
      by (apply filter_In; split; [exact Hin | apply (Hq p x Hp Hin Hk)]).
    rewrite Hf in Hqx. contradiction.
  - destruct ph as [|ev ph]; [discriminate|].
    unfold fill_history. cbv zeta. rewrite Hmerge. reflexivity.
Qed.

Lemma fill_history_filter_snapshot rows ph cv name e :
  (forall p, In p rows -> fst p = e) ->
  fill_history rows ph
    (List.filter (fun s => sn_campaign_id s =? e) cv) name =
  fill_history rows ph cv name.
Proof.
  intros He. unfold fill_history. destruct ph as [|ev ph].
  - apply left_merge_filter_right. intros p s Hp _ Hk.
    apply Z.eqb_eq in Hk. apply Z.eqb_eq. rewrite <- Hk. apply He. exact Hp.
  - cbv zeta. apply left_merge_filter_right. intros x s Hx _ Hk.
    apply Z.eqb_eq in Hk. apply Z.eqb_eq. rewrite <- Hk.
    rewrite fill_forward_backward_from in Hx.
    assert (Hj : In (fst x) (map fst (fill_from ∅
              (left_merge same_campaign_date join_event rows (ev :: ph)))))
      by (apply in_map; exact Hx).
    rewrite map_fst_fill_from in Hj. apply in_left_merge in Hj.
    destruct Hj as [p [Hp Hj]].
    destruct Hj as [[m [_ [_ ->]]] | [_ ->]]; apply He; exact Hp.
Qed.

Lemma mapM_filter {A B} (f : A -> result B) (q : A -> bool) (q' : B -> bool)
    l out :
  (forall x y, f x = Ok y -> q' y = q x) ->
  mapM f l = Ok out ->
  mapM f (List.filter q l) = Ok (List.filter q' out).
Proof.
  intros Hq. revert out. induction l as [|x l IH]; intros out Hout.
  - inversion Hout. reflexivity.
  - cbn [mapM] in Hout. destruct (f x) as [y|] eqn:Hx; [|discriminate].
    cbn [bind] in Hout. destruct (mapM f l) as [ys|] eqn:Hl; [|discriminate].
    cbn [bind] in Hout. inversion Hout; subst out. cbn [List.filter].
    rewrite (Hq x y Hx). destruct (q x).
    + cbn [mapM]. rewrite Hx, (IH ys eq_refl). reflexivity.
    + apply IH. reflexivity.
Qed.

Lemma restore_history_of_one_campaign placeholder_df ph cv name e out :
  restore_history placeholder_df ph cv name = Ok out ->
  mapM (cast_row name)
    (fill_history (List.filter (fun p : placeholder => fst p =? e)
                     placeholder_df)
       (List.filter (fun ev => ev_campaign_id ev =? e) ph)
       (List.filter (fun s => sn_campaign_id s =? e) cv) name) =
  Ok (List.filter (fun r => rs_campaign_id r =? e) out).
Proof.
  intros Hout. unfold restore_history in Hout.
  apply (mapM_filter _ (fun f => fr_campaign_id f =? e)
           (fun r => rs_campaign_id r =? e)) in Hout.
  - rewrite fill_history_of_campaign in Hout.
    assert (Hrows : forall p,
              In p (List.filter (fun p : placeholder => fst p =? e)
                      placeholder_df) -> fst p = e).
    { intros p Hp. apply filter_In in Hp. apply Z.eqb_eq. apply Hp. }
    rewrite (fill_history_filter_snapshot _ _ cv name e Hrows).
    rewrite <- fill_history_filter_events; [exact Hout|].
    intros p ev Hp _ Hk. apply same_campaign_date_true in Hk.
    apply Z.eqb_eq. rewrite (proj1 Hk). apply Hrows. exact Hp.
  - intros f r Hcast. apply cast_row_Ok in Hcast.
    destruct Hcast as [_ [-> _]]. reflexivity.
Qed.

(** X14.  One entity at a time.  The rows that [restore_history] returns
    for an entity depend on the events and the snapshot rows of that entity
    only: two calls on the same placeholders whose events and snapshot rows
    agree for the entity return the same rows for it. *)
Theorem restore_history_of_campaign
    (placeholder_df : list placeholder) (ph ph' : list event)
    (cv cv' : list snapshot_row) (name : dimension) (e : Z)
    (out out' : list restored_row) :
  List.filter (fun ev => ev_campaign_id ev =? e) ph =
  List.filter (fun ev => ev_campaign_id ev =? e) ph' ->
  List.filter (fun s => sn_campaign_id s =? e) cv =
  List.filter (fun s => sn_campaign_id s =? e) cv' ->
  restore_history placeholder_df ph cv name = Ok out ->
  restore_history placeholder_df ph' cv' name = Ok out' ->
  List.filter (fun r => rs_campaign_id r =? e) out =
  List.filter (fun r => rs_campaign_id r =? e) out'.
Proof.
  intros Hph Hcv Hout Hout'.
  apply (restore_history_of_one_campaign _ _ _ _ e) in Hout, Hout'.
  rewrite Hph, Hcv in Hout. congruence.
Qed.

(** The rows of the entity 111, with and without an event and a snapshot
    row of the entity 222. *)
Lemma restore_history_of_campaign_witness :
  List.filter (fun r => rs_campaign_id r =? 111)
    [{| rs_date := "D1"; rs_campaign_id := 111; rs_value := IntCell 100 |};
     {| rs_date := "D2"; rs_campaign_id := 111; rs_value := IntCell 150 |};
     {| rs_date := "D1"; rs_campaign_id := 222; rs_value := IntCell 9 |};
     {| rs_date := "D2"; rs_campaign_id := 222; rs_value := IntCell 9 |}] =
  List.filter (fun r => rs_campaign_id r =? 111)
    [{| rs_date := "D1"; rs_campaign_id := 111; rs_value := IntCell 100 |};
     {| rs_date := "D2"; rs_campaign_id := 111; rs_value := IntCell 150 |};
     {| rs_date := "D1"; rs_campaign_id := 222; rs_value := IntCell 5 |};
     {| rs_date := "D2"; rs_campaign_id := 222; rs_value := IntCell 7 |}].
Proof.
  apply (restore_history_of_campaign (placeholders [111; 222] ["D1"; "D2"])
    [{| ev_date := "D2"; ev_campaign_id := 111;
        value_old := Some (100 # 1)%Q; value_new := Some (150 # 1)%Q |}]
    [{| ev_date := "D2"; ev_campaign_id := 111;
        value_old := Some (100 # 1)%Q; value_new := Some (150 # 1)%Q |};
     {| ev_date := "D2"; ev_campaign_id := 222;
        value_old := Some (5 # 1)%Q; value_new := Some (7 # 1)%Q |}]
    [{| sn_campaign_id := 222; sn_budget_amount := Some (9 # 1)%Q;
        sn_target_cpa := None; sn_target_roas := None |}]
    [] budget_amount 111).
  - reflexivity.
  - reflexivity.
  - vm_compute. reflexivity.
  - vm_compute. reflexivity.
Defined.

(** ** Where the values come from *)

Lemma next_valid_Some k rows q :
  next_valid k rows = Some q -> In (k, Some q) rows.
Proof.
  induction rows as [|[k' v] rows IH]; [discriminate|]. cbn [next_valid].
  destruct (Z.eqb_spec k' k) as [-> | Hne].
  - destruct v as [x|]; cbn [fillna].
    + intros H. inversion H. left. reflexivity.
    + intros H. right. apply IH. exact H.
  - intros H. right. apply IH. exact H.
Qed.

Lemma fill_from_provenance joined : forall last x q,
  In x (fill_from last joined) -> snd x = Some q ->
  last !! j_campaign_id (fst x) = Some q \/
  exists r, In r joined /\ j_campaign_id r = j_campaign_id (fst x) /\
            (j_value_old r = Some q \/ j_value_new r = Some q).
Proof.
  induction joined as [|r joined IH]; intros last x q Hx Hq; [contradiction|].
  rewrite fill_from_cons in Hx. destruct Hx as [<- | Hx].
  - cbn [fst snd] in *.
    destruct (j_value_new r) as [n|] eqn:Hn; cbn [fillna] in Hq.
    + right. exists r. split; [left; reflexivity|]. split; [reflexivity|].
      right. congruence.
    + destruct (last !! j_campaign_id r) as [l|] eqn:Hl; cbn [fillna] in Hq.
      * left. exact Hq.
      * destruct (j_value_old r) as [o|] eqn:Ho; cbn [fillna] in Hq.
        -- right. exists r. split; [left; reflexivity|].
           split; [reflexivity|]. left. congruence.
        -- apply next_valid_Some in Hq. unfold olds in Hq.
           apply in_map_iff in Hq. destruct Hq as [r' [Heq Hr']].
           injection Heq as Hkey Hold. right. exists r'.
           split; [right; exact Hr'|]. split; [exact Hkey|]. left. exact Hold.
  - destruct (IH _ x q Hx Hq) as [Hlast | [r' [Hr' H]]].
    + destruct (j_value_new r) as [n|] eqn:Hn; [|left; exact Hlast].
      destruct (decide (j_campaign_id r = j_campaign_id (fst x)))
        as [Heq | Hne].
      * rewrite Heq, lookup_insert_eq in Hlast. right. exists r.
        split; [left; reflexivity|]. split; [exact Heq|]. right. congruence.
      * rewrite lookup_insert_ne in Hlast by exact Hne. left. exact Hlast.
    + right. exists r'. split; [right; exact Hr' | exact H].
Qed.

Lemma fill_history_provenance placeholder_df ph cv name f q :
  In f (fill_history placeholder_df ph cv name) -> fr_value f = Some q ->
  (exists ev, In ev ph /\ ev_campaign_id ev = fr_campaign_id f /\
              on_grid placeholder_df ev = true /\
              (value_old ev = Some q \/ value_new ev = Some q)) \/
  (exists s, In s cv /\ sn_campaign_id s = fr_campaign_id f /\
             snapshot_column name s = Some q).
Proof.
  intros Hf Hq. unfold fill_history in Hf. destruct ph as [|ev0 ph].
  - right. apply in_left_merge in Hf. destruct Hf as [p [_ Hcase]].
    destruct Hcase as [[s [Hs [Hk ->]]] | [_ ->]]; [|discriminate].
    exists s. apply Z.eqb_eq in Hk. auto.
  - cbv zeta in Hf. apply in_left_merge in Hf. destruct Hf as [x [Hx Hcase]].
    assert (Hshape : fr_campaign_id f = j_campaign_id (fst x) /\
              (snd x = Some q \/
               (snd x = None /\ exists s, In s cv /\
                  sn_campaign_id s = j_campaign_id (fst x) /\
                  snapshot_column name s = Some q))).
    { destruct Hcase as [[s [Hs [Hk ->]]] | [_ ->]];
        unfold join_snapshot_where, fr_value in Hq; cbn [snd] in Hq;
        (split; [reflexivity|]).
      - destruct (snd x) as [v|]; [left; exact Hq|].
        right. split; [reflexivity|]. exists s. apply Z.eqb_eq in Hk. auto.
      - destruct (snd x) as [v|]; [left; exact Hq | discriminate]. }
    destruct Hshape as [Hc [Hv | [_ [s [Hs [Hsc Hsv]]]]]].
    + left. rewrite fill_forward_backward_from in Hx.
      destruct (fill_from_provenance _ _ _ _ Hx Hv) as [Hl | [r [Hr [Hrc Hrv]]]];
        [rewrite lookup_empty in Hl; discriminate|].
      apply in_left_merge in Hr. destruct Hr as [p [Hp Hr]].
      destruct Hr as [[ev [Hev [Hk ->]]] | [_ ->]].
      * exists ev. split; [exact Hev|].
        pose proof Hk as Hk'. apply same_campaign_date_true in Hk'.
        split; [cbn [join_event j_campaign_id] in Hrc; destruct Hk'; congruence|].
        split; [|exact Hrv].
        unfold on_grid. apply existsb_exists. exists p. auto.
      * cbn [join_event j_value_old j_value_new] in Hrv.
        destruct Hrv; discriminate.
    + right. exists s. rewrite Hc. auto.
Qed.

(** X15.  Where the values come from.  Every value that [restore_history]
    returns for an entity is the cast of a null, of the old or the new value
    of an event of that entity on the grid, or of a snapshot value of that
    entity: no value passes from one entity to another, and none is made
    up. *)
Theorem restore_history_provenance
    (placeholder_df : list placeholder) (ph : list event)
    (cv : list snapshot_row) (name : dimension)
    (out : list restored_row) (r : restored_row) :
  restore_history placeholder_df ph cv name = Ok out -> In r out ->
  exists v,
    cast_cell name v = Ok (rs_value r) /\
    forall q, v = Some q ->
      (exists ev, In ev ph /\ ev_campaign_id ev = rs_campaign_id r /\
                  on_grid placeholder_df ev = true /\
                  (value_old ev = Some q \/ value_new ev = Some q)) \/
      (exists s, In s cv /\ sn_campaign_id s = rs_campaign_id r /\
                 snapshot_column name s = Some q).
Proof.
  intros Hout Hr.
  destruct (restore_history_rows _ _ _ _ _ _ Hout Hr)
    as [f [Hf [_ [Hc Hcast]]]].
  exists (fr_value f). split; [exact Hcast|]. intros q Hq. rewrite Hc.
  apply (fill_history_provenance _ _ _ _ _ _ Hf Hq).
Qed.

(** The value of the entity 111 on the first day is the old value of its
    event. *)
Lemma restore_history_provenance_witness :
  exists v,
    cast_cell budget_amount v = Ok (IntCell 100) /\
    forall q, v = Some q ->
      (exists ev,
         In ev [{| ev_date := "D2"; ev_campaign_id := 111;
                   value_old := Some (100 # 1)%Q;
                   value_new := Some (150 # 1)%Q |}] /\
         ev_campaign_id ev = 111 /\
         on_grid (placeholders [111] ["D1"; "D2"]) ev = true /\
         (value_old ev = Some q \/ value_new ev = Some q)) \/
      (exists s : snapshot_row,
         In s [] /\ sn_campaign_id s = 111 /\
         snapshot_column budget_amount s = Some q).
Proof.
  apply (restore_history_provenance (placeholders [111] ["D1"; "D2"])
    [{| ev_date := "D2"; ev_campaign_id := 111;
        value_old := Some (100 # 1)%Q; value_new := Some (150 # 1)%Q |}]
    [] budget_amount
    [{| rs_date := "D1"; rs_campaign_id := 111; rs_value := IntCell 100 |};
     {| rs_date := "D2"; rs_campaign_id := 111; rs_value := IntCell 150 |}]
    {| rs_date := "D1"; rs_campaign_id := 111; rs_value := IntCell 100 |}).
  - vm_compute. reflexivity.
  - left; reflexivity.
Defined.
